(** * Invoice product extractor: the line-pair scan of [server.py] and [app.py]

    The development embeds the text-to-record scan that both entry points of
    the application carry ([parse_products_from_text] in [server.py] and the
    body of [extract_invoice_data] in [app.py]) together with the fragment of
    the Python runtime the scan relies on: [str.strip], [str.split],
    [str.startswith], the backtracking matcher of [re] for the three patterns
    the code compiles, and [float] on the text those patterns capture.

    Strings are [String.string]; a character is read as the code point of the
    same number (0..255).  On that range the Unicode predicates Python uses
    ([str.isspace], the decimal-digit test behind [\d], simple lower-casing)
    are the finite tables written out below. *)

From Stdlib Require Import String Ascii List ZArith NArith Bool Arith Lia Sorted.
From Stdlib Require Import Floats.SpecFloat.
Import ListNotations.

Local Open Scope string_scope.

(** ** Python string primitives *)

Module Py.

(** Exceptions the scan can raise. *)
Inductive exn : Type :=
| ValueError.

(** Outcome of a Python expression: a value, or a raised exception. *)
Inductive result (A : Type) : Type :=
| Ok (a : A)
| Raise (e : exn).

Arguments Ok {A} a.
Arguments Raise {A} e.

Definition bind {A B : Type} (r : result A) (k : A -> result B) : result B :=
  match r with
  | Ok a => k a
  | Raise e => Raise e
  end.

(** [str.isspace] for one character: TAB..CR, FS..US, SPACE, NEL, NBSP. *)
Definition isspace (c : ascii) : bool :=
  let n := N_of_ascii c in
  (((9 <=? n) && (n <=? 13)) || ((28 <=? n) && (n <=? 32))
   || (n =? 133) || (n =? 160))%N.

(** The decimal-digit test ([\d] on [str] patterns). *)
Definition isdecimal (c : ascii) : bool :=
  let n := N_of_ascii c in ((48 <=? n) && (n <=? 57))%N.

(** Simple lower-casing of one character: A-Z, and the capital letters
    of the upper half (all of 192..222 but the multiplication sign). *)
Definition lower (c : ascii) : ascii :=
  let n := N_of_ascii c in
  if (((65 <=? n) && (n <=? 90))
      || ((192 <=? n) && (n <=? 222) && negb (n =? 215)))%N
  then ascii_of_N (n + 32) else c.

Fixpoint lstrip (s : string) : string :=
  match s with
  | EmptyString => EmptyString
  | String c r => if isspace c then lstrip r else s
  end.

Fixpoint rstrip (s : string) : string :=
  match s with
  | EmptyString => EmptyString
  | String c r =>
      match rstrip r with
      | EmptyString => if isspace c then EmptyString else String c EmptyString
      | r' => String c r'
      end
  end.

(** [s.strip()] *)
Definition strip (s : string) : string := rstrip (lstrip s).

(** [s.split(sep)] for a one-character separator: never an empty list. *)
Fixpoint split (sep : ascii) (s : string) : list string :=
  match s with
  | EmptyString => [EmptyString]
  | String c r =>
      if Ascii.eqb c sep then EmptyString :: split sep r
      else match split sep r with
           | h :: t => String c h :: t
           | [] => [String c EmptyString]
           end
  end.

(** [l[-1]] on a list that [split] returned. *)
Definition last_item (l : list string) : string := List.last l EmptyString.

(** [s.startswith(p)] *)
Definition startswith (p s : string) : bool := String.prefix p s.

(** Truth value of a [str]: [not line] holds for the empty string only. *)
Definition truthy (s : string) : bool :=
  match s with
  | EmptyString => false
  | String _ _ => true
  end.

(** *** [float] on digit-and-dot text

    [float(s)] is only ever applied to the text captured by [[\d\.]+],
    so the model covers strings over the digits and ['.']: such a string
    is a number when it holds at most one dot and at least one digit, and
    [ValueError] otherwise.  The value is the binary64 number nearest to
    the decimal (ties to even), obtained as the correctly rounded quotient
    of the digit string read as an integer by the matching power of ten. *)

Definition prec : Z := 53.
Definition emax : Z := 1024.

Definition float : Type := spec_float.

Definition digit_val (c : ascii) : Z := Z.of_N (N_of_ascii c) - 48.

(** Reads a run of digits; [None] on any other character. *)
Fixpoint digits_val (acc : Z) (s : string) : option Z :=
  match s with
  | EmptyString => Some acc
  | String c r =>
      if isdecimal c then digits_val (10 * acc + digit_val c)%Z r else None
  end.

(** Cuts [s] at its first ['.']: the text before it, and the text after
    it when there is one. *)
Fixpoint cut_dot (s : string) : string * option string :=
  match s with
  | EmptyString => (EmptyString, None)
  | String c r =>
      if Ascii.eqb c "."%char then (EmptyString, Some r)
      else let '(a, b) := cut_dot r in (String c a, b)
  end.

Definition SF_of_Z (m : Z) : spec_float :=
  match m with
  | Zpos p => S754_finite false p 0
  | _ => S754_zero false
  end.

(** The binary64 number nearest to [m / 10^k]. *)
Definition float_of_decimal (m : Z) (k : nat) : float :=
  SFdiv prec emax (SF_of_Z m) (SF_of_Z (10 ^ Z.of_nat k)).

Definition py_float (s : string) : result float :=
  let '(ip, fp) := cut_dot s in
  let fp := match fp with Some f => f | None => EmptyString end in
  match ip ++ fp with
  | EmptyString => Raise ValueError
  | _ =>
      match digits_val 0 ip, digits_val 0 (ip ++ fp) with
      | Some _, Some m => Ok (float_of_decimal m (String.length fp))
      | _, _ => Raise ValueError
      end
  end.

(** The binary64 number [m * 2^e], for writing expected values. *)
Definition dyadic (m e : Z) : float := binary_normalize prec emax m e false.

End Py.

(** ** The fragment of [re] the scan uses

    Each of the three patterns is a sequence of quantified one-character
    tests, some of them wrapped in a capture group.  The matcher tries the
    repetition counts of each element in the order the backtracking engine
    does (most first for a greedy quantifier, fewest first for a lazy one)
    and keeps the first assignment under which the rest of the pattern
    matches. *)

Module Re.

Inductive greed : Type :=
| Greedy
| Lazy.

Record atom : Type := Atom {
  cls : ascii -> bool;      (* the one-character test *)
  lo : nat;                 (* least number of repetitions *)
  hi : option nat;          (* most repetitions, [None] when unbounded *)
  mode : greed;
  captured : bool           (* wrapped in a capture group *)
}.

Definition pattern : Type := list atom.

Fixpoint take (n : nat) (s : string) : string :=
  match n, s with
  | S k, String c r => String c (take k r)
  | _, _ => EmptyString
  end.

Fixpoint drop (n : nat) (s : string) : string :=
  match n, s with
  | S k, String _ r => drop k r
  | _, _ => s
  end.

(** Length of the longest prefix of [s] whose characters all pass [p]. *)
Fixpoint span (p : ascii -> bool) (s : string) : nat :=
  match s with
  | String c r => if p c then S (span p r) else 0
  | EmptyString => 0
  end.

(** Most repetitions of [a] available at the head of [s]. *)
Definition avail (a : atom) (s : string) : nat :=
  match hi a with
  | Some h => Nat.min h (span (cls a) s)
  | None => span (cls a) s
  end.

(** Repetition counts of [a] in the order they are tried, given that at
    most [n] repetitions are available. *)
Definition counts (a : atom) (n : nat) : list nat :=
  let up := seq (lo a) (S n - lo a) in
  match mode a with
  | Lazy => up
  | Greedy => rev up
  end.

Fixpoint first_some {A B : Type} (f : A -> option B) (l : list A) : option B :=
  match l with
  | [] => None
  | x :: r =>
      match f x with
      | Some b => Some b
      | None => first_some f r
      end
  end.

(** Matches [re] at the head of [s]; the result lists the text of the
    capture groups, first group first. *)
Fixpoint match_here (re : pattern) (s : string) : option (list string) :=
  match re with
  | [] => Some []
  | a :: re' =>
      first_some
        (fun c =>
           match match_here re' (drop c s) with
           | Some gs => Some (if captured a then take c s :: gs else gs)
           | None => None
           end)
        (counts a (avail a s))
  end.

(** [pattern.match(s)]: the match must start at the first character. *)
Definition re_match (re : pattern) (s : string) : option (list string) :=
  match_here re s.

(** [re.search(pattern, s)]: the leftmost position with a match. *)
Fixpoint search (re : pattern) (s : string) : option (list string) :=
  match match_here re s with
  | Some gs => Some gs
  | None =>
      match s with
      | String _ r => search re r
      | EmptyString => None
      end
  end.

(** [m.group(k)], for [k >= 1]. *)
Definition group (k : nat) (m : list string) : string :=
  nth (k - 1) m EmptyString.

(** *** Pattern elements *)

Definition one (p : ascii -> bool) : atom := Atom p 1 (Some 1) Greedy false.
Definition exactly (n : nat) (p : ascii -> bool) : atom :=
  Atom p n (Some n) Greedy false.
Definition star (p : ascii -> bool) : atom := Atom p 0 None Greedy false.
Definition plus (p : ascii -> bool) : atom := Atom p 1 None Greedy false.
Definition plus_lazy (p : ascii -> bool) : atom := Atom p 1 None Lazy false.
Definition grp (a : atom) : atom :=
  Atom (cls a) (lo a) (hi a) (mode a) true.

(** [\d], [\s] and [.] (any character but a line feed). *)
Definition cat_digit : ascii -> bool := Py.isdecimal.
Definition cat_space : ascii -> bool := Py.isspace.
Definition any : ascii -> bool := fun c => negb (Ascii.eqb c "010"%char).

(** A literal character, and the same under [re.IGNORECASE]. *)
Definition lit (ch : ascii) : ascii -> bool := fun c => Ascii.eqb c ch.
Definition lit_i (ch : ascii) : ascii -> bool :=
  fun c => Ascii.eqb (Py.lower c) (Py.lower ch).

Definition lits (s : string) : pattern :=
  map (fun ch => one (lit ch)) (list_ascii_of_string s).
Definition lits_i (s : string) : pattern :=
  map (fun ch => one (lit_i ch)) (list_ascii_of_string s).

(** [[\d\s/]] and [[\d\.]] *)
Definition set_dim : ascii -> bool :=
  fun c => Py.isdecimal c || Py.isspace c || Ascii.eqb c "/"%char.
Definition set_num : ascii -> bool :=
  fun c => Py.isdecimal c || Ascii.eqb c "."%char.

(** [r'^(\d{4})\s+Series\s+(.+?)\s+([\d\s/]+)\s*x\s*([\d\s/]+)\s*-'] with
    [re.IGNORECASE].  The flag changes the literal characters only: none
    of the three character sets tells a letter from its other case. *)
Definition desc_pattern : pattern :=
  ([grp (exactly 4 cat_digit); plus cat_space]
   ++ lits_i "Series"
   ++ [plus cat_space; grp (plus_lazy any); plus cat_space;
       grp (plus set_dim); star cat_space; one (lit_i "x");
       star cat_space; grp (plus set_dim); star cat_space;
       one (lit_i "-")])%list.

(** [r'Width =\s*([\d\.]+)'] and [r'Height =\s*([\d\.]+)'] *)
Definition width_pattern : pattern :=
  (lits "Width =" ++ [star cat_space; grp (plus set_num)])%list.
Definition height_pattern : pattern :=
  (lits "Height =" ++ [star cat_space; grp (plus set_num)])%list.

End Re.

(** ** Data model

    The scan keeps its pending description and its records in dictionaries
    with fixed keys; they are records here, fields in the order of the keys
    in the dictionary displays. *)

(** The pending description: keys ['Series ID'] and ['Window Style']. *)
Record pending_desc : Type := Pending {
  pending_Series_ID : string;
  pending_Window_Style : string
}.

(** An emitted record. *)
Record product : Type := Product {
  Manufacturer : string;
  Frame_Color : string;
  Series_ID : string;
  Window_Style : string;
  Width : option Py.float;
  Height : option Py.float
}.

(** State of the [for] loop: [products] and [pending]. *)
Definition scan_state : Type := (list product * option pending_desc)%type.

(** A [for] loop whose body may raise. *)
Fixpoint for_each {S A : Type} (body : S -> A -> Py.result S) (st : S)
    (l : list A) : Py.result S :=
  match l with
  | [] => Py.Ok st
  | x :: r => Py.bind (body st x) (fun st' => for_each body st' r)
  end.

Notation "x <- e ;; k" := (Py.bind e (fun x => k))
  (at level 61, e at next level, right associativity).

(** ** [server.py] *)

Module Server.

Section Extraction.
(** [pdfminer]'s [extract_text]: [None] stands for any exception. *)
Variable extract_text : string -> option string.

Definition extract_text_from_pdf (pdf_path : string) : string :=
  match extract_text pdf_path with
  | Some text => text
  | None => EmptyString
  end.
End Extraction.

(** One pass through the body of [for line in lines]. *)
Definition loop_body (st : scan_state) (line : string) : Py.result scan_state :=
  let '(products, pending) := st in
  if negb (Py.truthy line) then Py.Ok (products, pending)
  else
    match Re.re_match Re.desc_pattern line with
    | Some m =>
        Py.Ok (products,
               Some {| pending_Series_ID := Py.strip (Re.group 1 m) ++ " Series";
                       pending_Window_Style := Py.strip (Re.group 2 m) |})
    | None =>
        match pending with
        | Some p =>
            if Py.startswith "Frame:" line then
              let w_match := Re.search Re.width_pattern line in
              let h_match := Re.search Re.height_pattern line in
              width <- match w_match with
                       | Some w => v <- Py.py_float (Re.group 1 w) ;; Py.Ok (Some v)
                       | None => Py.Ok None
                       end ;;
              height <- match h_match with
                        | Some h => v <- Py.py_float (Re.group 1 h) ;; Py.Ok (Some v)
                        | None => Py.Ok None
                        end ;;
              let colour := Py.strip (Py.last_item (Py.split "," line)) in
              Py.Ok ((products ++ [ {| Manufacturer := "CWS";
                                       Frame_Color := colour;
                                       Series_ID := pending_Series_ID p;
                                       Window_Style := pending_Window_Style p;
                                       Width := width;
                                       Height := height |} ])%list,
                     None)
            else Py.Ok (products, pending)
        | None => Py.Ok (products, pending)
        end
    end.

Definition parse_products_from_text (text : string) : Py.result (list product) :=
  let lines := map Py.strip (Py.split "010" text) in
  st <- for_each loop_body ([], None) lines ;;
  Py.Ok (fst st).

End Server.

(** ** [app.py] *)

Module App.

(** One pass through the body of [for line in lines] in
    [extract_invoice_data]. *)
Definition scan_line (st : scan_state) (line : string) : Py.result scan_state :=
  let '(products, pending) := st in
  if negb (Py.truthy line) then Py.Ok (products, pending)
  else
    let match_ := Re.re_match Re.desc_pattern line in
    match match_ with
    | Some g =>
        let pending := {| pending_Series_ID := Py.strip (Re.group 1 g) ++ " Series";
                          pending_Window_Style := Py.strip (Re.group 2 g) |} in
        Py.Ok (products, Some pending)
    | None =>
        match pending with
        | Some p =>
            if Py.startswith "Frame:" line then
              let w_match := Re.search Re.width_pattern line in
              let h_match := Re.search Re.height_pattern line in
              width <- match w_match with
                       | Some w => v <- Py.py_float (Re.group 1 w) ;; Py.Ok (Some v)
                       | None => Py.Ok None
                       end ;;
              height <- match h_match with
                        | Some h => v <- Py.py_float (Re.group 1 h) ;; Py.Ok (Some v)
                        | None => Py.Ok None
                        end ;;
              let colour := Py.strip (Py.last_item (Py.split "," line)) in
              let record := {| Manufacturer := "CWS";
                               Frame_Color := colour;
                               Series_ID := pending_Series_ID p;
                               Window_Style := pending_Window_Style p;
                               Width := width;
                               Height := height |} in
              Py.Ok ((products ++ [record])%list, None)
            else Py.Ok (products, pending)
        | None => Py.Ok (products, pending)
        end
    end.

(** The text-scanning portion of [extract_invoice_data]: everything after
    the text has been obtained. *)
Definition scan_text (text : string) : Py.result (list product) :=
  let lines := map Py.strip (Py.split "010" text) in
  st <- for_each scan_line ([], None) lines ;;
  Py.Ok (fst st).

Section Extraction.
(** [pdfminer]'s [extract_text]: [None] stands for any exception. *)
Variable extract_text : string -> option string.

Definition extract_invoice_data (pdf_path : string) : Py.result (list product) :=
  let text := match extract_text pdf_path with
              | Some t => t
              | None => EmptyString
              end in
  scan_text text.
End Extraction.

End App.

(** ** Vocabulary of the statements *)

(** Every character of [s] passes [p]. *)
Fixpoint all_chars (p : ascii -> bool) (s : string) : bool :=
  match s with
  | EmptyString => true
  | String c r => p c && all_chars p r
  end.

Definition LF : ascii := "010"%char.
Definition comma : ascii := ","%char.

(** The one-character string that ends a line. *)
Definition newline : string := String LF EmptyString.

(** [s] holds no line feed: it is one line of a text. *)
Definition one_line (s : string) : Prop := all_chars Re.any s = true.

(** [s] is empty or made of white space only. *)
Definition blank (s : string) : Prop := all_chars Py.isspace s = true.

(** The lines the loop runs over. *)
Definition normalized_lines (text : string) : list string :=
  map Py.strip (Py.split LF text).

(** [s] holds no comma: it is one segment of [line.split(',')]. *)
Definition no_comma (s : string) : Prop :=
  all_chars (fun c => negb (Ascii.eqb c comma)) s = true.

(** [needle] occurs in [hay]. *)
Definition occurs (needle hay : string) : Prop :=
  exists a b, hay = a ++ needle ++ b.

(** The value the scan gives a frame line for the number that [pat]
    looks for: [None] without a match, the parsed capture with one. *)
Definition frame_number (pat : Re.pattern) (line : string)
    : Py.result (option Py.float) :=
  match Re.search pat line with
  | Some g => v <- Py.py_float (Re.group 1 g) ;; Py.Ok (Some v)
  | None => Py.Ok None
  end.

(** In [line], the first place where [key] is followed by optional white
    space and then a digit or a dot comes after [a]; the white space there
    is [ws] and the whole run of digits and dots is [num]. *)
Definition number_after (key line a ws num b : string) : Prop :=
  line = a ++ key ++ ws ++ num ++ b /\
  blank ws /\
  num <> "" /\
  all_chars Re.set_num num = true /\
  Re.span Re.set_num b = 0 /\
  forall a1 rest : string,
    line = a1 ++ key ++ rest ->
    String.length a1 < String.length a ->
    Re.span Re.set_num (Py.lstrip rest) = 0.

(** The two elements that end both number patterns: [\s*([\d\.]+)]. *)
Definition number_tail : Re.pattern :=
  [Re.star Re.cat_space; Re.grp (Re.plus Re.set_num)].

(** The part of the description pattern that follows the word [Series]. *)
Definition desc_tail : Re.pattern :=
  [Re.plus Re.cat_space; Re.grp (Re.plus_lazy Re.any); Re.plus Re.cat_space;
   Re.grp (Re.plus Re.set_dim); Re.star Re.cat_space; Re.one (Re.lit_i "x");
   Re.star Re.cat_space; Re.grp (Re.plus Re.set_dim); Re.star Re.cat_space;
   Re.one (Re.lit_i "-")].

(** [s1] and [s2] are the same text up to the case of their letters. *)
Fixpoint same_fold (s1 s2 : string) : bool :=
  match s1, s2 with
  | EmptyString, EmptyString => true
  | String a r1, String b r2 =>
      Ascii.eqb (Py.lower a) (Py.lower b) && same_fold r1 r2
  | _, _ => false
  end.

(** A one-character test that does not tell a letter from its other case. *)
Definition fold_blind (p : ascii -> bool) : Prop :=
  forall a b, Py.lower a = Py.lower b -> p a = p b.

(** Two outcomes of a match that agree up to the case of letters. *)
Definition same_match (o1 o2 : option (list string)) : Prop :=
  match o1, o2 with
  | Some g1, Some g2 => Forall2 (fun a b => same_fold a b = true) g1 g2
  | None, None => True
  | _, _ => False
  end.

(** What the loop makes of a line. *)
Inductive kind : Type :=
| Description   (* not empty, matches the description pattern *)
| Frame         (* not a description, begins with [Frame:] *)
| Other.

Definition classify (line : string) : kind :=
  if negb (Py.truthy line) then Other
  else match Re.re_match Re.desc_pattern line with
       | Some _ => Description
       | None => if Py.startswith "Frame:" line then Frame else Other
       end.

Definition is_description (k : kind) : bool :=
  match k with
  | Description => true
  | _ => false
  end.

(** 1 when a description is pending, 0 when the slot is empty. *)
Definition occupied (pending : option pending_desc) : nat :=
  match pending with
  | Some _ => 1
  | None => 0
  end.

(** Number of lines that match the description pattern. *)
Definition count_descriptions (lines : list string) : nat :=
  List.length (filter (fun l => is_description (classify l)) lines).

(** Line [j] is a description, line [i] is a later frame line, and no
    description or frame line stands between them. *)
Definition paired (ks : list kind) (j i : nat) : Prop :=
  j < i /\
  nth_error ks j = Some Description /\
  nth_error ks i = Some Frame /\
  forall k, j < k < i -> nth_error ks k = Some Other.

(** The pending description a match [m] of the description pattern sets. *)
Definition pending_of (m : list string) : pending_desc :=
  {| pending_Series_ID := Py.strip (Re.group 1 m) ++ " Series";
     pending_Window_Style := Py.strip (Re.group 2 m) |}.

(** Line [j] is a description and only other lines follow it: it is the
    description that is pending when the lines [ks] have been read. *)
Definition trailing (ks : list kind) (j : nat) : Prop :=
  nth_error ks j = Some Description /\
  forall k, j < k < List.length ks -> nth_error ks k = Some Other.

(** [r] is the record of description line [d] and frame line [f]. *)
Definition record_of (d f : string) (r : product) : Prop :=
  exists m,
    Re.re_match Re.desc_pattern d = Some m /\
    Manufacturer r = "CWS" /\
    Series_ID r = Py.strip (Re.group 1 m) ++ " Series" /\
    Window_Style r = Py.strip (Re.group 2 m) /\
    Frame_Color r = Py.strip (Py.last_item (Py.split comma f)) /\
    frame_number Re.width_pattern f = Py.Ok (Width r) /\
    frame_number Re.height_pattern f = Py.Ok (Height r).

(** [r] is the record of the lines numbered [fst ji] and [snd ji]. *)
Definition record_at (lines : list string) (ji : nat * nat) (r : product) : Prop :=
  exists d f,
    nth_error lines (fst ji) = Some d /\
    nth_error lines (snd ji) = Some f /\
    record_of d f r.

(** What holds of the state [st] reached after the lines [lines]: the
    records are those of the paired lines, in the order of their frame
    lines, and the slot holds the description after which only other lines
    came, if there is one. *)
Definition scan_invariant (lines : list string) (st : scan_state) : Prop :=
  let ks := map classify lines in
  (exists pairs : list (nat * nat),
      (forall j i, In (j, i) pairs <-> paired ks j i) /\
      StronglySorted (fun a b => snd a < snd b) pairs /\
      Forall2 (record_at lines) pairs (fst st)) /\
  match snd st with
  | Some p =>
      exists j d m,
        trailing ks j /\ nth_error lines j = Some d /\
        Re.re_match Re.desc_pattern d = Some m /\ p = pending_of m
  | None => forall j, ~ trailing ks j
  end.

(** The pair of lines the documentation gives as its example. *)
Definition example_desc : string :=
  "7300 Series Direct Set Half Round 73 x 36 1/2 - FLANGE".
Definition example_frame : string :=
  "Frame: Width = 73, Height = 36.5, Radius = 36.5, Bronze".

(** The record the documentation expects for them: width 73.0 and
    height 36.5. *)
Definition example_record : product :=
  {| Manufacturer := "CWS";
     Frame_Color := "Bronze";
     Series_ID := "7300 Series";
     Window_Style := "Direct Set Half Round";
     Width := Some (Py.dyadic 73 0);
     Height := Some (Py.dyadic 73 (-1)) |}.

(** The state in which the loop of [parse_products_from_text] ends. *)
Definition final_state (text : string) : Py.result scan_state :=
  for_each Server.loop_body ([], None) (normalized_lines text).

(** ** Vocabulary of further statements about the scan *)

Definition is_frame (k : kind) : bool :=
  match k with
  | Frame => true
  | _ => false
  end.

(** Number of lines that begin with [Frame:]. *)
Definition count_frames (lines : list string) : nat :=
  List.length (filter (fun l => is_frame (classify l)) lines).

Definition CR : ascii := "013"%char.

(** The text with every line feed preceded by a carriage return. *)
Fixpoint crlf (s : string) : string :=
  match s with
  | EmptyString => EmptyString
  | String c r =>
      if Ascii.eqb c LF then String CR (String LF (crlf r))
      else String c (crlf r)
  end.

(** [float] rejects the text that the search for [pat] captures on
    [line]. *)
Definition bad_number (pat : Re.pattern) (line : string) : Prop :=
  exists m, Re.search pat line = Some m /\
            Py.py_float (Re.group 1 m) = Py.Raise Py.ValueError.

(** Number of dots in [s], and whether [s] holds a digit. *)
Fixpoint dots (s : string) : nat :=
  match s with
  | EmptyString => 0
  | String c r => (if Ascii.eqb c "." then 1 else 0) + dots r
  end.

Fixpoint has_digit (s : string) : bool :=
  match s with
  | EmptyString => false
  | String c r => Py.isdecimal c || has_digit r
  end.

(** ** Which element of a pattern a character meets

    [match_counts] is [Re.match_here] with the groups left out and the
    repetition counts kept: the number of characters each element of the
    pattern takes in the match the engine settles on.  [groups_of] cuts
    the groups out of the text by these counts. *)
Fixpoint match_counts (re : Re.pattern) (s : string) : option (list nat) :=
  match re with
  | [] => Some []
  | a :: re' =>
      Re.first_some
        (fun c =>
           match match_counts re' (Re.drop c s) with
           | Some cs => Some (c :: cs)
           | None => None
           end)
        (Re.counts a (Re.avail a s))
  end.

Fixpoint groups_of (re : Re.pattern) (cs : list nat) (s : string)
    : list string :=
  match re, cs with
  | a :: re', c :: cs' =>
      let gs := groups_of re' cs' (Re.drop c s) in
      if Re.captured a then Re.take c s :: gs else gs
  | _, _ => []
  end.

(** The [x] between the two dimensions is element 13 of the description
    pattern, counting from 0. *)
Definition x_element : nat := 13.

(** The place of the dimension separator in a line that matches the
    description pattern: the number of characters before the one that the
    [x] of the pattern meets. *)
Definition separator (line : string) : option nat :=
  match match_counts Re.desc_pattern line with
  | Some cs => Some (list_sum (firstn x_element cs))
  | None => None
  end.

(** The character at place [k] lies in no capture group, when the
    elements of [re] take [cs] characters each. *)
Fixpoint uncaptured (re : Re.pattern) (cs : list nat) (k : nat) : Prop :=
  match re, cs with
  | a :: re', c :: cs' =>
      if (k <? c)%nat then Re.captured a = false
      else uncaptured re' cs' (k - c)
  | _, _ => True
  end.

(** ** More of the Python runtime

    What the upload handlers of the two files use besides the scan:
    [str.lower], [in] on a string, [str.rsplit] with one split,
    [str.endswith], and [os.path.basename] and [os.path.join] as
    [posixpath] defines them. *)

Module PyLib.

(** [s.lower()] *)
Fixpoint lower (s : string) : string :=
  match s with
  | EmptyString => EmptyString
  | String c r => String (Py.lower c) (lower r)
  end.

(** [c in s] for a one-character string [c]. *)
Fixpoint contains (c : ascii) (s : string) : bool :=
  match s with
  | EmptyString => false
  | String d r => Ascii.eqb d c || contains c r
  end.

(** The text before and after the last [sep] of [s], when there is one. *)
Fixpoint cut_last (sep : ascii) (s : string) : option (string * string) :=
  match s with
  | EmptyString => None
  | String c r =>
      match cut_last sep r with
      | Some (a, b) => Some (String c a, b)
      | None => if Ascii.eqb c sep then Some (EmptyString, r) else None
      end
  end.

(** [s.rsplit(sep, 1)] for a one-character separator. *)
Definition rsplit_once (sep : ascii) (s : string) : list string :=
  match cut_last sep s with
  | Some (a, b) => [a; b]
  | None => [s]
  end.

(** [l[k]]: [None] stands for [IndexError]. *)
Definition item (l : list string) (k : nat) : option string := nth_error l k.

(** [s.endswith(suffix)] *)
Definition endswith (suffix s : string) : bool :=
  let n := String.length suffix in
  let m := String.length s in
  (n <=? m)%nat && String.eqb (substring (m - n) n s) suffix.

(** [posixpath.basename(p)]: what follows the last slash. *)
Definition basename (p : string) : string :=
  match cut_last "/" p with
  | Some (_, b) => b
  | None => p
  end.

(** [posixpath.join(a, b)] *)
Definition join (a b : string) : string :=
  if Py.startswith "/" b then b
  else if negb (Py.truthy a) || endswith "/" a then a ++ b
  else a ++ "/" ++ b.

End PyLib.

(** ** What the handlers answer, and the files they touch

    [do_POST] of [server.py] and [index] of [app.py] are modelled on
    the request as they read it.  [do_POST] reads the content type and
    the body, which [cgi.FieldStorage] turns into a form or refuses;
    [index] reads the entry of [request.files] under ['file'], a field
    with its file name and its bytes.  Their result is the answer they
    send (an error, a page, or the rows of the spreadsheet that [pandas]
    writes from [products]) or the exception that leaves them, together
    with the files on disk afterwards.  The disk is a map from paths to
    bytes; writing the upload and reading it back through [extract_text]
    go through that map.  The text that [pdfminer] extracts is a
    parameter, a function of the bytes of the file, as are
    [cgi.FieldStorage], [secure_filename] and the upload folder. *)

Module Web.

Inductive response : Type :=
| SendError (status : nat) (message : string)   (* [send_error] *)
| Html (status : nat) (content : string)        (* [_send_html] *)
| Page (error : option string)                  (* [render_template('index.html', ...)] *)
| Spreadsheet (rows : list product).            (* status 200, the sheet of [pd.DataFrame(products)] *)

Inductive exn : Type :=
| ScanError (e : Py.exn)
| IndexError
| FieldStorageError   (* what [cgi.FieldStorage(...)] raises *)
| TypeError           (* [in] on a form that is not indexable *)
| AttributeError.     (* [.filename] on a list of fields *)

Inductive answer : Type :=
| Sent (r : response)
| Raised (e : exn).

(** The [file] field of the form. *)
Record field : Type := Field {
  filename : option string;
  content : string
}.

(** The files on disk: the bytes stored under each path. *)
Definition files : Type := string -> option string.

Definition write (fs : files) (path data : string) : files :=
  fun q => if String.eqb q path then Some data else fs q.

Definition unlink (fs : files) (path : string) : files :=
  fun q => if String.eqb q path then None else fs q.

Section Reader.
(** The text [pdfminer] extracts from a file with the given bytes;
    [None] stands for any exception. *)
Variable pdf_text : string -> option string.

(** [extract_text(path)] with the files [fs] on disk: a missing file is
    an exception like any other. *)
Definition extract_text (fs : files) (path : string) : option string :=
  match fs path with
  | Some data => pdf_text data
  | None => None
  end.

(** The text a handler works on once the upload is on disk: what is
    extracted from its bytes, or the empty string when that fails. *)
Definition text_of (data : string) : string :=
  match pdf_text data with
  | Some t => t
  | None => EmptyString
  end.
End Reader.

(** The headers of a request, in the order received, and
    [headers.get(name)]: the value of the first header of that name,
    whatever the case of its letters. *)
Definition headers : Type := list (string * string).

Fixpoint get (name : string) (h : headers) : option string :=
  match h with
  | [] => None
  | (k, v) :: rest =>
      if String.eqb (PyLib.lower k) (PyLib.lower name) then Some v
      else get name rest
  end.

(** Truth value of [headers.get(...)] and of a file name: [None] and the
    empty string are false. *)
Definition given (o : option string) : bool :=
  match o with
  | Some s => Py.truthy s
  | None => false
  end.

End Web.

(** ** The handler of [server.py] *)

(** What [cgi.FieldStorage] makes of a request.  The constructor raises
    on some requests ([ValueError] on a multipart content type without a
    boundary); on a body that is no form it returns an object on which
    [in] and indexing raise [TypeError]; on a form, [form['file']] is a
    field, or a list of fields when several parts carry that name. *)
Module Cgi.

Inductive entry : Type :=
| One (file_field : Web.field)
| Many (fields : list Web.field).

Inductive storage : Type :=
| Raises
| NotIndexable
| Form (file : option entry).

End Cgi.

Module ServerHandler.

Section Handler.
Variable pdf_text : string -> option string.
(** [cgi.FieldStorage(fp=self.rfile, headers=self.headers,
    environ={'REQUEST_METHOD': 'POST', 'CONTENT_TYPE': content_type})] as
    a function of the body, of the headers and of the content type. *)
Variable FieldStorage : string -> Web.headers -> string -> Cgi.storage.

(** [do_POST], with [headers] and [rfile] the headers and the body of
    the request and [tmp_pdf_path] the name of the temporary file. *)
Definition do_POST (headers : Web.headers) (rfile : string)
    (tmp_pdf_path : string) (fs : Web.files) : Web.answer * Web.files :=
  let content_type := Web.get "Content-Type" headers in
  if negb (Web.given content_type) then
    (Web.Sent (Web.SendError 400 "Content-Type header missing"), fs)
  else
    let content_type := match content_type with
                        | Some value => value
                        | None => EmptyString
                        end in
    match FieldStorage rfile headers content_type with
    | Cgi.Raises => (Web.Raised Web.FieldStorageError, fs)
    | Cgi.NotIndexable => (Web.Raised Web.TypeError, fs)
    | Cgi.Form None =>
        (Web.Sent (Web.Html 400 "<h3>No file part in the request.</h3>"), fs)
    | Cgi.Form (Some (Cgi.Many _)) => (Web.Raised Web.AttributeError, fs)
    | Cgi.Form (Some (Cgi.One file_field)) =>
        if negb (Web.given (Web.filename file_field)) then
          (Web.Sent (Web.Html 400 "<h3>No file selected.</h3>"), fs)
        else
          let filename :=
            PyLib.basename (match Web.filename file_field with
                            | Some name => name
                            | None => EmptyString
                            end) in
          if negb (PyLib.endswith ".pdf" (PyLib.lower filename)) then
            (Web.Sent (Web.Html 400 "<h3>Only PDF files are allowed.</h3>"), fs)
          else
            let fs := Web.write fs tmp_pdf_path (Web.content file_field) in
            let text :=
              Server.extract_text_from_pdf (Web.extract_text pdf_text fs)
                                           tmp_pdf_path in
            let fs := Web.unlink fs tmp_pdf_path in
            if negb (Py.truthy (Py.strip text)) then
              (Web.Sent (Web.Html 500 "<h3>Failed to extract text from PDF.</h3>"),
               fs)
            else
              match Server.parse_products_from_text text with
              | Py.Raise e => (Web.Raised (Web.ScanError e), fs)
              | Py.Ok products =>
                  match products with
                  | [] =>
                      (Web.Sent
                         (Web.Html 200
                            "<h3>No product information found in the invoice.</h3>"),
                       fs)
                  | _ :: _ => (Web.Sent (Web.Spreadsheet products), fs)
                  end
              end
    end.

(** The form [do_POST] reads from a request, when the request names its
    content type. *)
Definition form_of (headers : Web.headers) (rfile : string)
  : option Cgi.storage :=
  match Web.get "Content-Type" headers with
  | Some content_type =>
      if Py.truthy content_type
      then Some (FieldStorage rfile headers content_type)
      else None
  | None => None
  end.

End Handler.

(** A multipart request of one part, the file [filename] with the bytes
    [data], under the boundary [XX]. *)
Definition upload_headers (length : string) : Web.headers :=
  [("Host", "localhost:8000");
   ("Content-Type", "multipart/form-data; boundary=XX");
   ("Content-Length", length)].

Definition upload_rfile (filename data : string) : string :=
  "--XX" ++ newline
  ++ "Content-Disposition: form-data; name=file; filename=" ++ filename
  ++ newline ++ newline
  ++ data ++ newline
  ++ "--XX--" ++ newline.

(** The requests of the examples, [Invoice.PDF] with the two example
    lines and [scan.pdf] with bytes that hold no text.
    [example_FieldStorage] gives the forms [cgi.FieldStorage] makes of
    these two requests; the examples use it on no other. *)
Definition example_upload : Web.field :=
  {| Web.filename := Some "Invoice.PDF";
     Web.content := example_desc ++ newline ++ example_frame |}.

Definition example_scan : Web.field :=
  {| Web.filename := Some "scan.pdf"; Web.content := "%PDF-1.4" |}.

Definition example_FieldStorage (rfile : string) (headers : Web.headers)
    (content_type : string) : Cgi.storage :=
  if negb (String.eqb content_type "multipart/form-data; boundary=XX") then
    Cgi.Raises
  else if String.eqb rfile
            (upload_rfile "Invoice.PDF" (Web.content example_upload)) then
    Cgi.Form (Some (Cgi.One example_upload))
  else if String.eqb rfile (upload_rfile "scan.pdf" (Web.content example_scan)) then
    Cgi.Form (Some (Cgi.One example_scan))
  else Cgi.Form None.

End ServerHandler.

(** ** The route of [app.py] *)

Module AppRoutes.

Definition ALLOWED_EXTENSIONS : list string := ["pdf"].

(** [x in ALLOWED_EXTENSIONS] *)
Definition is_allowed_extension (x : string) : bool :=
  existsb (String.eqb x) ALLOWED_EXTENSIONS.

(** [allowed_file]: [None] stands for the [IndexError] of [[1]]. *)
Definition allowed_file (filename : string) : option bool :=
  if PyLib.contains "." filename then
    match PyLib.item (PyLib.rsplit_once "." filename) 1 with
    | Some ext => Some (is_allowed_extension (PyLib.lower ext))
    | None => None
    end
  else Some false.

Inductive method : Type :=
| GET
| POST.

Section Route.
Variable pdf_text : string -> option string.
(** [werkzeug]'s [secure_filename] and the value of [UPLOAD_FOLDER]. *)
Variable secure_filename : string -> string.
Variable UPLOAD_FOLDER : string.

(** [index], with [file] the entry of [request.files] under ['file'].
    An entry is true when its file name is neither [None] nor empty. *)
Definition index (request_method : method) (file : option Web.field)
    (fs : Web.files) : Web.answer * Web.files :=
  match request_method with
  | POST =>
      match file with
      | None => (Web.Sent (Web.Page (Some "No file part")), fs)
      | Some file =>
          let refused :=
            (Web.Sent (Web.Page (Some "Allowed file type is PDF")), fs) in
          match Web.filename file with
          | Some EmptyString =>
              (Web.Sent (Web.Page (Some "No selected file")), fs)
          | None => refused
          | Some name =>
              match allowed_file name with
              | None => (Web.Raised Web.IndexError, fs)
              | Some false => refused
              | Some true =>
                  let filename := secure_filename name in
                  let filepath := PyLib.join UPLOAD_FOLDER filename in
                  let fs := Web.write fs filepath (Web.content file) in
                  match App.extract_invoice_data
                          (Web.extract_text pdf_text fs) filepath with
                  | Py.Raise e => (Web.Raised (Web.ScanError e), fs)
                  | Py.Ok products =>
                      match products with
                      | [] =>
                          (Web.Sent
                             (Web.Page
                                (Some "No product information found in the PDF.")),
                           fs)
                      | _ :: _ => (Web.Sent (Web.Spreadsheet products), fs)
                      end
                  end
              end
          end
      end
  | GET => (Web.Sent (Web.Page None), fs)
  end.

End Route.

End AppRoutes.

(** ** Proof steps used more than once *)

(** Case analysis on the 256 values of a character. *)
Ltac each_char c := destruct c as [[] [] [] [] [] [] [] []].

(** No occurrence of the key starts before the place given for it: the
    places are tried one by one until the one given is reached. *)
Ltac no_earlier_place :=
  let a1 := fresh "a" in
  let E := fresh "E" in
  let L := fresh "L" in
  intros a1 ? E L;
  repeat (destruct a1 as [|? a1]; [cbn in E; discriminate E|]);
  cbn in L; lia.

(** ** Strings *)

Section StringFacts.

Lemma append_nil_r (s : string) : s ++ "" = s.
Proof. induction s as [|c s IH]; simpl; [reflexivity | now rewrite IH]. Qed.

Lemma append_assoc (a b c : string) : (a ++ b) ++ c = a ++ b ++ c.
Proof. induction a as [|x a IH]; simpl; [reflexivity | now rewrite IH]. Qed.

Lemma length_append (a b : string) :
  String.length (a ++ b) = String.length a + String.length b.
Proof. induction a as [|x a IH]; simpl; [reflexivity | now rewrite IH]. Qed.

Lemma all_chars_app (p : ascii -> bool) (a b : string) :
  all_chars p (a ++ b) = all_chars p a && all_chars p b.
Proof.
  induction a as [|x a IH]; simpl; [reflexivity|].
  rewrite IH. now rewrite andb_assoc.
Qed.

Lemma all_chars_impl (p q : ascii -> bool) (s : string) :
  (forall c, p c = true -> q c = true) ->
  all_chars p s = true -> all_chars q s = true.
Proof.
  intros Hpq. induction s as [|c s IH]; simpl; [reflexivity|].
  intros H. apply andb_true_iff in H as [Hc Hs].
  apply andb_true_iff. split; auto.
Qed.

Lemma split_nonempty (sep : ascii) (s : string) : Py.split sep s <> [].
Proof.
  induction s as [|c s IH]; simpl; [discriminate|].
  destruct (Ascii.eqb c sep); [discriminate|].
  destruct (Py.split sep s); [contradiction | discriminate].
Qed.

(** [(a + sep + b).split(sep) == a.split(sep) + b.split(sep)] *)
Lemma split_app (sep : ascii) (a b : string) :
  Py.split sep (a ++ String sep b) = (Py.split sep a ++ Py.split sep b)%list.
Proof.
  induction a as [|c a IH]; simpl.
  - now rewrite Ascii.eqb_refl.
  - destruct (Ascii.eqb c sep); [now rewrite IH|].
    rewrite IH. destruct (Py.split sep a) eqn:E; [|reflexivity].
    now apply split_nonempty in E.
Qed.

Lemma split_none (sep : ascii) (s : string) :
  all_chars (fun c => negb (Ascii.eqb c sep)) s = true ->
  Py.split sep s = [s].
Proof.
  induction s as [|c s IH]; simpl; [reflexivity|].
  intros H. apply andb_true_iff in H as [Hc Hs].
  apply negb_true_iff in Hc. rewrite Hc, (IH Hs). reflexivity.
Qed.

Lemma split_all_blank (sep : ascii) (s : string) :
  blank s -> Forall blank (Py.split sep s).
Proof.
  unfold blank. induction s as [|c s IH]; simpl.
  - intros _. now constructor.
  - intros H. apply andb_true_iff in H as [Hc Hs]. specialize (IH Hs).
    destruct (Ascii.eqb c sep).
    + now constructor.
    + destruct (Py.split sep s) as [|h t].
      * constructor; [simpl; now rewrite Hc | constructor].
      * inversion IH as [|? ? Hh Ht]; subst.
        constructor; [simpl; now rewrite Hc | assumption].
Qed.

Lemma lstrip_blank (s : string) : blank s -> Py.lstrip s = "".
Proof.
  unfold blank. induction s as [|c s IH]; simpl; [reflexivity|].
  intros H. apply andb_true_iff in H as [Hc Hs]. now rewrite Hc, IH.
Qed.

Lemma strip_blank (s : string) : blank s -> Py.strip s = "".
Proof. intros H. unfold Py.strip. now rewrite lstrip_blank. Qed.

Lemma rstrip_blank (s : string) : blank s -> Py.rstrip s = "".
Proof.
  unfold blank. induction s as [|c s IH]; simpl; [reflexivity|].
  intros H. apply andb_true_iff in H as [Hc Hs]. now rewrite IH, Hc.
Qed.

Lemma prefix_cons (c : ascii) (p s : string) :
  String.prefix (String c p) s = true ->
  exists r, s = String c r /\ String.prefix p r = true.
Proof.
  destruct s as [|d r]; simpl; [discriminate|].
  destruct (ascii_dec c d) as [->|]; [|discriminate].
  intros H. now exists r.
Qed.

Lemma startswith_app (p s : string) :
  Py.startswith p s = true <-> exists r, s = p ++ r.
Proof.
  unfold Py.startswith. revert s. induction p as [|c p IH]; intros s.
  - split; [intros _; now exists s | intros _; now destruct s].
  - split.
    + intros H. apply prefix_cons in H as (r & -> & H).
      apply IH in H as (r' & ->). now exists r'.
    + intros (r & ->). simpl.
      destruct (ascii_dec c c); [|contradiction].
      apply IH. now exists r.
Qed.

End StringFacts.

(** ** The loop *)

Section LoopFacts.

Context {S A : Type} (body : S -> A -> Py.result S).

Lemma for_each_app (st : S) (l1 l2 : list A) :
  for_each body st (l1 ++ l2) =
  (st' <- for_each body st l1 ;; for_each body st' l2).
Proof.
  revert st. induction l1 as [|x l1 IH]; intros st; simpl; [reflexivity|].
  destruct (body st x); simpl; [apply IH | reflexivity].
Qed.

Lemma for_each_skip (st : S) (l : list A) :
  Forall (fun x => body st x = Py.Ok st) l -> for_each body st l = Py.Ok st.
Proof.
  induction 1 as [|x l Hx _ IH]; simpl; [reflexivity|].
  now rewrite Hx.
Qed.

End LoopFacts.

(** ** One pass of the loop body *)

Section BodyFacts.

Variables (products : list product) (pending : option pending_desc).

Lemma body_empty_line :
  Server.loop_body (products, pending) "" = Py.Ok (products, pending).
Proof. reflexivity. Qed.

Lemma desc_no_match_empty : Re.re_match Re.desc_pattern "" = None.
Proof. reflexivity. Qed.

(** A description line replaces whatever is pending. *)
Lemma body_desc_line (line : string) (m : list string) :
  Re.re_match Re.desc_pattern line = Some m ->
  Server.loop_body (products, pending) line =
  Py.Ok (products,
         Some {| pending_Series_ID := Py.strip (Re.group 1 m) ++ " Series";
                 pending_Window_Style := Py.strip (Re.group 2 m) |}).
Proof.
  intros H. destruct line as [|c r].
  - rewrite desc_no_match_empty in H. discriminate.
  - unfold Server.loop_body. simpl Py.truthy. cbv iota beta. simpl negb.
    cbv iota. now rewrite H.
Qed.

(** A line that starts with a character other than a digit is no
    description line. *)
Lemma desc_needs_digit (c : ascii) (r : string) :
  Py.isdecimal c = false ->
  Re.re_match Re.desc_pattern (String c r) = None.
Proof.
  intros H. unfold Re.re_match, Re.desc_pattern. simpl app.
  unfold Re.match_here at 1. fold Re.match_here.
  unfold Re.avail. simpl Re.hi. simpl Re.cls. unfold Re.cat_digit.
  simpl Re.span. rewrite H. reflexivity.
Qed.

Lemma frame_not_desc (line : string) :
  Py.startswith "Frame:" line = true ->
  Re.re_match Re.desc_pattern line = None.
Proof.
  intros H. apply startswith_app in H as (r & ->).
  now apply desc_needs_digit.
Qed.

(** Without a pending description nothing but a description line changes
    the state. *)
Lemma body_nothing_pending (line : string) :
  Re.re_match Re.desc_pattern line = None ->
  Server.loop_body (products, None) line = Py.Ok (products, None).
Proof.
  intros H. unfold Server.loop_body.
  destruct (negb (Py.truthy line)); [reflexivity|]. now rewrite H.
Qed.

Lemma body_other_line (line : string) :
  Re.re_match Re.desc_pattern line = None ->
  Py.startswith "Frame:" line = false ->
  Server.loop_body (products, pending) line = Py.Ok (products, pending).
Proof.
  intros H F. unfold Server.loop_body.
  destruct (negb (Py.truthy line)); [reflexivity|]. rewrite H, F.
  now destruct pending.
Qed.

End BodyFacts.

(** A frame line met while [p] is pending. *)
Lemma body_frame_line (products : list product) (p : pending_desc)
    (line : string) :
  Py.startswith "Frame:" line = true ->
  Server.loop_body (products, Some p) line =
  (width <- frame_number Re.width_pattern line ;;
   height <- frame_number Re.height_pattern line ;;
   Py.Ok ((products ++
            [ {| Manufacturer := "CWS";
                 Frame_Color := Py.strip (Py.last_item (Py.split comma line));
                 Series_ID := pending_Series_ID p;
                 Window_Style := pending_Window_Style p;
                 Width := width;
                 Height := height |} ])%list,
          None)).
Proof.
  intros F. pose proof (frame_not_desc line F) as D.
  unfold Server.loop_body. rewrite D, F.
  apply startswith_app in F as (r & ->). reflexivity.
Qed.

(** ** Lines of a text *)

Lemma normalized_lines_app (a b : string) :
  normalized_lines (a ++ newline ++ b) =
  (normalized_lines a ++ normalized_lines b)%list.
Proof.
  unfold normalized_lines, newline. simpl append.
  now rewrite split_app, map_app.
Qed.

Lemma normalized_lines_one (s : string) :
  one_line s -> normalized_lines s = [Py.strip s].
Proof.
  intros H. unfold normalized_lines. now rewrite split_none.
Qed.

Lemma parse_final_state (text : string) :
  Server.parse_products_from_text text =
  (st <- final_state text ;; Py.Ok (fst st)).
Proof. reflexivity. Qed.

Lemma frame_number_found (pat : Re.pattern) (line g : string) (v : Py.float) :
  Re.search pat line = Some [g] -> Py.py_float g = Py.Ok v ->
  frame_number pat line = Py.Ok (Some v).
Proof.
  intros Hs Hf. unfold frame_number. rewrite Hs.
  change (Re.group 1 [g]) with g. now rewrite Hf.
Qed.

(** A frame line whose numbers parse: the record is appended and the
    pending slot is cleared. *)
Lemma body_frame_ok (products : list product) (p : pending_desc)
    (line : string) (w h : option Py.float) :
  Py.startswith "Frame:" line = true ->
  frame_number Re.width_pattern line = Py.Ok w ->
  frame_number Re.height_pattern line = Py.Ok h ->
  Server.loop_body (products, Some p) line =
  Py.Ok ((products ++
           [ {| Manufacturer := "CWS";
                Frame_Color := Py.strip (Py.last_item (Py.split comma line));
                Series_ID := pending_Series_ID p;
                Window_Style := pending_Window_Style p;
                Width := w;
                Height := h |} ])%list,
         None).
Proof.
  intros F Hw Hh. rewrite body_frame_line by assumption.
  now rewrite Hw, Hh.
Qed.

(** ** Results *)

(** C8: the empty text, and any text whose lines are all empty or made of
    white space only, yields the empty list of records and no exception. *)
Theorem blank_text_yields_nothing :
  Server.parse_products_from_text "" = Py.Ok [] /\
  forall text : string,
    Forall blank (Py.split LF text) ->
    Server.parse_products_from_text text = Py.Ok [].
Proof.
  split; [reflexivity|].
  intros text H. rewrite parse_final_state. unfold final_state.
  rewrite for_each_skip; [reflexivity|].
  unfold normalized_lines. apply Forall_map.
  eapply Forall_impl; [|exact H].
  intros l Hl. now rewrite strip_blank.
Qed.

Lemma blank_text_yields_nothing_witness :
  Server.parse_products_from_text (String " " (String LF (String "009" newline)))
  = Py.Ok [].
Proof.
  apply (proj2 blank_text_yields_nothing).
  repeat constructor.
Defined.

(** The state reached without any description line: nothing pending, no
    record added. *)
Lemma no_desc_no_change (products : list product) (lines : list string) :
  Forall (fun l => Re.re_match Re.desc_pattern l = None) lines ->
  for_each Server.loop_body (products, None) lines = Py.Ok (products, None).
Proof.
  intros H. apply for_each_skip.
  eapply Forall_impl; [|exact H].
  intros l Hl. now apply body_nothing_pending.
Qed.

(** C5: a line that begins with [Frame:] and is met while nothing is
    pending leaves the state as it is (no record, no exception).  Such a
    line in the middle of a text can be taken out without changing the
    result, and at the end of a text it leaves the records found so far.
    A text whose lines are all empty or frame lines yields the empty
    list. *)
Theorem frame_without_pending_is_ignored :
  (forall (products : list product) (line : string),
      Py.startswith "Frame:" line = true ->
      Server.loop_body (products, None) line = Py.Ok (products, None)) /\
  (forall (pre f post : string) (products : list product),
      final_state pre = Py.Ok (products, None) ->
      one_line f ->
      Py.startswith "Frame:" (Py.strip f) = true ->
      Server.parse_products_from_text (pre ++ newline ++ f ++ newline ++ post) =
      Server.parse_products_from_text (pre ++ newline ++ post) /\
      Server.parse_products_from_text (pre ++ newline ++ f) = Py.Ok products) /\
  (forall text : string,
      Forall (fun l => l = "" \/ Py.startswith "Frame:" l = true)
             (normalized_lines text) ->
      Server.parse_products_from_text text = Py.Ok []).
Proof.
  split; [|split].
  - intros products line F. apply body_nothing_pending.
    now apply frame_not_desc.
  - intros pre f post products Hpre Hf F.
    rewrite !parse_final_state. unfold final_state in *.
    rewrite !normalized_lines_app, (normalized_lines_one f Hf).
    rewrite !for_each_app, Hpre. cbn [Py.bind].
    rewrite for_each_app. cbn [for_each].
    rewrite body_nothing_pending by now apply frame_not_desc.
    split; reflexivity.
  - intros text H. rewrite parse_final_state. unfold final_state.
    rewrite no_desc_no_change; [reflexivity|].
    eapply Forall_impl; [|exact H].
    intros l [-> | F]; [reflexivity | now apply frame_not_desc].
Qed.

Lemma frame_without_pending_is_ignored_witness :
  Server.loop_body ([], None) example_frame = Py.Ok ([], None) /\
  Server.parse_products_from_text
    ((example_desc ++ newline ++ example_frame)
     ++ newline ++ example_frame ++ newline ++ "Total") =
  Server.parse_products_from_text
    ((example_desc ++ newline ++ example_frame) ++ newline ++ "Total") /\
  Server.parse_products_from_text (example_frame ++ newline ++ example_frame)
  = Py.Ok [].
Proof.
  split; [|split].
  - apply (proj1 frame_without_pending_is_ignored). reflexivity.
  - refine (proj1 (proj1 (proj2 frame_without_pending_is_ignored)
                     (example_desc ++ newline ++ example_frame)
                     example_frame "Total" [example_record] _ _ _));
      vm_compute; reflexivity.
  - apply (proj2 (proj2 frame_without_pending_is_ignored)).
    repeat constructor; right; reflexivity.
Defined.

(** C1, at an input on which it fails: the frame line separates its two
    numbers with a full stop, the text captured after [Width =] is [73.5.],
    and [float] raises [ValueError] on it; the exception leaves the scan. *)
Theorem parse_raises_on_twice_dotted_number :
  Re.search Re.width_pattern "Frame: Width = 73.5. Height = 36.5, Bronze"
  = Some ["73.5."] /\
  Py.py_float "73.5." = Py.Raise Py.ValueError /\
  Server.parse_products_from_text
    (example_desc ++ newline ++ "Frame: Width = 73.5. Height = 36.5, Bronze")
  = Py.Raise Py.ValueError.
Proof. repeat split; vm_compute; reflexivity. Qed.

Lemma scan_line_loop_body (st : scan_state) (line : string) :
  App.scan_line st line = Server.loop_body st line.
Proof.
  destruct st as [products pending]. unfold App.scan_line, Server.loop_body.
  destruct (negb (Py.truthy line)); [reflexivity|].
  destruct (Re.re_match Re.desc_pattern line); [reflexivity|].
  destruct pending as [p|]; [|reflexivity].
  destruct (Py.startswith "Frame:" line); reflexivity.
Qed.

Lemma for_each_ext {S A : Type} (f g : S -> A -> Py.result S) (l : list A) :
  (forall st x, f st x = g st x) ->
  forall st, for_each f st l = for_each g st l.
Proof.
  intros E. induction l as [|x l IH]; intros st; simpl; [reflexivity|].
  rewrite E. destruct (g st x); simpl; [apply IH | reflexivity].
Qed.

(** C9: the scan of [extract_invoice_data] in [app.py] and
    [parse_products_from_text] in [server.py] return the same list of
    records (or raise the same exception) on every text, and so do the two
    entry points on every file, whatever the text extraction returns. *)
Theorem app_scan_equals_server_scan :
  (forall text : string,
      App.scan_text text = Server.parse_products_from_text text) /\
  (forall (extract_text : string -> option string) (pdf_path : string),
      App.extract_invoice_data extract_text pdf_path =
      Server.parse_products_from_text
        (Server.extract_text_from_pdf extract_text pdf_path)).
Proof.
  assert (E : forall text,
             App.scan_text text = Server.parse_products_from_text text).
  { intros text. unfold App.scan_text, Server.parse_products_from_text.
    now rewrite (for_each_ext _ _ _ scan_line_loop_body). }
  split; [exact E|].
  intros extract_text pdf_path.
  unfold App.extract_invoice_data, Server.extract_text_from_pdf. apply E.
Qed.

(** ** The matcher *)

Section MatcherFacts.

Lemma span_take (p : ascii -> bool) (n : nat) (s : string) :
  n <= Re.span p s ->
  all_chars p (Re.take n s) = true /\ String.length (Re.take n s) = n.
Proof.
  revert s. induction n as [|n IH]; intros s H.
  - now destruct s.
  - destruct s as [|c r]; simpl in H; [lia|].
    destruct (p c) eqn:E; [|lia].
    destruct (IH r) as [Ha Hl]; [lia|].
    simpl. rewrite E, Ha, Hl. now split.
Qed.

Lemma take_drop (n : nat) (s : string) : Re.take n s ++ Re.drop n s = s.
Proof.
  revert s. induction n as [|n IH]; intros [|c r]; simpl; try reflexivity.
  now rewrite IH.
Qed.

(** An element repeated exactly [n] times: one count to try. *)
Lemma match_exactly (p : ascii -> bool) (n : nat) (g : Re.greed)
    (cap : bool) (re : Re.pattern) (s : string) :
  Re.match_here (Re.Atom p n (Some n) g cap :: re) s =
  if (n <=? Re.span p s)%nat then
    match Re.match_here re (Re.drop n s) with
    | Some gs => Some (if cap then Re.take n s :: gs else gs)
    | None => None
    end
  else None.
Proof.
  cbn [Re.match_here]. unfold Re.avail, Re.counts.
  cbn [Re.hi Re.cls Re.lo Re.mode Re.captured].
  destruct (Nat.leb_spec n (Re.span p s)) as [L|L].
  - rewrite Nat.min_l by assumption.
    replace (S n - n) with 1 by lia.
    destruct g; cbn [seq rev app Re.first_some];
      now destruct (Re.match_here re (Re.drop n s)).
  - rewrite Nat.min_r by lia.
    replace (S (Re.span p s) - n) with 0 by lia.
    now destruct g.
Qed.

(** The first group of a description match is the four digits the line
    starts with. *)
Lemma desc_group_1 (s : string) (m : list string) :
  Re.re_match Re.desc_pattern s = Some m ->
  Re.group 1 m = Re.take 4 s /\
  String.length (Re.group 1 m) = 4 /\
  all_chars Py.isdecimal (Re.group 1 m) = true.
Proof.
  unfold Re.re_match, Re.desc_pattern. cbn [app].
  unfold Re.grp at 1, Re.exactly. cbn [Re.cls Re.lo Re.hi Re.mode].
  rewrite match_exactly.
  destruct (Nat.leb_spec 4 (Re.span Re.cat_digit s)) as [L|L]; [|discriminate].
  destruct (Re.match_here _ (Re.drop 4 s)) as [gs|]; [|discriminate].
  intros [= <-]. change (Re.group 1 (Re.take 4 s :: gs)) with (Re.take 4 s).
  destruct (span_take _ _ _ L) as [Ha Hl]. auto.
Qed.

End MatcherFacts.

Lemma digit_not_space (c : ascii) :
  Py.isdecimal c = true -> Py.isspace c = false.
Proof.
  each_char c; vm_compute; congruence.
Qed.

Lemma rstrip_no_space (s : string) :
  all_chars (fun c => negb (Py.isspace c)) s = true -> Py.rstrip s = s.
Proof.
  induction s as [|c r IH]; simpl; [reflexivity|].
  intros H. apply andb_true_iff in H as [Hc Hr].
  apply negb_true_iff in Hc. rewrite (IH Hr), Hc. now destruct r.
Qed.

Lemma strip_no_space (s : string) :
  all_chars (fun c => negb (Py.isspace c)) s = true -> Py.strip s = s.
Proof.
  intros H. unfold Py.strip.
  replace (Py.lstrip s) with s; [now apply rstrip_no_space|].
  destruct s as [|c r]; [reflexivity|]. simpl in *.
  apply andb_true_iff in H as [Hc _]. apply negb_true_iff in Hc.
  now rewrite Hc.
Qed.

Lemma strip_digits (s : string) :
  all_chars Py.isdecimal s = true -> Py.strip s = s.
Proof.
  intros H. apply strip_no_space.
  eapply all_chars_impl; [|exact H].
  intros c Hc. now rewrite digit_not_space.
Qed.

(** ** The last comma-separated segment *)

Section LastSegment.

Lemma last_app_cons {A : Type} (l : list A) (h : A) (t : list A) (d : A) :
  last (l ++ h :: t)%list d = last (h :: t) d.
Proof.
  induction l as [|x l IH]; [reflexivity|].
  rewrite <- IH. cbn [app last].
  destruct (l ++ h :: t)%list eqn:E; [|reflexivity].
  destruct l; discriminate.
Qed.

Lemma last_segment_app (a b : string) :
  Py.last_item (Py.split comma (a ++ String comma b)) =
  Py.last_item (Py.split comma b).
Proof.
  rewrite split_app. unfold Py.last_item.
  destruct (Py.split comma b) as [|h t] eqn:E.
  - now apply split_nonempty in E.
  - now rewrite last_app_cons.
Qed.

Lemma last_segment_whole (s : string) :
  no_comma s -> Py.last_item (Py.split comma s) = s.
Proof. intros H. unfold no_comma in H. now rewrite split_none. Qed.

(** A string either holds no comma or ends in a comma-free segment that
    follows its last comma. *)
Lemma cut_last_comma (s : string) :
  no_comma s \/
  exists pre seg, s = pre ++ String comma seg /\ no_comma seg.
Proof.
  unfold no_comma. induction s as [|c r IH]; [now left|].
  destruct IH as [H | (pre & seg & -> & H)].
  - destruct (Ascii.eqb c comma) eqn:E.
    + apply Ascii.eqb_eq in E as ->. right. now exists "", r.
    + left. simpl. now rewrite E.
  - right. now exists (String c pre), seg.
Qed.

Lemma lstrip_all_chars (p : ascii -> bool) (s : string) :
  all_chars p s = true -> all_chars p (Py.lstrip s) = true.
Proof.
  induction s as [|c r IH]; simpl; [reflexivity|].
  intros H. destruct (Py.isspace c); [|exact H].
  apply andb_true_iff in H as [_ H]. auto.
Qed.

Lemma rstrip_all_chars (p : ascii -> bool) (s : string) :
  all_chars p s = true -> all_chars p (Py.rstrip s) = true.
Proof.
  induction s as [|c r IH]; simpl; [reflexivity|].
  intros H. apply andb_true_iff in H as [Hc Hr]. specialize (IH Hr).
  destruct (Py.rstrip r) as [|d r'].
  - destruct (Py.isspace c); simpl; [reflexivity | now rewrite Hc].
  - change (all_chars p (String c (String d r')) = true).
    simpl in *. now rewrite Hc.
Qed.

Lemma rstrip_cons (c : ascii) (r : string) :
  Py.isspace c = false -> Py.rstrip (String c r) = String c (Py.rstrip r).
Proof. intros H. simpl. rewrite H. now destruct (Py.rstrip r). Qed.

Lemma rstrip_empty_blank (s : string) : Py.rstrip s = "" -> blank s.
Proof.
  unfold blank. induction s as [|c r IH]; simpl; [reflexivity|].
  destruct (Py.rstrip r) as [|d r']; [|discriminate].
  destruct (Py.isspace c); [|discriminate]. intros _. now apply IH.
Qed.

Lemma rstrip_cons_nonempty (c d : ascii) (r r' : string) :
  Py.rstrip r = String d r' -> Py.rstrip (String c r) = String c (String d r').
Proof. intros H. simpl. now rewrite H. Qed.

Lemma rstrip_idem (s : string) : Py.rstrip (Py.rstrip s) = Py.rstrip s.
Proof.
  induction s as [|c r IH]; [reflexivity|].
  cbn [Py.rstrip]. destruct (Py.rstrip r) as [|d r'] eqn:E.
  - destruct (Py.isspace c) eqn:Hc; [reflexivity|].
    simpl. now rewrite Hc.
  - now apply rstrip_cons_nonempty.
Qed.

Lemma lstrip_idem (s : string) : Py.lstrip (Py.lstrip s) = Py.lstrip s.
Proof.
  induction s as [|c r IH]; [reflexivity|]. simpl.
  destruct (Py.isspace c) eqn:Hc; [exact IH|]. simpl. now rewrite Hc.
Qed.

Lemma lstrip_rstrip (s : string) :
  Py.lstrip (Py.rstrip s) = Py.rstrip (Py.lstrip s).
Proof.
  induction s as [|c r IH]; [reflexivity|].
  destruct (Py.isspace c) eqn:Hc.
  - cbn [Py.lstrip]. rewrite Hc, <- IH. cbn [Py.rstrip].
    destruct (Py.rstrip r) as [|d r'] eqn:E.
    + now rewrite Hc.
    + cbn [Py.lstrip]. now rewrite Hc.
  - rewrite rstrip_cons by assumption. cbn [Py.lstrip]. rewrite Hc.
    now rewrite rstrip_cons.
Qed.

Lemma strip_idem (s : string) : Py.strip (Py.strip s) = Py.strip s.
Proof.
  unfold Py.strip. now rewrite lstrip_rstrip, rstrip_idem, lstrip_idem.
Qed.

Lemma strip_rstrip (s : string) : Py.strip (Py.rstrip s) = Py.strip s.
Proof.
  unfold Py.strip. now rewrite lstrip_rstrip, rstrip_idem.
Qed.

Lemma lstrip_keeps_comma (pre seg : string) :
  exists pre', Py.lstrip (pre ++ String comma seg) = pre' ++ String comma seg.
Proof.
  induction pre as [|c r IH]; simpl.
  - now exists "".
  - destruct (Py.isspace c); [exact IH | now exists (String c r)].
Qed.

Lemma rstrip_app (a b : string) :
  Py.rstrip b <> "" -> Py.rstrip (a ++ b) = a ++ Py.rstrip b.
Proof.
  intros H. induction a as [|c r IH]; [reflexivity|].
  simpl. rewrite IH. destruct (r ++ Py.rstrip b) eqn:E; [|reflexivity].
  destruct r; [|discriminate]. simpl in E. contradiction.
Qed.

(** The colour read off a stripped line is the trimmed last segment of
    the line as it stands in the text. *)
Lemma colour_of_raw_line (raw : string) :
  Py.strip (Py.last_item (Py.split comma (Py.strip raw))) =
  Py.strip (Py.last_item (Py.split comma raw)).
Proof.
  destruct (cut_last_comma raw) as [H | (pre & seg & -> & H)].
  - rewrite (last_segment_whole raw H).
    rewrite last_segment_whole; [apply strip_idem|].
    unfold Py.strip. now apply rstrip_all_chars, lstrip_all_chars.
  - rewrite last_segment_app, (last_segment_whole seg H).
    unfold Py.strip at 2.
    destruct (lstrip_keeps_comma pre seg) as (pre' & ->).
    rewrite rstrip_app.
    + rewrite rstrip_cons by reflexivity.
      rewrite last_segment_app, last_segment_whole.
      * apply strip_rstrip.
      * now apply rstrip_all_chars.
    + rewrite rstrip_cons by reflexivity. discriminate.
Qed.

End LastSegment.

(** C4: two description lines in a row and then one frame line yield
    exactly one record, and its series and style are those of the second
    description line. *)
Theorem second_description_replaces_first :
  forall (d1 d2 f : string) (m1 m2 : list string) (w h : option Py.float),
    one_line d1 -> one_line d2 -> one_line f ->
    Re.re_match Re.desc_pattern (Py.strip d1) = Some m1 ->
    Re.re_match Re.desc_pattern (Py.strip d2) = Some m2 ->
    Py.startswith "Frame:" (Py.strip f) = true ->
    frame_number Re.width_pattern (Py.strip f) = Py.Ok w ->
    frame_number Re.height_pattern (Py.strip f) = Py.Ok h ->
    Server.parse_products_from_text (d1 ++ newline ++ d2 ++ newline ++ f) =
    Py.Ok [ {| Manufacturer := "CWS";
               Frame_Color := Py.strip (Py.last_item (Py.split comma f));
               Series_ID := Py.strip (Re.group 1 m2) ++ " Series";
               Window_Style := Py.strip (Re.group 2 m2);
               Width := w;
               Height := h |} ].
Proof.
  intros d1 d2 f m1 m2 w h H1 H2 Hf M1 M2 F Hw Hh.
  rewrite parse_final_state. unfold final_state.
  rewrite !normalized_lines_app, !normalized_lines_one by assumption.
  cbn [app for_each].
  rewrite (body_desc_line _ _ _ _ M1). cbn [Py.bind].
  rewrite (body_desc_line _ _ _ _ M2). cbn [Py.bind].
  rewrite (body_frame_ok _ _ _ w h F Hw Hh).
  cbn [Py.bind fst app pending_Series_ID pending_Window_Style].
  now rewrite colour_of_raw_line.
Qed.

Lemma second_description_replaces_first_witness :
  Server.parse_products_from_text
    ("7100 Series Casement 30 x 40 - FIN" ++ newline
     ++ example_desc ++ newline ++ example_frame) =
  Py.Ok [ {| Manufacturer := "CWS";
             Frame_Color := "Bronze";
             Series_ID := "7300 Series";
             Window_Style := "Direct Set Half Round";
             Width := Some (Py.dyadic 73 0);
             Height := Some (Py.dyadic 73 (-1)) |} ].
Proof.
  apply (second_description_replaces_first
           "7100 Series Casement 30 x 40 - FIN" example_desc example_frame
           ["7100"; "Casement"; "30 "; "40 "]
           ["7300"; "Direct Set Half Round"; "73 "; "36 1/2 "]
           (Some (Py.dyadic 73 0)) (Some (Py.dyadic 73 (-1))));
    vm_compute; reflexivity.
Defined.

(** ** The scan as a pairing of lines *)

(** What one pass of the body does, by the kind of the line. *)
Lemma body_cases (products : list product) (pending : option pending_desc)
    (line : string) (st : scan_state) :
  Server.loop_body (products, pending) line = Py.Ok st ->
  match classify line with
  | Other => st = (products, pending)
  | Description =>
      exists m, Re.re_match Re.desc_pattern line = Some m /\
                st = (products, Some (pending_of m))
  | Frame =>
      Py.startswith "Frame:" line = true /\
      match pending with
      | None => st = (products, None)
      | Some p =>
          exists r, st = ((products ++ [r])%list, None) /\
                    Manufacturer r = "CWS" /\
                    Series_ID r = pending_Series_ID p /\
                    Window_Style r = pending_Window_Style p /\
                    Frame_Color r = Py.strip (Py.last_item (Py.split comma line)) /\
                    frame_number Re.width_pattern line = Py.Ok (Width r) /\
                    frame_number Re.height_pattern line = Py.Ok (Height r)
      end
  end.
Proof.
  unfold classify. intros H. destruct line as [|c l].
  { cbn in *. now injection H. }
  cbn [Py.truthy negb].
  destruct (Re.re_match Re.desc_pattern (String c l)) as [m|] eqn:M.
  - rewrite (body_desc_line _ _ _ _ M) in H. injection H as <-. now exists m.
  - destruct (Py.startswith "Frame:" (String c l)) eqn:F.
    + split; [reflexivity|]. destruct pending as [p|].
      * rewrite body_frame_line in H by assumption.
        destruct (frame_number Re.width_pattern (String c l)) as [w|];
          [|discriminate].
        destruct (frame_number Re.height_pattern (String c l)) as [h|];
          [|discriminate].
        cbn [Py.bind] in H. injection H as <-.
        eexists. split; [reflexivity|]. cbn. repeat split; reflexivity.
      * rewrite body_nothing_pending in H by assumption. now injection H.
    + rewrite body_other_line in H by assumption. now injection H.
Qed.

Lemma bind_ok {A B : Type} (r : Py.result A) (k : A -> Py.result B) (b : B) :
  Py.bind r k = Py.Ok b -> exists a, r = Py.Ok a /\ k a = Py.Ok b.
Proof. destruct r as [a|e]; [now exists a | discriminate]. Qed.

(** The records and the pending slot never outnumber the description
    lines read. *)
Lemma count_bound (lines : list string) :
  forall (ps : list product) (pend : option pending_desc) (st : scan_state),
    for_each Server.loop_body (ps, pend) lines = Py.Ok st ->
    List.length (fst st) + occupied (snd st) <=
    List.length ps + occupied pend + count_descriptions lines.
Proof.
  unfold count_descriptions.
  induction lines as [|x lines IH]; intros ps pend st H.
  - cbn in H. injection H as <-. cbn. lia.
  - cbn [for_each] in H. apply bind_ok in H as ([ps1 pend1] & Hb & H).
    apply IH in H. apply body_cases in Hb. cbn [filter].
    destruct (classify x); cbn [is_description List.length].
    + destruct Hb as (m & _ & [= -> ->]). cbn [occupied] in *.
      destruct pend; cbn [occupied]; lia.
    + destruct Hb as (_ & Hb). destruct pend as [p|].
      * destruct Hb as (r & [= -> ->] & _).
        rewrite length_app in H. cbn [List.length occupied] in *. lia.
      * injection Hb as -> ->. lia.
    + injection Hb as -> ->. lia.
Qed.

Section Snoc.

Context {A : Type} (l : list A) (x : A).

Lemma nth_error_snoc_lt (i : nat) :
  i < List.length l -> nth_error (l ++ [x]) i = nth_error l i.
Proof. intros H. now apply nth_error_app1. Qed.

Lemma nth_error_snoc_eq : nth_error (l ++ [x]) (List.length l) = Some x.
Proof. rewrite nth_error_app2, Nat.sub_diag by lia. reflexivity. Qed.

Lemma nth_error_snoc_some (i : nat) (y : A) :
  nth_error (l ++ [x]) i = Some y ->
  (i < List.length l /\ nth_error l i = Some y) \/
  (i = List.length l /\ y = x).
Proof.
  intros H. destruct (Nat.lt_ge_cases i (List.length l)) as [L|L].
  - left. split; [exact L|]. now rewrite nth_error_snoc_lt in H.
  - right. rewrite nth_error_app2 in H by exact L.
    destruct (i - List.length l) as [|k] eqn:E.
    + cbn in H. injection H as <-. split; [lia | reflexivity].
    + cbn in H. now destruct k.
Qed.

Lemma nth_error_lt (i : nat) (y : A) :
  nth_error l i = Some y -> i < List.length l.
Proof. intros H. apply nth_error_Some. now rewrite H. Qed.

End Snoc.

Section Pairing.

Variables (ks : list kind) (k : kind).

Lemma trailing_unique (j j' : nat) : trailing ks j -> trailing ks j' -> j = j'.
Proof.
  intros [D O] [D' O'].
  pose proof (nth_error_lt _ _ _ D) as L.
  pose proof (nth_error_lt _ _ _ D') as L'.
  destruct (Nat.lt_trichotomy j j') as [H | [H | H]]; [|exact H|].
  - rewrite (O j') in D' by lia. discriminate.
  - rewrite (O' j) in D by lia. discriminate.
Qed.

Lemma paired_snoc (j i : nat) :
  paired (ks ++ [k]) j i <->
  paired ks j i \/ (i = List.length ks /\ k = Frame /\ trailing ks j).
Proof.
  unfold paired, trailing. split.
  - intros (L & D & F & O).
    apply nth_error_snoc_some in F as [[Li F] | [-> <-]].
    + left. rewrite nth_error_snoc_lt in D by lia.
      repeat split; try assumption.
      intros k' Hk. rewrite <- nth_error_snoc_lt with (x := k) by lia.
      now apply O.
    + right. rewrite nth_error_snoc_lt in D by lia.
      repeat split; try assumption.
      intros k' Hk. rewrite <- nth_error_snoc_lt with (x := Frame) by lia.
      now apply O.
  - intros [(L & D & F & O) | (-> & -> & D & O)].
    + pose proof (nth_error_lt _ _ _ F) as Li.
      rewrite !nth_error_snoc_lt by lia.
      repeat split; try assumption.
      intros k' Hk. rewrite nth_error_snoc_lt by lia. now apply O.
    + pose proof (nth_error_lt _ _ _ D) as Lj.
      rewrite nth_error_snoc_lt by lia.
      rewrite nth_error_snoc_eq.
      repeat split; try assumption.
      intros k' Hk. rewrite nth_error_snoc_lt by lia. now apply O.
Qed.

Lemma trailing_snoc (j : nat) :
  trailing (ks ++ [k]) j <->
  (j = List.length ks /\ k = Description) \/ (k = Other /\ trailing ks j).
Proof.
  unfold trailing. rewrite length_app. cbn [List.length]. split.
  - intros (D & O).
    apply nth_error_snoc_some in D as [[Lj D] | [-> <-]].
    + right. split.
      * specialize (O (List.length ks) ltac:(lia)).
        rewrite nth_error_snoc_eq in O. now injection O.
      * split; [exact D|]. intros k' Hk.
        rewrite <- nth_error_snoc_lt with (x := k) by lia.
        apply O. lia.
    + now left.
  - intros [[-> ->] | (-> & D & O)].
    + rewrite nth_error_snoc_eq. split; [reflexivity|].
      intros k' Hk. lia.
    + pose proof (nth_error_lt _ _ _ D) as Lj.
      rewrite nth_error_snoc_lt by lia. split; [exact D|].
      intros k' Hk. destruct (Nat.eq_dec k' (List.length ks)) as [->|Ne].
      * now rewrite nth_error_snoc_eq.
      * rewrite nth_error_snoc_lt by lia. apply O. lia.
Qed.

End Pairing.

Lemma record_at_snoc (l : list string) (x : string) (ji : nat * nat)
    (r : product) :
  record_at l ji r -> record_at (l ++ [x]) ji r.
Proof.
  intros (d & f & Hd & Hf & R). exists d, f.
  rewrite !nth_error_snoc_lt by (eapply nth_error_lt; eassumption).
  auto.
Qed.

Lemma sorted_snoc {A : Type} (R : A -> A -> Prop) (l : list A) (x : A) :
  StronglySorted R l -> Forall (fun a => R a x) l ->
  StronglySorted R (l ++ [x]).
Proof.
  induction 1 as [|a l S IH F]; intros H; cbn.
  - repeat constructor.
  - inversion H as [|? ? Ha Hl]; subst. constructor; [now apply IH|].
    apply Forall_app. split; [exact F | now constructor].
Qed.

Lemma trailing_is_index (ks : list kind) (j : nat) :
  trailing ks j -> j < List.length ks.
Proof. intros [D _]. eapply nth_error_lt; eassumption. Qed.

(** The invariant of the loop. *)
Lemma scan_invariant_holds (lines : list string) :
  forall st : scan_state,
    for_each Server.loop_body ([], None) lines = Py.Ok st ->
    scan_invariant lines st.
Proof.
  induction lines as [|x l IH] using rev_ind; intros st H.
  - cbn in H. injection H as <-. split.
    + exists []. split; [|split; constructor].
      intros j i. split; [contradiction|].
      intros (_ & D & _). now destruct j.
    + cbn. intros j [D _]. now destruct j.
  - rewrite for_each_app in H. apply bind_ok in H as ([ps0 pend0] & H0 & Hx).
    cbn [for_each] in Hx. apply bind_ok in Hx as (st1 & Hb & [= <-]).
    specialize (IH _ H0). destruct IH as ((pairs & P & S & R) & T).
    cbn [fst snd] in *. apply body_cases in Hb.
    unfold scan_invariant. rewrite map_app. cbn [map].
    set (ks := map classify l) in *.
    assert (Len : List.length ks = List.length l) by apply length_map.
    assert (R' : Forall2 (record_at (l ++ [x])) pairs ps0).
    { eapply Forall2_impl; [|exact R]. intros a b. apply record_at_snoc. }
    destruct (classify x) eqn:K.
    + (* a description line *)
      destruct Hb as (m & M & ->). cbn [fst snd]. split.
      * exists pairs. split; [|split; assumption].
        intros j i. rewrite paired_snoc, P. split; [now left|].
        now intros [I | (_ & [=] & _)].
      * exists (List.length ks), x, m. split; [|split; [|split]].
        -- apply trailing_snoc. now left.
        -- rewrite Len. apply nth_error_snoc_eq.
        -- exact M.
        -- reflexivity.
    + (* a frame line *)
      destruct Hb as (F & Hb). destruct pend0 as [p|].
      * destruct T as (j0 & d & m & T0 & D0 & M0 & ->).
        destruct Hb as (r & -> & r1 & r2 & r3 & r4 & r5 & r6).
        cbn [fst snd]. split.
        -- exists (pairs ++ [(j0, List.length ks)])%list.
           split; [|split].
           ++ intros j i. rewrite paired_snoc, in_app_iff, P. split.
              ** intros [I | [[= <- <-] | []]]; [now left | right; auto].
              ** intros [I | (-> & _ & Tj)]; [now left|].
                 right. left. f_equal. eapply trailing_unique; eassumption.
           ++ apply sorted_snoc; [exact S|].
              apply Forall_forall. intros [j i] I. cbn [snd].
              apply P in I. destruct I as (_ & _ & I & _).
              eapply nth_error_lt; eassumption.
           ++ apply Forall2_app; [exact R'|]. constructor; [|constructor].
              exists d, x. cbn [fst snd]. split; [|split].
              ** rewrite nth_error_snoc_lt; [exact D0|].
                 eapply nth_error_lt; eassumption.
              ** rewrite Len. apply nth_error_snoc_eq.
              ** exists m. cbn [pending_of pending_Series_ID pending_Window_Style] in *.
                 repeat (split; [assumption|]). assumption.
        -- intros j Tj. apply trailing_snoc in Tj as [[_ [=]] | [[=] _]].
      * subst st1. cbn [fst snd]. split.
        -- exists pairs. split; [|split; assumption].
           intros j i. rewrite paired_snoc, P. split; [now left|].
           intros [I | (_ & _ & Tj)]; [exact I | now apply T in Tj].
        -- intros j Tj. apply trailing_snoc in Tj as [[_ [=]] | [[=] _]].
    + (* any other line *)
      subst st1. cbn [fst snd]. split.
      * exists pairs. split; [|split; assumption].
        intros j i. rewrite paired_snoc, P. split; [now left|].
        now intros [I | (_ & [=] & _)].
      * destruct pend0 as [p|].
        -- destruct T as (j0 & d & m & T0 & D0 & M0 & ->).
           exists j0, d, m. split; [|split; [|split]].
           ++ apply trailing_snoc. right. now split.
           ++ rewrite nth_error_snoc_lt; [exact D0|].
              eapply nth_error_lt; eassumption.
           ++ exact M0.
           ++ reflexivity.
        -- intros j Tj. apply trailing_snoc in Tj as [[_ [=]] | [_ Tj]].
           now apply T in Tj.
Qed.

Lemma parse_ok_final_state (text : string) (products : list product) :
  Server.parse_products_from_text text = Py.Ok products ->
  exists pending, final_state text = Py.Ok (products, pending).
Proof.
  rewrite parse_final_state. intros H.
  apply bind_ok in H as ([ps pend] & H & [= <-]). now exists pend.
Qed.

Lemma paired_one_frame (ks : list kind) (j i i' : nat) :
  paired ks j i -> paired ks j i' -> i = i'.
Proof.
  intros (L & _ & F & O) (L' & _ & F' & O').
  destruct (Nat.lt_trichotomy i i') as [H | [H | H]]; [|exact H|].
  - rewrite (O' i) in F by lia. discriminate.
  - rewrite (O i') in F' by lia. discriminate.
Qed.

Lemma paired_one_description (ks : list kind) (j j' i : nat) :
  paired ks j i -> paired ks j' i -> j = j'.
Proof.
  intros (L & D & _ & O) (L' & D' & _ & O').
  destruct (Nat.lt_trichotomy j j') as [H | [H | H]]; [|exact H|].
  - rewrite (O j') in D' by lia. discriminate.
  - rewrite (O' j) in D by lia. discriminate.
Qed.

(** When the scan returns, its records are those of the paired lines.
    A frame line met while a description is pending adds one record and
    clears the slot.  The records of a scan that returns are no more than
    the lines that match the description pattern, and they are, in the
    order of their frame lines, the records of the pairs (j, i) where
    line j matches the description pattern, line i is a later line that
    begins with [Frame:], and no description or frame line stands between
    them; no description is paired with two frame lines, and no frame line
    with two descriptions. *)
Theorem records_are_the_paired_lines :
  (forall (products : list product) (p : pending_desc) (line : string)
          (st : scan_state),
      classify line = Frame ->
      Server.loop_body (products, Some p) line = Py.Ok st ->
      snd st = None /\ List.length (fst st) = S (List.length products)) /\
  (forall (text : string) (products : list product),
      Server.parse_products_from_text text = Py.Ok products ->
      let lines := normalized_lines text in
      let ks := map classify lines in
      List.length products <= count_descriptions lines /\
      exists pairs : list (nat * nat),
        (forall j i, In (j, i) pairs <-> paired ks j i) /\
        StronglySorted (fun a b => snd a < snd b) pairs /\
        Forall2 (record_at lines) pairs products /\
        (forall j i i', In (j, i) pairs -> In (j, i') pairs -> i = i') /\
        (forall j j' i, In (j, i) pairs -> In (j', i) pairs -> j = j')).
Proof.
  split.
  - intros products p line st K H. apply body_cases in H. rewrite K in H.
    destruct H as (_ & r & -> & _). cbn [fst snd]. split; [reflexivity|].
    rewrite length_app. cbn. lia.
  - intros text products H lines ks. subst lines ks.
    apply parse_ok_final_state in H as (pending & H). unfold final_state in H.
    split.
    + apply count_bound in H. cbn [fst snd occupied List.length] in H.
      destruct pending; cbn [occupied] in H; lia.
    + apply scan_invariant_holds in H as ((pairs & P & S & R) & _).
      cbn [fst] in R.
      exists pairs. split; [exact P|]. split; [exact S|]. split; [exact R|].
      split.
      * intros j i i' I I'. apply P in I, I'. eapply paired_one_frame; eassumption.
      * intros j j' i I I'. apply P in I, I'.
        eapply paired_one_description; eassumption.
Qed.

Lemma records_are_the_paired_lines_witness :
  List.length [example_record] <=
  count_descriptions (normalized_lines (example_desc ++ newline ++ example_frame)).
Proof.
  refine (proj1 (proj2 records_are_the_paired_lines
                   (example_desc ++ newline ++ example_frame)
                   [example_record] _)).
  vm_compute. reflexivity.
Defined.

Lemma Forall2_In_r {A B : Type} (R : A -> B -> Prop) (l : list A)
    (l' : list B) (b : B) :
  Forall2 R l l' -> In b l' -> exists a, In a l /\ R a b.
Proof.
  induction 1 as [|x y l l' Hxy _ IH]; [contradiction|].
  intros [<- | I].
  - exists x. split; [now left | exact Hxy].
  - destruct (IH I) as (a & Ia & Ra). exists a. split; [now right | exact Ra].
Qed.

(** ** Searching a frame line for a number *)

Section SearchFacts.

Lemma first_some_none {A B : Type} (f : A -> option B) (l : list A) :
  (forall x, In x l -> f x = None) -> Re.first_some f l = None.
Proof.
  induction l as [|x l IH]; intros H; [reflexivity|].
  cbn. rewrite (H x) by now left. apply IH. intros y Hy. apply H. now right.
Qed.

(** The counts a greedy element tries: the largest first. *)
Lemma greedy_counts (lo n : nat) :
  lo <= n -> rev (seq lo (S n - lo)) = n :: rev (seq lo (n - lo)).
Proof.
  intros H. replace (S n - lo) with (S (n - lo)) by lia.
  rewrite seq_S, rev_app_distr. cbn. f_equal. lia.
Qed.

Lemma match_one (p : ascii -> bool) (re : Re.pattern) (s : string) :
  Re.match_here (Re.one p :: re) s =
  match s with
  | String c r => if p c then Re.match_here re r else None
  | EmptyString => None
  end.
Proof.
  unfold Re.one. rewrite match_exactly.
  destruct s as [|c r]; [reflexivity|]. cbn [Re.span].
  destruct (p c); [|reflexivity]. cbn [Nat.leb Re.drop].
  now destruct (Re.match_here re r).
Qed.

Lemma match_lits_app (key rest : string) (re : Re.pattern) :
  Re.match_here (Re.lits key ++ re)%list (key ++ rest) = Re.match_here re rest.
Proof.
  induction key as [|ch key IH]; [reflexivity|].
  cbn [Re.lits list_ascii_of_string map app append].
  rewrite match_one. unfold Re.lit at 1. rewrite Ascii.eqb_refl. exact IH.
Qed.

Lemma match_lits_inv (key t : string) (re : Re.pattern) (g : list string) :
  Re.match_here (Re.lits key ++ re)%list t = Some g ->
  exists rest, t = key ++ rest /\ Re.match_here re rest = Some g.
Proof.
  revert t. induction key as [|ch key IH]; intros t H.
  - now exists t.
  - cbn [Re.lits list_ascii_of_string map app] in H.
    rewrite match_one in H. destruct t as [|c r]; [discriminate|].
    unfold Re.lit at 1 in H. destruct (Ascii.eqb c ch) eqn:E; [|discriminate].
    apply Ascii.eqb_eq in E as ->.
    destruct (IH r H) as (rest & -> & Hr). now exists rest.
Qed.

Lemma drop_span_lstrip (s : string) :
  Re.drop (Re.span Py.isspace s) s = Py.lstrip s.
Proof.
  induction s as [|c r IH]; [reflexivity|]. cbn.
  destruct (Py.isspace c); [exact IH | reflexivity].
Qed.

Lemma space_not_num (c : ascii) :
  Py.isspace c = true -> Re.set_num c = false.
Proof.
  each_char c; vm_compute; congruence.
Qed.

Lemma drop_in_span (p : ascii -> bool) (c : nat) (s : string) :
  c < Re.span p s ->
  exists x r, Re.drop c s = String x r /\ p x = true.
Proof.
  revert s. induction c as [|c IH]; intros [|x r] H; cbn in H; try lia.
  - destruct (p x) eqn:E; [|lia]. now exists x, r.
  - destruct (p x) eqn:E; [|lia]. apply IH. lia.
Qed.

(** [\s*([\d\.]+)] at the head of [rest]: the white space is skipped and
    the whole run of digits and dots is captured, if there is one. *)
Lemma match_number_tail (rest : string) :
  Re.match_here number_tail rest =
  let r := Py.lstrip rest in
  match Re.span Re.set_num r with
  | 0 => None
  | S k => Some [Re.take (S k) r]
  end.
Proof.
  unfold number_tail, Re.star, Re.grp, Re.plus.
  cbn [Re.cls Re.lo Re.hi Re.mode Re.match_here].
  unfold Re.avail, Re.counts.
  cbn [Re.cls Re.lo Re.hi Re.mode Re.captured].
  unfold Re.cat_space.
  rewrite greedy_counts by lia. cbn [Re.first_some].
  rewrite drop_span_lstrip. cbv zeta.
  destruct (Re.span Re.set_num (Py.lstrip rest)) as [|k] eqn:E.
  - cbn [seq rev Re.first_some].
    apply first_some_none. intros c Hc.
    apply in_rev, in_seq in Hc.
    destruct (drop_in_span Py.isspace c rest) as (x & r & -> & Hx); [lia|].
    cbn [Re.span]. now rewrite (space_not_num x Hx).
  - rewrite greedy_counts by lia. cbn [Re.first_some Re.drop]. reflexivity.
Qed.

Lemma match_here_search (re : Re.pattern) (s : string) (g : list string) :
  Re.search re s = Some g ->
  exists a t, s = a ++ t /\ Re.match_here re t = Some g.
Proof.
  induction s as [|c r IH]; cbn [Re.search].
  - destruct (Re.match_here re "") as [g'|] eqn:E; [|discriminate].
    intros [= <-]. now exists "", "".
  - destruct (Re.match_here re (String c r)) as [g'|] eqn:E.
    + intros [= <-]. now exists "", (String c r).
    + intros H. destruct (IH H) as (a & t & -> & M).
      now exists (String c a), t.
Qed.

(** [float] is only ever given a non-empty run of digits and dots. *)
Lemma captured_number_chars (key line : string) (g : list string) :
  Re.search (Re.lits key ++ number_tail)%list line = Some g ->
  exists num, g = [num] /\ num <> "" /\ all_chars Re.set_num num = true.
Proof.
  intros H. apply match_here_search in H as (a & t & _ & M).
  apply match_lits_inv in M as (rest & _ & M).
  rewrite match_number_tail in M. cbv zeta in M.
  destruct (Re.span Re.set_num (Py.lstrip rest)) as [|k] eqn:E;
    [discriminate|].
  injection M as <-.
  destruct (span_take Re.set_num (S k) (Py.lstrip rest)) as [Ha Hl]; [lia|].
  exists (Re.take (S k) (Py.lstrip rest)).
  split; [reflexivity|]. split; [|exact Ha].
  destruct (Re.take (S k) (Py.lstrip rest)); [discriminate | discriminate].
Qed.

Lemma search_hit (re : Re.pattern) (s : string) (g : list string) :
  Re.match_here re s = Some g -> Re.search re s = Some g.
Proof. intros H. destruct s; cbn; now rewrite H. Qed.

Lemma search_skip (re : Re.pattern) (a t : string) :
  (forall a1 a2, a = a1 ++ a2 -> a2 <> "" ->
                 Re.match_here re (a2 ++ t) = None) ->
  Re.search re (a ++ t) = Re.search re t.
Proof.
  induction a as [|c a IH]; intros H; [reflexivity|].
  cbn [append Re.search].
  assert (E : Re.match_here re (String c (a ++ t)) = None)
    by (apply (H "" (String c a)); [reflexivity | discriminate]).
  rewrite E. apply IH. intros a1 a2 -> Ha2. now apply (H (String c a1) a2).
Qed.

Lemma search_needs_key (key : string) (re : Re.pattern) (s : string) :
  ~ occurs key s -> Re.search (Re.lits key ++ re)%list s = None.
Proof.
  induction s as [|c r IH]; intros H.
  - cbn. destruct (Re.match_here _ "") as [g|] eqn:E; [|reflexivity].
    apply match_lits_inv in E as (rest & E & _).
    exfalso. apply H. now exists "", rest.
  - cbn [Re.search].
    destruct (Re.match_here _ (String c r)) as [g|] eqn:E.
    + apply match_lits_inv in E as (rest & E & _).
      exfalso. apply H. now exists "", rest.
    + apply IH. intros (a & b & ->). apply H. now exists (String c a), b.
Qed.

Lemma span_app_all (p : ascii -> bool) (a b : string) :
  all_chars p a = true ->
  Re.span p (a ++ b) = String.length a + Re.span p b.
Proof.
  induction a as [|c a IH]; [reflexivity|]. cbn.
  intros H. apply andb_true_iff in H as [Hc Ha]. now rewrite Hc, IH.
Qed.

Lemma take_app_length (a b : string) : Re.take (String.length a) (a ++ b) = a.
Proof. induction a as [|c a IH]; cbn; [now destruct b | now rewrite IH]. Qed.

Lemma lstrip_app_blank (ws s : string) :
  blank ws -> Py.lstrip (ws ++ s) = Py.lstrip s.
Proof.
  unfold blank. induction ws as [|c ws IH]; [reflexivity|]. cbn.
  intros H. apply andb_true_iff in H as [Hc Hw]. now rewrite Hc, IH.
Qed.

(** The number the search finds. *)
Lemma search_number (key line a ws num b : string) :
  number_after key line a ws num b ->
  Re.search (Re.lits key ++ number_tail)%list line = Some [num].
Proof.
  intros (-> & Hws & Hne & Hnum & Hb & Hfirst).
  rewrite search_skip.
  - apply search_hit. rewrite match_lits_app, match_number_tail.
    rewrite lstrip_app_blank by assumption.
    assert (L : Py.lstrip (num ++ b) = num ++ b).
    { destruct num as [|c num]; [contradiction|]. cbn in *.
      apply andb_true_iff in Hnum as [Hc _].
      destruct (Py.isspace c) eqn:S; [|reflexivity].
      apply space_not_num in S. congruence. }
    rewrite L. cbv zeta. rewrite span_app_all, Hb, Nat.add_0_r by assumption.
    destruct num as [|c num]; [contradiction|].
    cbn [String.length]. change (S (String.length num)) with
      (String.length (String c num)).
    now rewrite take_app_length.
  - intros a1 a2 -> Ha2.
    destruct (Re.match_here _ _) as [g|] eqn:E; [|reflexivity].
    apply match_lits_inv in E as (rest & E & M).
    rewrite match_number_tail in M. cbv zeta in M.
    rewrite (Hfirst a1 rest) in M; [discriminate | |].
    + now rewrite append_assoc, E.
    + rewrite length_append. destruct a2; [contradiction | cbn; lia].
Qed.

End SearchFacts.

Lemma frame_number_present (key line a ws num b : string) (v : Py.float) :
  number_after key line a ws num b ->
  Py.py_float num = Py.Ok v ->
  frame_number (Re.lits key ++ number_tail)%list line = Py.Ok (Some v).
Proof.
  intros N V. eapply frame_number_found; [|exact V].
  eapply search_number; eassumption.
Qed.

Lemma frame_number_absent (key line : string) :
  ~ occurs key line ->
  frame_number (Re.lits key ++ number_tail)%list line = Py.Ok None.
Proof.
  intros H. unfold frame_number. now rewrite search_needs_key.
Qed.

(** ** Case of letters in a description line *)

Lemma lower_idem (c : ascii) : Py.lower (Py.lower c) = Py.lower c.
Proof. each_char c; vm_compute; reflexivity. Qed.

Lemma lower_digit (c : ascii) : Py.isdecimal (Py.lower c) = Py.isdecimal c.
Proof. each_char c; vm_compute; reflexivity. Qed.

Lemma lower_space (c : ascii) : Py.isspace (Py.lower c) = Py.isspace c.
Proof. each_char c; vm_compute; reflexivity. Qed.

Lemma lower_any (c : ascii) : Re.any (Py.lower c) = Re.any c.
Proof. each_char c; vm_compute; reflexivity. Qed.

Lemma lower_dim (c : ascii) : Re.set_dim (Py.lower c) = Re.set_dim c.
Proof. each_char c; vm_compute; reflexivity. Qed.

Lemma lower_digit_id (c : ascii) : Py.isdecimal c = true -> Py.lower c = c.
Proof. each_char c; vm_compute; congruence. Qed.

Lemma blind_by_lower (p : ascii -> bool) :
  (forall c, p (Py.lower c) = p c) -> fold_blind p.
Proof. intros H a b E. now rewrite <- (H a), <- (H b), E. Qed.

Lemma lit_i_blind (ch : ascii) : fold_blind (Re.lit_i ch).
Proof. intros a b E. unfold Re.lit_i. now rewrite E. Qed.

Lemma desc_pattern_blind :
  Forall (fun a => fold_blind (Re.cls a)) Re.desc_pattern.
Proof.
  repeat constructor; cbn [Re.cls Re.grp Re.exactly Re.plus Re.plus_lazy
                           Re.star Re.one];
    first [ apply lit_i_blind
          | apply blind_by_lower; first [ exact lower_digit | exact lower_space
                                        | exact lower_any | exact lower_dim ] ].
Qed.

Section Fold.

Lemma same_fold_refl (s : string) : same_fold s s = true.
Proof.
  induction s as [|c s IH]; [reflexivity|]. cbn.
  now rewrite Ascii.eqb_refl.
Qed.

Lemma same_fold_app (a a' b b' : string) :
  same_fold a a' = true -> same_fold b b' = true ->
  same_fold (a ++ b) (a' ++ b') = true.
Proof.
  revert a'. induction a as [|c a IH]; intros [|c' a'] Ha Hb;
    cbn in *; try congruence.
  apply andb_true_iff in Ha as [E Ha]. now rewrite E, IH.
Qed.

Lemma same_fold_drop (n : nat) (s1 s2 : string) :
  same_fold s1 s2 = true -> same_fold (Re.drop n s1) (Re.drop n s2) = true.
Proof.
  revert s1 s2. induction n as [|n IH]; intros [|a r1] [|b r2] H;
    cbn in *; try congruence.
  apply andb_true_iff in H as [_ H]. now apply IH.
Qed.

Lemma same_fold_take (n : nat) (s1 s2 : string) :
  same_fold s1 s2 = true -> same_fold (Re.take n s1) (Re.take n s2) = true.
Proof.
  revert s1 s2. induction n as [|n IH]; intros [|a r1] [|b r2] H;
    cbn in *; try congruence.
  apply andb_true_iff in H as [E H]. now rewrite E, IH.
Qed.

Lemma same_fold_span (p : ascii -> bool) (s1 s2 : string) :
  fold_blind p -> same_fold s1 s2 = true -> Re.span p s1 = Re.span p s2.
Proof.
  intros B. revert s2. induction s1 as [|a r1 IH]; intros [|b r2] H;
    cbn in *; try congruence.
  apply andb_true_iff in H as [E H]. apply Ascii.eqb_eq in E.
  rewrite (B a b E). destruct (p b); [now rewrite (IH r2) | reflexivity].
Qed.

Lemma same_fold_digits (s1 s2 : string) :
  all_chars Py.isdecimal s1 = true -> all_chars Py.isdecimal s2 = true ->
  same_fold s1 s2 = true -> s1 = s2.
Proof.
  revert s2. induction s1 as [|a r1 IH]; intros [|b r2] D1 D2 H;
    cbn in *; try congruence.
  apply andb_true_iff in D1 as [Da D1]. apply andb_true_iff in D2 as [Db D2].
  apply andb_true_iff in H as [E H]. apply Ascii.eqb_eq in E.
  rewrite (lower_digit_id a Da), (lower_digit_id b Db) in E. subst b.
  now rewrite (IH r2).
Qed.

Lemma first_some_same {A : Type} (f1 f2 : A -> option (list string))
    (l : list A) :
  (forall x, same_match (f1 x) (f2 x)) ->
  same_match (Re.first_some f1 l) (Re.first_some f2 l).
Proof.
  intros H. induction l as [|x l IH]; cbn; [exact I|].
  specialize (H x). destruct (f1 x), (f2 x); cbn in H; try contradiction.
  - exact H.
  - exact IH.
Qed.

(** A pattern of case-blind elements matches two texts that differ in
    the case of letters alike, group by group. *)
Lemma match_here_same (re : Re.pattern) :
  Forall (fun a => fold_blind (Re.cls a)) re ->
  forall s1 s2, same_fold s1 s2 = true ->
                same_match (Re.match_here re s1) (Re.match_here re s2).
Proof.
  induction 1 as [|a re B _ IH]; intros s1 s2 H.
  - cbn. constructor.
  - cbn [Re.match_here].
    replace (Re.avail a s2) with (Re.avail a s1)
      by (unfold Re.avail; now rewrite (same_fold_span _ s1 s2 B H)).
    apply first_some_same. intros c.
    specialize (IH _ _ (same_fold_drop c _ _ H)).
    destruct (Re.match_here re (Re.drop c s1)),
             (Re.match_here re (Re.drop c s2)); cbn in IH;
      try contradiction; [|exact I].
    cbn. destruct (Re.captured a); [|exact IH].
    constructor; [now apply same_fold_take | exact IH].
Qed.

End Fold.

Section SeriesWord.

Lemma drop_app_length (a b : string) : Re.drop (String.length a) (a ++ b) = b.
Proof. induction a as [|c a IH]; [now destruct b | exact IH]. Qed.

Lemma match_lits_i_app (key w rest : string) (re : Re.pattern) :
  same_fold w key = true ->
  Re.match_here (Re.lits_i key ++ re)%list (w ++ rest) = Re.match_here re rest.
Proof.
  revert w. induction key as [|ch key IH]; intros [|c w] H;
    cbn in H; try discriminate; [reflexivity|].
  apply andb_true_iff in H as [E H].
  cbn [Re.lits_i list_ascii_of_string map app append].
  rewrite match_one. unfold Re.lit_i at 1. rewrite E. now apply IH.
Qed.

Lemma small_s_not_space (c : ascii) :
  Py.lower c = "s"%char -> Py.isspace c = false.
Proof. each_char c; vm_compute; congruence. Qed.

Lemma space_not_capital_s (c : ascii) :
  Py.isspace c = true -> Re.lit_i "S" c = false.
Proof. each_char c; vm_compute; congruence. Qed.

Lemma series_word_head (w : string) :
  same_fold w "Series" = true -> forall rest, Re.span Py.isspace (w ++ rest) = 0.
Proof.
  destruct w as [|c w]; [discriminate|]. cbn [same_fold].
  intros H rest. apply andb_true_iff in H as [E _].
  apply Ascii.eqb_eq in E. cbn [append Re.span].
  now rewrite (small_s_not_space c E).
Qed.

(** A line that starts with four digits, white space and the word
    [Series] in any case: the match is decided by what follows the
    word. *)
Lemma desc_match_shape (d ws w rest : string) :
  String.length d = 4 -> all_chars Py.isdecimal d = true ->
  ws <> "" -> blank ws ->
  same_fold w "Series" = true ->
  Re.re_match Re.desc_pattern (d ++ ws ++ w ++ rest) =
  match Re.match_here desc_tail rest with
  | Some gs => Some (d :: gs)
  | None => None
  end.
Proof.
  intros Ld Dd Nws Bws Hw.
  unfold Re.re_match.
  change Re.desc_pattern with
    (Re.Atom Re.cat_digit 4 (Some 4) Re.Greedy true
     :: Re.Atom Re.cat_space 1 None Re.Greedy false
     :: (Re.lits_i "Series" ++ desc_tail))%list.
  rewrite match_exactly.
  rewrite (span_app_all Re.cat_digit d _ Dd), Ld. cbn [Nat.add Nat.leb].
  replace (Re.drop 4 (d ++ ws ++ w ++ rest)) with (ws ++ w ++ rest)
    by (rewrite <- Ld; now rewrite drop_app_length).
  replace (Re.take 4 (d ++ ws ++ w ++ rest)) with d
    by (rewrite <- Ld; now rewrite take_app_length).
  cbn [Re.match_here]. unfold Re.avail, Re.counts.
  cbn [Re.cls Re.lo Re.hi Re.mode Re.captured].
  assert (Sp : Re.span Re.cat_space (ws ++ w ++ rest) = String.length ws).
  { unfold Re.cat_space. rewrite (span_app_all _ ws _ Bws).
    rewrite (series_word_head w Hw). lia. }
  rewrite Sp.
  assert (Lws : 1 <= String.length ws) by (destruct ws; [contradiction | cbn; lia]).
  rewrite greedy_counts by exact Lws. cbn [Re.first_some].
  rewrite drop_app_length, (match_lits_i_app _ _ _ _ Hw).
  destruct (Re.match_here desc_tail rest) as [gs|]; [reflexivity|].
  rewrite first_some_none; [reflexivity|].
  intros c Hc. apply in_rev, in_seq in Hc.
  destruct (drop_in_span Re.cat_space c (ws ++ w ++ rest))
    as (x & r & -> & Hx); [rewrite Sp; lia|].
  cbn [Re.lits_i list_ascii_of_string map app].
  rewrite match_one. now rewrite (space_not_capital_s x Hx).
Qed.

End SeriesWord.

(** C2: a text made of a line that matches the description pattern and,
    right after it, a line that begins with [Frame:] and carries a number
    after [Width =] and after [Height =], yields exactly one record:
    manufacturer [CWS], colour the trimmed last comma segment of the frame
    line, series the four digits the description starts with followed by
    [ Series], style the trimmed second group, width and height the two
    numbers.  The pair of lines given as the example yields the record
    with colour [Bronze], series [7300 Series], style
    [Direct Set Half Round], width 73.0 and height 36.5. *)
Theorem description_then_frame_yields_one_record :
  (forall (d f : string) (m : list string)
          (aw sw w bw ah sh h bh : string) (wv hv : Py.float),
      one_line d -> one_line f ->
      Re.re_match Re.desc_pattern (Py.strip d) = Some m ->
      Py.startswith "Frame:" (Py.strip f) = true ->
      number_after "Width =" (Py.strip f) aw sw w bw ->
      Py.py_float w = Py.Ok wv ->
      number_after "Height =" (Py.strip f) ah sh h bh ->
      Py.py_float h = Py.Ok hv ->
      Re.group 1 m = Re.take 4 (Py.strip d) /\
      String.length (Re.group 1 m) = 4 /\
      all_chars Py.isdecimal (Re.group 1 m) = true /\
      Server.parse_products_from_text (d ++ newline ++ f) =
      Py.Ok [ {| Manufacturer := "CWS";
                 Frame_Color := Py.strip (Py.last_item (Py.split comma f));
                 Series_ID := Re.group 1 m ++ " Series";
                 Window_Style := Py.strip (Re.group 2 m);
                 Width := Some wv;
                 Height := Some hv |} ]) /\
  Server.parse_products_from_text (example_desc ++ newline ++ example_frame) =
  Py.Ok [ {| Manufacturer := "CWS";
             Frame_Color := "Bronze";
             Series_ID := "7300 Series";
             Window_Style := "Direct Set Half Round";
             Width := Some (Py.dyadic 73 0);
             Height := Some (Py.dyadic 73 (-1)) |} ].
Proof.
  split; [|vm_compute; reflexivity].
  intros d f m aw sw w bw ah sh h bh wv hv Hd Hf Hm F Hw Hwv Hh Hhv.
  destruct (desc_group_1 _ _ Hm) as (G1 & G3 & G2).
  split; [exact G1|]. split; [exact G3|]. split; [exact G2|].
  rewrite parse_final_state. unfold final_state.
  rewrite normalized_lines_app, !normalized_lines_one by assumption.
  cbn [app for_each].
  rewrite (body_desc_line _ _ _ _ Hm). cbn [Py.bind].
  rewrite (body_frame_ok _ _ _ (Some wv) (Some hv) F).
  - cbn [Py.bind fst app pending_Series_ID pending_Window_Style].
    now rewrite colour_of_raw_line, (strip_digits _ G2).
  - eapply (frame_number_present "Width ="); eassumption.
  - eapply (frame_number_present "Height ="); eassumption.
Qed.

Lemma description_then_frame_yields_one_record_witness :
  Server.parse_products_from_text
    ("  7100 Series Casement 30 x 40 - FIN" ++ newline
     ++ "Frame: Width = 30.25, Height = 40, White ") =
  Py.Ok [ {| Manufacturer := "CWS";
             Frame_Color := "White";
             Series_ID := "7100 Series";
             Window_Style := "Casement";
             Width := Some (Py.dyadic 121 (-2));
             Height := Some (Py.dyadic 40 0) |} ].
Proof.
  refine (proj2 (proj2 (proj2
            (proj1 description_then_frame_yields_one_record
               "  7100 Series Casement 30 x 40 - FIN"
               "Frame: Width = 30.25, Height = 40, White "
               ["7100"; "Casement"; "30 "; "40 "]
               "Frame: " " " "30.25" ", Height = 40, White"
               "Frame: Width = 30.25, " " " "40" ", White"
               (Py.dyadic 121 (-2)) (Py.dyadic 40 0)
               _ _ _ _ _ _ _ _)))); try (vm_compute; reflexivity).
  - split; [reflexivity|]. split; [reflexivity|]. split; [discriminate|].
    split; [reflexivity|]. split; [reflexivity|]. no_earlier_place.
  - split; [reflexivity|]. split; [reflexivity|]. split; [discriminate|].
    split; [reflexivity|]. split; [reflexivity|]. no_earlier_place.
Defined.

(** ** When the scan returns *)

(** The scan returns a list whenever [float] reads every number captured
    on a frame line; [ValueError] from [float] is the one way out. *)
Lemma scan_returns_when_numbers_parse (lines : list string) :
  Forall (fun l => Py.startswith "Frame:" l = true ->
                   (exists w, frame_number Re.width_pattern l = Py.Ok w) /\
                   (exists h, frame_number Re.height_pattern l = Py.Ok h))
         lines ->
  forall st : scan_state,
    exists st', for_each Server.loop_body st lines = Py.Ok st'.
Proof.
  induction 1 as [|x l Hx _ IH]; intros [ps pend]; [now eexists|].
  cbn [for_each].
  assert (B : exists st1, Server.loop_body (ps, pend) x = Py.Ok st1).
  { destruct (Re.re_match Re.desc_pattern x) as [m|] eqn:M.
    - rewrite (body_desc_line _ _ _ _ M). now eexists.
    - destruct (Py.startswith "Frame:" x) eqn:F.
      + destruct pend as [p|].
        * destruct (Hx eq_refl) as ((w & Hw) & (h & Hh)).
          rewrite (body_frame_ok _ _ _ w h F Hw Hh). now eexists.
        * rewrite body_nothing_pending by assumption. now eexists.
      + rewrite body_other_line by assumption. now eexists. }
  destruct B as (st1 & ->). cbn [Py.bind]. apply IH.
Qed.

(** ** The primitives on small inputs *)

Example desc_groups_of_example :
  Re.re_match Re.desc_pattern example_desc =
  Some ["7300"; "Direct Set Half Round"; "73 "; "36 1/2 "].
Proof. reflexivity. Qed.

(** With nothing but white space between [Series] and the dimensions the
    engine gives part of that white space back to the style group. *)
Example desc_groups_blank_style :
  Re.re_match Re.desc_pattern "7300 Series   73 x 36 -" =
  Some ["7300"; " "; "73 "; "36 "].
Proof. reflexivity. Qed.

(** The lazy style group stops at the first place from which the rest of
    the pattern matches. *)
Example desc_groups_first_dimensions :
  Re.re_match Re.desc_pattern "7300 series Box 1 X 36 - 1 x 2 -" =
  Some ["7300"; "Box"; "1 "; "36 "].
Proof. reflexivity. Qed.

Example desc_needs_four_digits :
  Re.re_match Re.desc_pattern "730 Series Box 1 x 36 -" = None.
Proof. reflexivity. Qed.

Example width_of_example :
  Re.search Re.width_pattern example_frame = Some ["73"] /\
  Re.search Re.height_pattern example_frame = Some ["36.5"].
Proof. split; reflexivity. Qed.

(** The search moves on from an occurrence that no number follows. *)
Example width_second_occurrence :
  Re.search Re.width_pattern "Frame: Width = n/a, Width =  .5" = Some [".5"].
Proof. reflexivity. Qed.

Example float_values :
  Py.py_float "73" = Py.Ok (Py.dyadic 73 0) /\
  Py.py_float "36.5" = Py.Ok (Py.dyadic 73 (-1)) /\
  Py.py_float "5." = Py.Ok (Py.dyadic 5 0) /\
  Py.py_float ".5" = Py.Ok (Py.dyadic 1 (-1)) /\
  Py.py_float "0.1" = Py.Ok (Py.dyadic 3602879701896397 (-55)) /\
  Py.py_float "." = Py.Raise Py.ValueError /\
  Py.py_float "1.2.3" = Py.Raise Py.ValueError.
Proof. repeat split; vm_compute; reflexivity. Qed.

Example strip_and_split :
  Py.strip "  a b  " = "a b" /\
  Py.split comma "a,b,,c" = ["a"; "b"; ""; "c"] /\
  Py.split comma "" = [""] /\
  Py.last_item (Py.split comma "Frame: Width = 1,") = "".
Proof. repeat split; reflexivity. Qed.

(** ** File names *)

Section FileNames.

Lemma append_eq_append (a b x y : string) :
  a ++ b = x ++ y ->
  (exists l, a = x ++ l /\ y = l ++ b) \/ (exists l, x = a ++ l /\ b = l ++ y).
Proof.
  revert x. induction a as [|c a IH]; intros x H.
  - right. now exists x.
  - destruct x as [|d x].
    + left. now exists (String c a).
    + cbn in H. injection H as -> H.
      destruct (IH x H) as [(l & -> & ->) | (l & -> & ->)].
      * left. now exists l.
      * right. now exists l.
Qed.

Lemma contains_app (c : ascii) (a b : string) :
  PyLib.contains c (a ++ b) = PyLib.contains c a || PyLib.contains c b.
Proof.
  induction a as [|d a IH]; [reflexivity|]. cbn.
  now rewrite IH, orb_assoc.
Qed.

Lemma cut_last_none (sep : ascii) (s : string) :
  PyLib.cut_last sep s = None <-> PyLib.contains sep s = false.
Proof.
  induction s as [|c r IH]; cbn; [tauto|].
  destruct (PyLib.cut_last sep r) as [[a b]|].
  - split; [discriminate|]. intros H. apply orb_false_iff in H as [_ H].
    apply IH in H. discriminate.
  - destruct (Ascii.eqb c sep); cbn; [split; discriminate|].
    split; intros _; [now apply IH | reflexivity].
Qed.

(** The cut at the last separator: what follows holds none. *)
Lemma cut_last_some (sep : ascii) (s a b : string) :
  PyLib.cut_last sep s = Some (a, b) <->
  s = a ++ String sep b /\ PyLib.contains sep b = false.
Proof.
  revert a b. induction s as [|c r IH]; intros a b; cbn.
  - split; [discriminate|]. intros [H _]. now destruct a.
  - destruct (PyLib.cut_last sep r) as [[a' b']|] eqn:E.
    + destruct (proj1 (IH a' b') eq_refl) as [Hr Hb'].
      split.
      * intros [= <- <-]. split; [now rewrite Hr | exact Hb'].
      * intros [H Hb]. destruct a as [|d a].
        -- cbn in H. injection H as _ H.
           rewrite <- H, Hr, contains_app in Hb. cbn in Hb.
           rewrite Ascii.eqb_refl, orb_true_r in Hb. discriminate.
        -- cbn in H. injection H as <- H.
           pose proof (proj2 (IH a b) (conj H Hb)) as X.
           now injection X as -> ->.
    + apply cut_last_none in E.
      destruct (Ascii.eqb c sep) eqn:C.
      * apply Ascii.eqb_eq in C as ->. split.
        -- intros [= <- <-]. now split.
        -- intros [H Hb]. destruct a as [|d a].
           ++ cbn in H. now injection H as <-.
           ++ cbn in H. injection H as _ H.
              rewrite H, contains_app in E. cbn in E.
              rewrite Ascii.eqb_refl, orb_true_r in E. discriminate.
      * split; [discriminate|]. intros [H Hb]. destruct a as [|d a].
        -- cbn in H. injection H as -> _.
           rewrite Ascii.eqb_refl in C. discriminate.
        -- cbn in H. injection H as _ H.
           rewrite H, contains_app in E. cbn in E.
           rewrite Ascii.eqb_refl, orb_true_r in E. discriminate.
Qed.

Lemma substring_from (k n : nat) (s : string) :
  substring k n s = substring 0 n (Re.drop k s).
Proof.
  revert s. induction k as [|k IH]; intros [|c r]; cbn; try reflexivity.
  - now destruct n.
  - apply IH.
Qed.

Lemma substring_whole (s : string) : substring 0 (String.length s) s = s.
Proof. induction s as [|c r IH]; cbn; [reflexivity | now rewrite IH]. Qed.

Lemma drop_length (k : nat) (s : string) :
  k <= String.length s ->
  String.length (Re.drop k s) = String.length s - k.
Proof.
  revert s. induction k as [|k IH]; intros [|c r] H; cbn in *; try lia.
  apply IH. lia.
Qed.

(** [s.endswith(suffix)] holds when [s] is some text followed by
    [suffix]. *)
Lemma endswith_iff (suffix s : string) :
  PyLib.endswith suffix s = true <-> exists a, s = a ++ suffix.
Proof.
  unfold PyLib.endswith. split.
  - intros H. apply andb_true_iff in H as [L E].
    apply Nat.leb_le in L. apply String.eqb_eq in E.
    exists (Re.take (String.length s - String.length suffix) s).
    rewrite <- E at 2. rewrite substring_from.
    replace (String.length suffix) with
      (String.length (Re.drop (String.length s - String.length suffix) s))
      at 2 by (rewrite drop_length; lia).
    now rewrite substring_whole, take_drop.
  - intros (a & ->). rewrite length_append.
    apply andb_true_iff. split; [apply Nat.leb_le; lia|].
    apply String.eqb_eq.
    replace (String.length a + String.length suffix - String.length suffix)
      with (String.length a) by lia.
    now rewrite substring_from, drop_app_length, substring_whole.
Qed.

Lemma lower_app (a b : string) :
  PyLib.lower (a ++ b) = PyLib.lower a ++ PyLib.lower b.
Proof. induction a as [|c a IH]; cbn; [reflexivity | now rewrite IH]. Qed.

Lemma lower_app_inv (s a b : string) :
  PyLib.lower s = a ++ b ->
  exists s1 s2, s = s1 ++ s2 /\ PyLib.lower s1 = a /\ PyLib.lower s2 = b.
Proof.
  revert s. induction a as [|c a IH]; intros s H.
  - now exists "", s.
  - destruct s as [|d s]; [discriminate|]. cbn in H. injection H as <- H.
    destruct (IH s H) as (s1 & s2 & -> & <- & <-).
    now exists (String d s1), s2.
Qed.

Lemma lower_is_dot (c : ascii) : Py.lower c = "."%char -> c = "."%char.
Proof. each_char c; vm_compute; congruence. Qed.

Lemma lower_is_slash (c : ascii) :
  Ascii.eqb (Py.lower c) "/" = Ascii.eqb c "/".
Proof. each_char c; vm_compute; reflexivity. Qed.

Lemma lower_keeps_dots (c : ascii) :
  Ascii.eqb (Py.lower c) "." = Ascii.eqb c ".".
Proof. each_char c; vm_compute; reflexivity. Qed.

Lemma contains_dot_lower (s : string) :
  PyLib.contains "." (PyLib.lower s) = PyLib.contains "." s.
Proof.
  induction s as [|c r IH]; cbn; [reflexivity|].
  now rewrite lower_keeps_dots, IH.
Qed.

Lemma cut_last_lower (s : string) :
  PyLib.cut_last "/" (PyLib.lower s) =
  match PyLib.cut_last "/" s with
  | Some (a, b) => Some (PyLib.lower a, PyLib.lower b)
  | None => None
  end.
Proof.
  induction s as [|c r IH]; cbn; [reflexivity|]. rewrite IH.
  destruct (PyLib.cut_last "/" r) as [[a b]|]; [reflexivity|].
  rewrite lower_is_slash. now destruct (Ascii.eqb c "/").
Qed.

Lemma basename_lower (s : string) :
  PyLib.basename (PyLib.lower s) = PyLib.lower (PyLib.basename s).
Proof.
  unfold PyLib.basename. rewrite cut_last_lower.
  now destruct (PyLib.cut_last "/" s) as [[a b]|].
Qed.

(** A suffix that holds no slash is a suffix of the base name. *)
Lemma endswith_basename (suffix s : string) :
  PyLib.contains "/" suffix = false ->
  PyLib.endswith suffix (PyLib.basename s) = PyLib.endswith suffix s.
Proof.
  intros N. unfold PyLib.basename.
  destruct (PyLib.cut_last "/" s) as [[a b]|] eqn:E; [|reflexivity].
  apply cut_last_some in E as [-> Hb].
  apply eq_true_iff_eq. rewrite !endswith_iff. split.
  - intros (x & ->). exists (a ++ String "/" x).
    now rewrite append_assoc.
  - intros (x & H).
    apply append_eq_append in H as [(l & _ & H) | (l & _ & H)].
    + rewrite H, contains_app in N. cbn in N.
      rewrite orb_true_r in N. discriminate.
    + destruct l as [|d l].
      * cbn in H. rewrite <- H in N. cbn in N. discriminate.
      * cbn in H. injection H as _ H. now exists l.
Qed.

End FileNames.

Lemma allowed_file_true (f : string) :
  AppRoutes.allowed_file f = Some true <->
  exists stem ext,
    f = stem ++ "." ++ ext /\
    PyLib.contains "." ext = false /\
    PyLib.lower ext = "pdf".
Proof.
  unfold AppRoutes.allowed_file.
  destruct (PyLib.contains "." f) eqn:C.
  - unfold PyLib.rsplit_once.
    destruct (PyLib.cut_last "." f) as [[a b]|] eqn:E.
    + cbn [PyLib.item nth_error].
      unfold AppRoutes.is_allowed_extension, AppRoutes.ALLOWED_EXTENSIONS.
      cbn [existsb]. rewrite orb_false_r.
      apply cut_last_some in E as [-> Hb]. split.
      * intros [= H]. apply String.eqb_eq in H. now exists a, b.
      * intros (stem & ext & H & Hext & L).
        assert (X : PyLib.cut_last "." (a ++ String "." b) = Some (stem, ext))
          by (apply cut_last_some; now split).
        assert (Y : PyLib.cut_last "." (a ++ String "." b) = Some (a, b))
          by (apply cut_last_some; now split).
        rewrite Y in X. injection X as -> ->.
        now rewrite L.
    + apply cut_last_none in E. congruence.
  - split; [discriminate|]. intros (stem & ext & -> & _).
    rewrite contains_app in C. cbn in C. rewrite orb_true_r in C. discriminate.
Qed.

Lemma allowed_file_returns (f : string) :
  exists b, AppRoutes.allowed_file f = Some b.
Proof.
  unfold AppRoutes.allowed_file.
  destruct (PyLib.contains "." f) eqn:C; [|now eexists].
  unfold PyLib.rsplit_once.
  destruct (PyLib.cut_last "." f) as [[a b]|] eqn:E; [now eexists|].
  apply cut_last_none in E. congruence.
Qed.

(** [allowed_file] never raises the [IndexError] of its [[1]], and it
    accepts a name exactly when the name is some text, a dot, and an
    extension without a dot that is [pdf] in any case of its letters. *)
Theorem allowed_file_accepts_pdf_extension :
  forall f : string,
    (exists b, AppRoutes.allowed_file f = Some b) /\
    (AppRoutes.allowed_file f = Some true <->
     exists stem ext,
       f = stem ++ "." ++ ext /\
       PyLib.contains "." ext = false /\
       PyLib.lower ext = "pdf").
Proof.
  intros f. split; [apply allowed_file_returns | apply allowed_file_true].
Qed.

Lemma allowed_file_is_suffix_test (f : string) :
  AppRoutes.allowed_file f = Some (PyLib.endswith ".pdf" (PyLib.lower f)).
Proof.
  destruct (allowed_file_returns f) as (b & E). rewrite E. f_equal.
  apply eq_true_iff_eq. rewrite endswith_iff.
  assert (T : b = true <-> AppRoutes.allowed_file f = Some true).
  { rewrite E. split; [now intros -> | now intros [= ->]]. }
  rewrite T, allowed_file_true. split.
  - intros (stem & ext & -> & _ & L). exists (PyLib.lower stem).
    rewrite lower_app. cbn. now rewrite L.
  - intros (a & H). apply lower_app_inv in H as (s1 & s2 & -> & _ & L).
    destruct s2 as [|c ext]; [discriminate|]. cbn in L. injection L as Lc L.
    apply lower_is_dot in Lc as ->. exists s1, ext.
    split; [reflexivity|]. split; [|exact L].
    now rewrite <- contains_dot_lower, L.
Qed.

Lemma allowed_file_name_test (name : string) :
  AppRoutes.allowed_file name =
  Some (PyLib.endswith ".pdf" (PyLib.lower (PyLib.basename name))).
Proof.
  rewrite <- basename_lower, endswith_basename by reflexivity.
  apply allowed_file_is_suffix_test.
Qed.

(** The test of the file name in [do_POST] of [server.py] (base name,
    lower case, ends with [.pdf]) and [allowed_file] of [app.py] accept the
    same names: the directory part of a name and the case of its letters
    play no role in either. *)
Theorem server_name_test_is_allowed_file :
  forall name : string,
    AppRoutes.allowed_file name =
    Some (PyLib.endswith ".pdf" (PyLib.lower (PyLib.basename name))) /\
    AppRoutes.allowed_file name =
    Some (PyLib.endswith ".pdf" (PyLib.lower name)).
Proof.
  intros name. split;
    [apply allowed_file_name_test | apply allowed_file_is_suffix_test].
Qed.

(** ** The upload handlers *)

Section Disk.

Variable pdf_text : string -> option string.

Lemma read_after_write (fs : Web.files) (path data : string) :
  Web.extract_text pdf_text (Web.write fs path data) path = pdf_text data.
Proof. unfold Web.extract_text, Web.write. now rewrite String.eqb_refl. Qed.

Lemma unlink_after_write (fs : Web.files) (path data : string) :
  fs path = None ->
  forall q, Web.unlink (Web.write fs path data) path q = fs q.
Proof.
  intros H q. unfold Web.unlink, Web.write.
  destruct (String.eqb_spec q path) as [->|]; [now rewrite H | reflexivity].
Qed.

Lemma write_elsewhere (fs : Web.files) (path data q : string) :
  q <> path -> Web.write fs path data q = fs q.
Proof.
  intros H. unfold Web.write.
  destruct (String.eqb_spec q path); [contradiction | reflexivity].
Qed.

End Disk.

Lemma lstrip_empty_blank (s : string) : Py.lstrip s = "" -> blank s.
Proof.
  unfold blank. induction s as [|c r IH]; cbn; [reflexivity|].
  destruct (Py.isspace c); [exact IH | discriminate].
Qed.

Lemma lstrip_head (s : string) (c : ascii) (r : string) :
  Py.lstrip s = String c r -> Py.isspace c = false.
Proof.
  induction s as [|d s IH]; cbn; [discriminate|].
  destruct (Py.isspace d) eqn:E; [exact IH | now intros [= <- _]].
Qed.

Lemma strip_empty_blank (s : string) : Py.strip s = "" -> blank s.
Proof.
  unfold Py.strip. intros H. apply lstrip_empty_blank.
  destruct (Py.lstrip s) as [|c r] eqn:E; [reflexivity|].
  rewrite rstrip_cons in H by (eapply lstrip_head; eassumption).
  discriminate.
Qed.

Lemma not_truthy_empty (s : string) : Py.truthy s = false <-> s = "".
Proof. destruct s; cbn; split; congruence. Qed.

(** A text that strips to nothing holds no record. *)
Lemma parse_stripped_empty (text : string) :
  Py.strip text = "" -> Server.parse_products_from_text text = Py.Ok [].
Proof.
  intros H. apply strip_empty_blank in H.
  rewrite parse_final_state. unfold final_state.
  rewrite for_each_skip; [reflexivity|].
  unfold normalized_lines. apply Forall_map.
  eapply Forall_impl; [|apply split_all_blank; exact H].
  intros l Hl. now rewrite strip_blank.
Qed.

Lemma scan_text_is_parse (text : string) :
  App.scan_text text = Server.parse_products_from_text text.
Proof.
  unfold App.scan_text, Server.parse_products_from_text.
  now rewrite (for_each_ext _ _ _ scan_line_loop_body).
Qed.

Lemma allowed_name_given (name : string) :
  AppRoutes.allowed_file name = Some true -> Web.given (Some name) = true.
Proof. destruct name; [discriminate | reflexivity]. Qed.

Section Answers.

Variable pdf_text : string -> option string.
Variable secure_filename : string -> string.
Variable UPLOAD_FOLDER : string.

Variable FieldStorage : string -> Web.headers -> string -> Cgi.storage.

(** [do_POST] on a request from which a form is read. *)
Lemma do_POST_form (headers : Web.headers) (rfile : string)
    (form : Cgi.storage) :
  ServerHandler.form_of FieldStorage headers rfile = Some form ->
  exists c,
    Web.get "Content-Type" headers = Some c /\
    Web.given (Some c) = true /\
    FieldStorage rfile headers c = form.
Proof.
  unfold ServerHandler.form_of. intros H.
  destruct (Web.get "Content-Type" headers) as [c|]; [|discriminate].
  destruct (Py.truthy c) eqn:T; [|discriminate].
  exists c. injection H as H. now repeat split.
Qed.

Lemma do_POST_no_form (headers : Web.headers) (rfile tmp : string)
    (fs : Web.files) :
  ServerHandler.form_of FieldStorage headers rfile = None ->
  ServerHandler.do_POST pdf_text FieldStorage headers rfile tmp fs =
  (Web.Sent (Web.SendError 400 "Content-Type header missing"), fs).
Proof.
  unfold ServerHandler.form_of, ServerHandler.do_POST, Web.given.
  destruct (Web.get "Content-Type" headers) as [c|]; [|reflexivity].
  destruct (Py.truthy c); [discriminate | reflexivity].
Qed.

(** [do_POST] once the request has passed the four checks. *)
Lemma do_POST_accepted (headers : Web.headers) (rfile : string)
    (file_field : Web.field) (name tmp : string) (fs : Web.files) :
  ServerHandler.form_of FieldStorage headers rfile
  = Some (Cgi.Form (Some (Cgi.One file_field))) ->
  Web.filename file_field = Some name ->
  AppRoutes.allowed_file name = Some true ->
  fst (ServerHandler.do_POST pdf_text FieldStorage headers rfile tmp fs) =
  let text := Web.text_of pdf_text (Web.content file_field) in
  if negb (Py.truthy (Py.strip text)) then
    Web.Sent (Web.Html 500 "<h3>Failed to extract text from PDF.</h3>")
  else
    match Server.parse_products_from_text text with
    | Py.Raise e => Web.Raised (Web.ScanError e)
    | Py.Ok [] =>
        Web.Sent (Web.Html 200
                    "<h3>No product information found in the invoice.</h3>")
    | Py.Ok (r :: rows) => Web.Sent (Web.Spreadsheet (r :: rows))
    end.
Proof.
  intros F N A.
  destruct (do_POST_form _ _ _ F) as (c & C & G & S).
  unfold ServerHandler.do_POST. rewrite C, G, S, N.
  rewrite (allowed_name_given name A). cbn [negb].
  rewrite allowed_file_name_test in A. injection A as ->. cbn [negb].
  unfold Server.extract_text_from_pdf. rewrite read_after_write.
  fold (Web.text_of pdf_text (Web.content file_field)). cbv zeta.
  destruct (negb (Py.truthy (Py.strip (Web.text_of pdf_text (Web.content file_field)))));
    [reflexivity|].
  destruct (Server.parse_products_from_text _) as [[|r rows]|e]; reflexivity.
Qed.

(** [index] once the request has passed its checks. *)
Lemma index_accepted (file : Web.field) (name : string) (fs : Web.files) :
  Web.filename file = Some name ->
  AppRoutes.allowed_file name = Some true ->
  fst (AppRoutes.index pdf_text secure_filename UPLOAD_FOLDER
         AppRoutes.POST (Some file) fs) =
  match Server.parse_products_from_text (Web.text_of pdf_text (Web.content file)) with
  | Py.Raise e => Web.Raised (Web.ScanError e)
  | Py.Ok [] =>
      Web.Sent (Web.Page (Some "No product information found in the PDF."))
  | Py.Ok (r :: rows) => Web.Sent (Web.Spreadsheet (r :: rows))
  end.
Proof.
  intros N A. unfold AppRoutes.index. rewrite N.
  destruct name as [|c name]; [discriminate|]. rewrite A. cbv zeta.
  unfold App.extract_invoice_data. rewrite read_after_write.
  fold (Web.text_of pdf_text (Web.content file)). rewrite scan_text_is_parse.
  destruct (Server.parse_products_from_text _) as [[|r rows]|e]; reflexivity.
Qed.

End Answers.

Section AnswersOfHandlers.

Variable pdf_text : string -> option string.
Variable secure_filename : string -> string.
Variable UPLOAD_FOLDER : string.

Variable FieldStorage : string -> Web.headers -> string -> Cgi.storage.

Lemma do_POST_refused (headers : Web.headers) (rfile : string)
    (file_field : Web.field) (name tmp : string) (fs : Web.files) :
  ServerHandler.form_of FieldStorage headers rfile
  = Some (Cgi.Form (Some (Cgi.One file_field))) ->
  Web.filename file_field = Some name ->
  Web.given (Some name) = true ->
  AppRoutes.allowed_file name = Some false ->
  fst (ServerHandler.do_POST pdf_text FieldStorage headers rfile tmp fs) =
  Web.Sent (Web.Html 400 "<h3>Only PDF files are allowed.</h3>").
Proof.
  intros F N G A.
  destruct (do_POST_form FieldStorage _ _ _ F) as (c & C & G' & S).
  unfold ServerHandler.do_POST. rewrite C, G', S, N, G.
  rewrite allowed_file_name_test in A. injection A as ->. reflexivity.
Qed.

(** [do_POST] on a form whose file carries no name, or on a form
    without a file. *)
Lemma do_POST_unnamed (headers : Web.headers) (rfile : string)
    (file_field : Web.field) (tmp : string) (fs : Web.files) :
  ServerHandler.form_of FieldStorage headers rfile
  = Some (Cgi.Form (Some (Cgi.One file_field))) ->
  Web.given (Web.filename file_field) = false ->
  fst (ServerHandler.do_POST pdf_text FieldStorage headers rfile tmp fs) =
  Web.Sent (Web.Html 400 "<h3>No file selected.</h3>").
Proof.
  intros F G.
  destruct (do_POST_form FieldStorage _ _ _ F) as (c & C & G' & S).
  unfold ServerHandler.do_POST. now rewrite C, G', S, G.
Qed.

Lemma do_POST_no_file (headers : Web.headers) (rfile tmp : string)
    (fs : Web.files) :
  ServerHandler.form_of FieldStorage headers rfile
  = Some (Cgi.Form None) ->
  fst (ServerHandler.do_POST pdf_text FieldStorage headers rfile tmp fs) =
  Web.Sent (Web.Html 400 "<h3>No file part in the request.</h3>").
Proof.
  intros F.
  destruct (do_POST_form FieldStorage _ _ _ F) as (c & C & G' & S).
  unfold ServerHandler.do_POST. now rewrite C, G', S.
Qed.

(** [do_POST] on a request whose form is no single file: the exception
    that leaves it. *)
Lemma do_POST_raised (headers : Web.headers) (rfile tmp : string)
    (fs : Web.files) (form : Cgi.storage) :
  ServerHandler.form_of FieldStorage headers rfile = Some form ->
  match form with
  | Cgi.Raises =>
      fst (ServerHandler.do_POST pdf_text FieldStorage headers rfile tmp fs)
      = Web.Raised Web.FieldStorageError
  | Cgi.NotIndexable =>
      fst (ServerHandler.do_POST pdf_text FieldStorage headers rfile tmp fs)
      = Web.Raised Web.TypeError
  | Cgi.Form (Some (Cgi.Many _)) =>
      fst (ServerHandler.do_POST pdf_text FieldStorage headers rfile tmp fs)
      = Web.Raised Web.AttributeError
  | _ => True
  end.
Proof.
  intros F.
  destruct (do_POST_form FieldStorage _ _ _ F) as (c & C & G' & S).
  unfold ServerHandler.do_POST. rewrite C, G', S.
  destruct form as [| |[[f|l]|]]; cbn; auto.
Qed.

Lemma index_refused (file : Web.field) (name : string) (fs : Web.files) :
  Web.filename file = Some name ->
  Web.given (Some name) = true ->
  AppRoutes.allowed_file name = Some false ->
  fst (AppRoutes.index pdf_text secure_filename UPLOAD_FOLDER
         AppRoutes.POST (Some file) fs) =
  Web.Sent (Web.Page (Some "Allowed file type is PDF")).
Proof.
  intros N G A. unfold AppRoutes.index. rewrite N.
  destruct name as [|c name]; [discriminate|]. now rewrite A.
Qed.

(** The answer to an accepted upload, as a function of the records. *)
Lemma accepted_not_blank (text : string) (r : product) (rows : list product) :
  Server.parse_products_from_text text = Py.Ok (r :: rows) ->
  negb (Py.truthy (Py.strip text)) = false.
Proof.
  intros H. destruct (Py.strip text) eqn:E; [|reflexivity].
  rewrite (parse_stripped_empty text E) in H. discriminate.
Qed.

Lemma raising_not_blank (text : string) (e : Py.exn) :
  Server.parse_products_from_text text = Py.Raise e ->
  negb (Py.truthy (Py.strip text)) = false.
Proof.
  intros H. destruct (Py.strip text) eqn:E; [|reflexivity].
  rewrite (parse_stripped_empty text E) in H. discriminate.
Qed.

End AnswersOfHandlers.










(** ** More about the scan *)

Lemma body_other_kind (st : scan_state) (line : string) :
  classify line = Other -> Server.loop_body st line = Py.Ok st.
Proof.
  destruct st as [ps pend]. unfold classify.
  destruct line as [|c l]; [reflexivity|]. cbn [Py.truthy negb].
  destruct (Re.re_match Re.desc_pattern (String c l)) eqn:M; [discriminate|].
  destruct (Py.startswith "Frame:" (String c l)) eqn:F; [discriminate|].
  intros _. now apply body_other_line.
Qed.

Lemma skip_other_line (l1 l2 : list string) (x : string) (st : scan_state) :
  classify x = Other ->
  for_each Server.loop_body st (l1 ++ x :: l2) =
  for_each Server.loop_body st (l1 ++ l2).
Proof.
  intros K. rewrite !for_each_app.
  destruct (for_each Server.loop_body st l1) as [st'|e]; [|reflexivity].
  cbn [Py.bind for_each]. now rewrite (body_other_kind _ _ K).
Qed.

(** A line that is neither a description nor a frame line (a blank line
    among them) can be taken out of a text, or put into it, anywhere:
    the scan returns the same. *)
Theorem other_lines_do_not_matter :
  forall (pre o post : string),
    one_line o ->
    classify (Py.strip o) = Other ->
    Server.parse_products_from_text (pre ++ newline ++ o ++ newline ++ post) =
    Server.parse_products_from_text (pre ++ newline ++ post) /\
    Server.parse_products_from_text (o ++ newline ++ post) =
    Server.parse_products_from_text post /\
    Server.parse_products_from_text (pre ++ newline ++ o) =
    Server.parse_products_from_text pre.
Proof.
  intros pre o post Ho K.
  rewrite !parse_final_state. unfold final_state.
  rewrite !normalized_lines_app, (normalized_lines_one o Ho).
  split; [|split].
  - cbn [app]. now rewrite (skip_other_line _ _ _ _ K).
  - pose proof (skip_other_line [] (normalized_lines post) _ ([], None) K) as E.
    cbn [app] in *. now rewrite E.
  - now rewrite (skip_other_line _ [] _ _ K), app_nil_r.
Qed.

Lemma other_lines_do_not_matter_witness :
  Server.parse_products_from_text
    (example_desc ++ newline ++ "   Glass: Clear, Tempered " ++ newline
     ++ example_frame) =
  Server.parse_products_from_text (example_desc ++ newline ++ example_frame).
Proof.
  refine (proj1 (other_lines_do_not_matter example_desc
                   "   Glass: Clear, Tempered " example_frame _ _));
    reflexivity.
Defined.

Lemma last_segment_no_comma (s : string) :
  no_comma (Py.last_item (Py.split comma s)).
Proof.
  destruct (cut_last_comma s) as [H | (pre & seg & -> & H)].
  - now rewrite last_segment_whole.
  - now rewrite last_segment_app, last_segment_whole.
Qed.

(** Every record the scan returns has manufacturer [CWS], a series made
    of four digits followed by [ Series], a style and a colour without
    white space at either end, and a colour without a comma. *)
Theorem every_record_is_well_formed :
  forall (text : string) (products : list product) (r : product),
    Server.parse_products_from_text text = Py.Ok products ->
    In r products ->
    Manufacturer r = "CWS" /\
    (exists d, String.length d = 4 /\ all_chars Py.isdecimal d = true /\
               Series_ID r = d ++ " Series") /\
    Py.strip (Window_Style r) = Window_Style r /\
    Py.strip (Frame_Color r) = Frame_Color r /\
    no_comma (Frame_Color r).
Proof.
  intros text products r H I.
  apply parse_ok_final_state in H as (pending & H). unfold final_state in H.
  apply scan_invariant_holds in H as ((pairs & _ & _ & R) & _).
  cbn [fst] in R.
  destruct (Forall2_In_r _ _ _ _ R I) as (ji & _ & d & f & _ & _ & Rec).
  destruct Rec as (m & M & r1 & r2 & r3 & r4 & _).
  destruct (desc_group_1 _ _ M) as (_ & L & D).
  split; [exact r1|]. split; [|split; [|split]].
  - exists (Re.group 1 m). rewrite r2, (strip_digits _ D). auto.
  - rewrite r3. apply strip_idem.
  - rewrite r4. apply strip_idem.
  - rewrite r4. unfold no_comma, Py.strip.
    apply rstrip_all_chars, lstrip_all_chars, last_segment_no_comma.
Qed.

Lemma every_record_is_well_formed_witness :
  Manufacturer example_record = "CWS" /\
  (exists d, String.length d = 4 /\ all_chars Py.isdecimal d = true /\
             Series_ID example_record = d ++ " Series") /\
  Py.strip (Window_Style example_record) = Window_Style example_record /\
  Py.strip (Frame_Color example_record) = Frame_Color example_record /\
  no_comma (Frame_Color example_record).
Proof.
  refine (every_record_is_well_formed
            (example_desc ++ newline ++ example_frame) [example_record]
            example_record _ _).
  - vm_compute. reflexivity.
  - now left.
Defined.

Lemma frame_count_bound (lines : list string) :
  forall (ps : list product) (pend : option pending_desc) (st : scan_state),
    for_each Server.loop_body (ps, pend) lines = Py.Ok st ->
    List.length (fst st) <= List.length ps + count_frames lines.
Proof.
  unfold count_frames.
  induction lines as [|x lines IH]; intros ps pend st H.
  - cbn in H. injection H as <-. cbn. lia.
  - cbn [for_each] in H. apply bind_ok in H as ([ps1 pend1] & Hb & H).
    apply IH in H. apply body_cases in Hb. cbn [filter].
    destruct (classify x); cbn [is_frame List.length].
    + destruct Hb as (m & _ & [= -> ->]). lia.
    + destruct Hb as (_ & Hb). destruct pend as [p|].
      * destruct Hb as (r & [= -> ->] & _).
        rewrite length_app in H. cbn [List.length] in H. lia.
      * injection Hb as -> ->. lia.
    + injection Hb as -> ->. lia.
Qed.

(** The scan returns no more records than the text has lines that begin
    with [Frame:]. *)
Theorem records_at_most_frame_lines :
  forall (text : string) (products : list product),
    Server.parse_products_from_text text = Py.Ok products ->
    List.length products <= count_frames (normalized_lines text).
Proof.
  intros text products H.
  apply parse_ok_final_state in H as (pending & H). unfold final_state in H.
  apply frame_count_bound in H. exact H.
Qed.

Lemma records_at_most_frame_lines_witness :
  List.length [example_record] <=
  count_frames (normalized_lines
                  (example_desc ++ newline ++ example_frame ++ newline
                   ++ example_frame)).
Proof.
  refine (records_at_most_frame_lines
            (example_desc ++ newline ++ example_frame ++ newline
             ++ example_frame) [example_record] _).
  vm_compute. reflexivity.
Defined.

(** ** Texts put together *)

(** The records found so far play no role in what the body does next:
    they are only added to. *)
Lemma body_shift (ps : list product) (pend : option pending_desc) (x : string) :
  Server.loop_body (ps, pend) x =
  match Server.loop_body ([], pend) x with
  | Py.Ok (qs, pend') => Py.Ok ((ps ++ qs)%list, pend')
  | Py.Raise e => Py.Raise e
  end.
Proof.
  destruct x as [|c l]; [cbn; now rewrite app_nil_r|].
  destruct (Re.re_match Re.desc_pattern (String c l)) as [m|] eqn:M.
  - rewrite !(body_desc_line _ _ _ _ M). now rewrite app_nil_r.
  - destruct (Py.startswith "Frame:" (String c l)) eqn:F.
    + destruct pend as [p|].
      * rewrite !body_frame_line by assumption.
        destruct (frame_number Re.width_pattern _) as [w|e]; [|reflexivity].
        destruct (frame_number Re.height_pattern _) as [h|e]; reflexivity.
      * rewrite !body_nothing_pending by assumption. now rewrite app_nil_r.
    + rewrite !body_other_line by assumption. now rewrite app_nil_r.
Qed.

Lemma for_each_shift (lines : list string) :
  forall (ps : list product) (pend : option pending_desc),
    for_each Server.loop_body (ps, pend) lines =
    match for_each Server.loop_body ([], pend) lines with
    | Py.Ok (qs, pend') => Py.Ok ((ps ++ qs)%list, pend')
    | Py.Raise e => Py.Raise e
    end.
Proof.
  induction lines as [|x lines IH]; intros ps pend.
  - cbn. now rewrite app_nil_r.
  - cbn [for_each]. rewrite (body_shift ps pend x).
    destruct (Server.loop_body ([], pend) x) as [[q1 p1]|e]; [|reflexivity].
    cbn [Py.bind]. rewrite (IH (ps ++ q1)%list p1), (IH q1 p1).
    destruct (for_each Server.loop_body ([], p1) lines) as [[qs p']|e];
      [|reflexivity].
    now rewrite app_assoc.
Qed.

(** The records of a text are a prefix of the records of any text that
    continues it on a new line; an exception raised on a text is raised on
    every such continuation; and when the text ends with nothing pending,
    the records of the whole are its records followed by the records of
    the continuation. *)
Theorem records_of_a_continued_text :
  forall a b : string,
    (forall pa : list product,
        final_state a = Py.Ok (pa, None) ->
        Server.parse_products_from_text (a ++ newline ++ b) =
        (pb <- Server.parse_products_from_text b ;; Py.Ok (pa ++ pb)%list)) /\
    (forall ps : list product,
        Server.parse_products_from_text (a ++ newline ++ b) = Py.Ok ps ->
        exists pa rest,
          Server.parse_products_from_text a = Py.Ok pa /\
          ps = (pa ++ rest)%list) /\
    (forall e : Py.exn,
        Server.parse_products_from_text a = Py.Raise e ->
        Server.parse_products_from_text (a ++ newline ++ b) = Py.Raise e).
Proof.
  intros a b. rewrite !parse_final_state. unfold final_state.
  rewrite normalized_lines_app, for_each_app.
  split; [|split].
  - intros pa H. rewrite H. cbn [Py.bind]. rewrite (for_each_shift _ pa None).
    destruct (for_each Server.loop_body ([], None) (normalized_lines b))
      as [[qs p']|e]; reflexivity.
  - intros ps H.
    destruct (for_each Server.loop_body ([], None) (normalized_lines a))
      as [[pa pend]|e]; [|discriminate].
    cbn [Py.bind] in H. rewrite (for_each_shift _ pa pend) in H.
    destruct (for_each Server.loop_body ([], pend) (normalized_lines b))
      as [[qs p']|e]; [|discriminate].
    cbn in H. injection H as <-. now exists pa, qs.
  - intros e H.
    destruct (for_each Server.loop_body ([], None) (normalized_lines a))
      as [[pa pend]|e']; [discriminate|].
    cbn in *. exact H.
Qed.

Lemma records_of_a_continued_text_witness :
  Server.parse_products_from_text
    ((example_desc ++ newline ++ example_frame) ++ newline
     ++ ("7100 series Casement 30 x 40 - FIN" ++ newline
         ++ "Frame: Height = 40, White")) =
  (pb <- Server.parse_products_from_text
           ("7100 series Casement 30 x 40 - FIN" ++ newline
            ++ "Frame: Height = 40, White") ;;
   Py.Ok ([example_record] ++ pb)%list).
Proof.
  refine (proj1 (records_of_a_continued_text
                   (example_desc ++ newline ++ example_frame) _)
            [example_record] _).
  vm_compute. reflexivity.
Defined.

(** ** Line endings *)

Lemma rstrip_app_blank (l ws : string) :
  blank ws -> Py.rstrip (l ++ ws) = Py.rstrip l.
Proof.
  intros H. induction l as [|c l IH]; cbn.
  - now apply rstrip_blank.
  - now rewrite IH.
Qed.

Lemma strip_app_blank (l ws : string) :
  blank ws -> Py.strip (l ++ ws) = Py.strip l.
Proof.
  intros H. unfold Py.strip. rewrite <- !lstrip_rstrip.
  now rewrite rstrip_app_blank.
Qed.

(** Line by line, the text with carriage returns is the text without
    them, up to a carriage return at the end of a line. *)
Lemma split_crlf (text : string) :
  Forall2 (fun l l' => l' = l \/ l' = l ++ String CR "")
          (Py.split LF text) (Py.split LF (crlf text)).
Proof.
  induction text as [|c r IH].
  - cbn. constructor; [now left | constructor].
  - cbn [crlf Py.split]. destruct (Ascii.eqb c LF) eqn:E.
    + cbn [Py.split]. change (Ascii.eqb CR LF) with false. cbn iota.
      rewrite Ascii.eqb_refl. constructor; [now right | exact IH].
    + cbn [Py.split]. rewrite E.
      destruct (Py.split LF r) as [|h t] eqn:S;
        [now apply split_nonempty in S|].
      destruct (Py.split LF (crlf r)) as [|h' t'] eqn:S';
        [now apply split_nonempty in S'|].
      inversion IH as [|? ? ? ? Hh Ht]; subst.
      constructor; [|exact Ht].
      destruct Hh as [-> | ->]; [now left | now right].
Qed.

Lemma normalized_lines_crlf (text : string) :
  normalized_lines (crlf text) = normalized_lines text.
Proof.
  unfold normalized_lines.
  induction (split_crlf text) as [|l l' t t' H _ IH]; [reflexivity|].
  cbn [map]. rewrite IH. f_equal.
  destruct H as [-> | ->]; [reflexivity|].
  now apply strip_app_blank.
Qed.

(** Carriage returns before the line feeds change nothing: the scan of a
    text with [CR LF] line endings returns what the scan of the text with
    [LF] line endings returns. *)
Theorem crlf_line_endings_are_ignored :
  forall text : string,
    Server.parse_products_from_text (crlf text) =
    Server.parse_products_from_text text.
Proof.
  intros text. rewrite !parse_final_state. unfold final_state.
  now rewrite normalized_lines_crlf.
Qed.

(** ** When the scan raises *)

Lemma for_each_raise {S A : Type} (body : S -> A -> Py.result S) (l : list A) :
  forall (st : S) (e : Py.exn),
    for_each body st l = Py.Raise e ->
    exists l1 x l2 st',
      l = (l1 ++ x :: l2)%list /\
      for_each body st l1 = Py.Ok st' /\
      body st' x = Py.Raise e.
Proof.
  induction l as [|x l IH]; intros st e H; [discriminate|].
  cbn [for_each] in H. destruct (body st x) as [st1|e1] eqn:B.
  - cbn [Py.bind] in H.
    destruct (IH st1 e H) as (l1 & y & l2 & st' & -> & H1 & H2).
    exists (x :: l1), y, l2, st'. split; [reflexivity|]. split; [|exact H2].
    cbn [for_each]. now rewrite B.
  - cbn in H. injection H as <-. exists [], x, l, st. auto.
Qed.

Lemma frame_number_raises (pat : Re.pattern) (line : string) :
  (exists e, frame_number pat line = Py.Raise e) <-> bad_number pat line.
Proof.
  unfold frame_number, bad_number. split.
  - intros (e & H). destruct (Re.search pat line) as [m|]; [|discriminate].
    exists m. split; [reflexivity|].
    destruct (Py.py_float (Re.group 1 m)) as [v|[]]; [discriminate | reflexivity].
  - intros (m & -> & H). exists Py.ValueError. now rewrite H.
Qed.

(** The body raises on a frame line met while a description is pending,
    when [float] rejects what was captured for the width or for the
    height, and on no other line. *)
Lemma body_raises (ps : list product) (pend : option pending_desc) (x : string) :
  (exists e, Server.loop_body (ps, pend) x = Py.Raise e) <->
  pend <> None /\ Py.startswith "Frame:" x = true /\
  (bad_number Re.width_pattern x \/ bad_number Re.height_pattern x).
Proof.
  destruct (Re.re_match Re.desc_pattern x) as [m|] eqn:M.
  { rewrite (body_desc_line _ _ _ _ M). split.
    - intros (e & H). discriminate.
    - intros (_ & F & _). rewrite (frame_not_desc _ F) in M. discriminate. }
  destruct (Py.startswith "Frame:" x) eqn:F.
  - destruct pend as [p|].
    + rewrite body_frame_line by assumption.
      rewrite <- !frame_number_raises. split.
      * intros (e & H). split; [discriminate|]. split; [reflexivity|].
        destruct (frame_number Re.width_pattern x) as [w|e1];
          [|left; now exists e1].
        destruct (frame_number Re.height_pattern x) as [h|e2];
          [discriminate | right; now exists e2].
      * intros (_ & _ & [(e & H) | (e & H)]).
        -- rewrite H. now exists e.
        -- rewrite H.
           destruct (frame_number Re.width_pattern x) as [w|e1];
             [now exists e | now exists e1].
    + rewrite body_nothing_pending by assumption. split.
      * intros (e & H). discriminate.
      * intros (H & _). contradiction.
  - rewrite body_other_line by assumption. split.
    + intros (e & H). discriminate.
    + intros (_ & H & _). discriminate.
Qed.

Lemma classify_frame (x : string) :
  classify x = Frame <-> Py.startswith "Frame:" x = true.
Proof.
  split.
  - unfold classify. destruct (negb (Py.truthy x)); [discriminate|].
    destruct (Re.re_match Re.desc_pattern x); [discriminate|].
    now destruct (Py.startswith "Frame:" x).
  - intros F. unfold classify. rewrite (frame_not_desc _ F), F.
    apply startswith_app in F as (r & ->). reflexivity.
Qed.

Section MiddleOfList.

Context {A : Type} (x : A) (l1 l2 : list A).

Lemma nth_error_middle_lt (j : nat) :
  j < List.length l1 ->
  nth_error (l1 ++ x :: l2) j = nth_error l1 j.
Proof. intros H. now apply nth_error_app1. Qed.

Lemma nth_error_middle : nth_error (l1 ++ x :: l2) (List.length l1) = Some x.
Proof. rewrite nth_error_app2, Nat.sub_diag by lia. reflexivity. Qed.

End MiddleOfList.

Section Middle.

Variables (k : kind) (ks1 ks2 : list kind).

(** The description pending after [ks1] is the one paired with a frame
    line that comes next. *)
Lemma paired_middle (j : nat) :
  paired (ks1 ++ k :: ks2) j (List.length ks1) <->
  k = Frame /\ trailing ks1 j.
Proof.
  unfold paired, trailing. rewrite nth_error_middle. split.
  - intros (L & D & K & O). injection K as K.
    rewrite nth_error_middle_lt in D by lia.
    split; [exact K|]. split; [exact D|].
    intros i Hi. rewrite <- (nth_error_middle_lt k ks1 ks2) by lia.
    now apply O.
  - intros (K & D & O). pose proof (nth_error_lt _ _ _ D) as L.
    rewrite nth_error_middle_lt by lia.
    split; [exact L|]. split; [exact D|]. split; [now rewrite K|].
    intros i Hi. rewrite nth_error_middle_lt by lia. now apply O.
Qed.

End Middle.

(** The scan raises exactly when some frame line that is paired with a
    description carries, after [Width =] or after [Height =], a text that
    [float] rejects.  Such a text on a frame line that is not paired does
    no harm. *)
Theorem scan_raises_iff :
  forall text : string,
    Server.parse_products_from_text text = Py.Raise Py.ValueError <->
    exists (j i : nat) (f : string),
      paired (map classify (normalized_lines text)) j i /\
      nth_error (normalized_lines text) i = Some f /\
      (bad_number Re.width_pattern f \/ bad_number Re.height_pattern f).
Proof.
  intros text. rewrite parse_final_state. unfold final_state.
  set (lines := normalized_lines text). split.
  - intros H.
    destruct (for_each Server.loop_body ([], None) lines) as [st|e] eqn:E;
      [discriminate|].
    apply for_each_raise in E as (l1 & x & l2 & [ps pend] & L & E1 & E2).
    assert (B : exists e, Server.loop_body (ps, pend) x = Py.Raise e)
      by now exists e.
    apply body_raises in B as (P & F & B).
    apply scan_invariant_holds in E1 as (_ & T). cbn [snd] in T.
    destruct pend as [p|]; [|contradiction].
    destruct T as (j & _ & _ & T & _).
    exists j, (List.length l1), x. rewrite L. split; [|split].
    + rewrite map_app. cbn [map]. rewrite <- (length_map classify l1).
      apply paired_middle. split; [now apply classify_frame | exact T].
    + apply nth_error_middle.
    + exact B.
  - intros (j & i & f & P & N & B).
    destruct (nth_error_split _ _ N) as (l1 & l2 & L & Li).
    rewrite L in P |- *. rewrite map_app in P. cbn [map] in P.
    rewrite <- Li, <- (length_map classify l1) in P.
    apply paired_middle in P as (K & T).
    rewrite for_each_app.
    destruct (for_each Server.loop_body ([], None) l1) as [[ps pend]|[]] eqn:E;
      [|reflexivity].
    apply scan_invariant_holds in E as (_ & I). cbn [snd] in I.
    destruct pend as [p|]; [|now apply I in T].
    assert (R : exists e, Server.loop_body (ps, Some p) f = Py.Raise e).
    { apply body_raises. split; [discriminate|].
      split; [now apply classify_frame | exact B]. }
    destruct R as ([] & R). cbn [Py.bind for_each]. now rewrite R.
Qed.

(** ** The numbers [float] rejects *)

Section Numbers.

Lemma dots_app (a b : string) : dots (a ++ b) = dots a + dots b.
Proof. induction a as [|c a IH]; cbn; [reflexivity | rewrite IH; lia]. Qed.

Lemma has_digit_app (a b : string) :
  has_digit (a ++ b) = has_digit a || has_digit b.
Proof.
  induction a as [|c a IH]; cbn; [reflexivity|].
  now rewrite IH, orb_assoc.
Qed.

Lemma digit_not_dot (c : ascii) :
  Py.isdecimal c = true -> Ascii.eqb c "." = false.
Proof. each_char c; vm_compute; congruence. Qed.

Lemma digits_no_dots (s : string) :
  all_chars Py.isdecimal s = true -> dots s = 0.
Proof.
  induction s as [|c r IH]; cbn; [reflexivity|].
  intros H. apply andb_true_iff in H as [Hc Hr].
  now rewrite (digit_not_dot c Hc), IH.
Qed.

Lemma no_dots_digits (s : string) :
  all_chars Re.set_num s = true -> dots s = 0 ->
  all_chars Py.isdecimal s = true.
Proof.
  induction s as [|c r IH]; cbn; [reflexivity|].
  intros H D. apply andb_true_iff in H as [Hc Hr]. unfold Re.set_num in Hc.
  destruct (Ascii.eqb c "."); [cbn in D; lia|].
  rewrite orb_false_r in Hc. rewrite Hc. cbn. apply IH; [exact Hr | lia].
Qed.

Lemma digits_have_digit (s : string) :
  all_chars Py.isdecimal s = true -> s <> "" -> has_digit s = true.
Proof.
  destruct s as [|c r]; [contradiction|]. cbn.
  intros H _. apply andb_true_iff in H as [-> _]. reflexivity.
Qed.

Lemma digits_val_some (s : string) :
  forall acc, all_chars Py.isdecimal s = true ->
              exists v, Py.digits_val acc s = Some v.
Proof.
  induction s as [|c r IH]; intros acc H; cbn; [now eexists|].
  cbn in H. apply andb_true_iff in H as [Hc Hr]. rewrite Hc. now apply IH.
Qed.

Lemma digits_val_digits (s : string) :
  forall acc v, Py.digits_val acc s = Some v ->
                all_chars Py.isdecimal s = true.
Proof.
  induction s as [|c r IH]; intros acc v H; cbn in *; [reflexivity|].
  destruct (Py.isdecimal c); [|discriminate]. cbn. eapply IH; eassumption.
Qed.

(** The cut at the first dot. *)
Lemma cut_dot_spec (s : string) :
  match Py.cut_dot s with
  | (ip, None) => s = ip /\ dots s = 0
  | (ip, Some f) => s = ip ++ String "." f /\ dots ip = 0
  end.
Proof.
  induction s as [|c r IH]; [now split|]. cbn [Py.cut_dot].
  destruct (Ascii.eqb c ".") eqn:E.
  - apply Ascii.eqb_eq in E as ->. now split.
  - destruct (Py.cut_dot r) as [ip [f|]]; destruct IH as [-> D];
      cbn [dots append]; rewrite E; now split.
Qed.

(** [float] reads a run of digits and dots unless it holds two dots or
    no digit. *)
Lemma float_rejects (s : string) :
  all_chars Re.set_num s = true ->
  (Py.py_float s = Py.Raise Py.ValueError <->
   2 <= dots s \/ has_digit s = false).
Proof.
  intros N. unfold Py.py_float.
  pose proof (cut_dot_spec s) as C.
  destruct (Py.cut_dot s) as [ip [f|]].
  - destruct C as [-> D]. rewrite all_chars_app in N.
    apply andb_true_iff in N as [Ni Nf]. cbn in Nf.
    pose proof (no_dots_digits ip Ni D) as Di.
    rewrite dots_app, has_digit_app, D. cbn [dots has_digit].
    change (Ascii.eqb "." ".") with true.
    change (Py.isdecimal ".") with false. cbn [orb Nat.add].
    destruct (ip ++ f) as [|c r] eqn:E.
    + destruct ip; [|discriminate]. cbn in E. subst f. cbn. tauto.
    + destruct (digits_val_some ip 0 Di) as (vi & ->).
      rewrite <- E.
      destruct (Nat.eq_dec (dots f) 0) as [Z|Z].
      * pose proof (no_dots_digits f Nf Z) as Df.
        assert (Dif : all_chars Py.isdecimal (ip ++ f) = true)
          by now rewrite all_chars_app, Di, Df.
        destruct (digits_val_some _ 0 Dif) as (v & ->).
        split; [discriminate|]. intros [H | H]; [lia|].
        rewrite <- has_digit_app, digits_have_digit in H;
          [discriminate | exact Dif | now rewrite E].
      * split; [intros _; left; lia|]. intros _.
        destruct (Py.digits_val 0 (ip ++ f)) as [v|] eqn:V; [|reflexivity].
        apply digits_val_digits in V. rewrite all_chars_app in V.
        apply andb_true_iff in V as [_ V].
        apply digits_no_dots in V. contradiction.
  - destruct C as [<- D]. pose proof (no_dots_digits s N D) as Ds.
    rewrite append_nil_r, D.
    destruct s as [|c r].
    + cbn. split; [now right | reflexivity].
    + destruct (digits_val_some _ 0 Ds) as (v & ->).
      split; [discriminate|]. intros [H | H]; [lia|].
      rewrite digits_have_digit in H; [discriminate | exact Ds | discriminate].
Qed.

End Numbers.

(** The text captured after [Width =] or [Height =] is a run of digits and
    dots, and [float] rejects it exactly when it holds two dots or more,
    or no digit at all. *)
Theorem captured_number_is_rejected_iff :
  forall (line : string) (m : list string),
    Re.search Re.width_pattern line = Some m \/
    Re.search Re.height_pattern line = Some m ->
    exists g,
      m = [g] /\ g <> "" /\ all_chars Re.set_num g = true /\
      (Py.py_float g = Py.Raise Py.ValueError <->
       2 <= dots g \/ has_digit g = false).
Proof.
  intros line m H.
  assert (C : exists num, m = [num] /\ num <> "" /\
                          all_chars Re.set_num num = true).
  { destruct H as [H | H].
    - apply (captured_number_chars "Width =" line m H).
    - apply (captured_number_chars "Height =" line m H). }
  destruct C as (g & -> & Ne & N). exists g.
  repeat (split; [easy|]). now apply float_rejects.
Qed.

Lemma captured_number_is_rejected_iff_witness :
  exists g,
    ["73.5."] = [g] /\ g <> "" /\ all_chars Re.set_num g = true /\
    (Py.py_float g = Py.Raise Py.ValueError <->
     2 <= dots g \/ has_digit g = false).
Proof.
  refine (captured_number_is_rejected_iff
            "Frame: Width = 73.5. Height = 36.5, Bronze" ["73.5."] _).
  left. reflexivity.
Defined.

(** ** A frame line met while a description is pending *)

(** The record the scan appends on the frame line [f] of a text, with
    the description [p] pending, when the two numbers are [w] and [h]. *)
Lemma frame_line_appends_record (pre f : string) (products : list product)
    (p : pending_desc) (w h : option Py.float) :
  final_state pre = Py.Ok (products, Some p) ->
  one_line f ->
  Py.startswith "Frame:" (Py.strip f) = true ->
  frame_number Re.width_pattern (Py.strip f) = Py.Ok w ->
  frame_number Re.height_pattern (Py.strip f) = Py.Ok h ->
  forall r : product,
    r = {| Manufacturer := "CWS";
           Frame_Color := Py.strip (Py.last_item (Py.split comma f));
           Series_ID := pending_Series_ID p;
           Window_Style := pending_Window_Style p;
           Width := w;
           Height := h |} ->
    Server.parse_products_from_text (pre ++ newline ++ f)
    = Py.Ok (products ++ [r])%list /\
    forall post : string,
      Server.parse_products_from_text (pre ++ newline ++ f ++ newline ++ post)
      = (rest <- Server.parse_products_from_text post ;;
         Py.Ok (products ++ r :: rest)%list).
Proof.
  intros Hpre Hf F Hw Hh r ->.
  rewrite !parse_final_state. unfold final_state in *.
  split.
  - rewrite normalized_lines_app, (normalized_lines_one f Hf).
    rewrite for_each_app, Hpre. cbn [Py.bind for_each].
    rewrite (body_frame_ok _ _ _ w h F Hw Hh).
    cbn [Py.bind fst]. now rewrite colour_of_raw_line.
  - intros post. rewrite !parse_final_state. unfold final_state.
    rewrite !normalized_lines_app, (normalized_lines_one f Hf).
    rewrite !for_each_app, Hpre. cbn [Py.bind].
    rewrite for_each_app. cbn [for_each].
    rewrite (body_frame_ok _ _ _ w h F Hw Hh). cbn [Py.bind].
    rewrite for_each_shift, colour_of_raw_line.
    destruct (for_each Server.loop_body ([], None) (normalized_lines post))
      as [[qs p']|e]; [|reflexivity].
    cbn [Py.bind fst]. now rewrite <- app_assoc.
Qed.

(** C6: in a text, a frame line met while a description is pending, on
    which [Width =] is followed by a number that [float] reads and
    [Height =] does not occur, adds a record with that width and with no
    height: the text that ends with this line yields the records found
    before it and this record, and in a longer text the record stands
    before those of the lines that follow.  The same holds with width and
    height exchanged. *)
Theorem missing_number_yields_null :
  forall (pre f : string) (products : list product) (p : pending_desc)
         (a ws num b : string) (v : Py.float),
    final_state pre = Py.Ok (products, Some p) ->
    one_line f ->
    Py.startswith "Frame:" (Py.strip f) = true ->
    Py.py_float num = Py.Ok v ->
    (number_after "Width =" (Py.strip f) a ws num b ->
     ~ occurs "Height =" (Py.strip f) ->
     let r := {| Manufacturer := "CWS";
                 Frame_Color := Py.strip (Py.last_item (Py.split comma f));
                 Series_ID := pending_Series_ID p;
                 Window_Style := pending_Window_Style p;
                 Width := Some v;
                 Height := None |} in
     Server.parse_products_from_text (pre ++ newline ++ f)
     = Py.Ok (products ++ [r])%list /\
     forall post : string,
       Server.parse_products_from_text (pre ++ newline ++ f ++ newline ++ post)
       = (rest <- Server.parse_products_from_text post ;;
          Py.Ok (products ++ r :: rest)%list)) /\
    (number_after "Height =" (Py.strip f) a ws num b ->
     ~ occurs "Width =" (Py.strip f) ->
     let r := {| Manufacturer := "CWS";
                 Frame_Color := Py.strip (Py.last_item (Py.split comma f));
                 Series_ID := pending_Series_ID p;
                 Window_Style := pending_Window_Style p;
                 Width := None;
                 Height := Some v |} in
     Server.parse_products_from_text (pre ++ newline ++ f)
     = Py.Ok (products ++ [r])%list /\
     forall post : string,
       Server.parse_products_from_text (pre ++ newline ++ f ++ newline ++ post)
       = (rest <- Server.parse_products_from_text post ;;
          Py.Ok (products ++ r :: rest)%list)).
Proof.
  intros pre f products p a ws num b v Hpre Hf F V.
  split; intros N O r; subst r.
  - eapply frame_line_appends_record; try eassumption; [| |reflexivity].
    + eapply (frame_number_present "Width ="); eassumption.
    + now apply (frame_number_absent "Height =").
  - eapply frame_line_appends_record; try eassumption; [| |reflexivity].
    + now apply (frame_number_absent "Width =").
    + eapply (frame_number_present "Height ="); eassumption.
Qed.

Lemma missing_number_yields_null_witness :
  Server.parse_products_from_text
    (example_desc ++ newline ++ "  Frame: Width = 73, Bronze")
  = Py.Ok [ {| Manufacturer := "CWS";
               Frame_Color := "Bronze";
               Series_ID := "7300 Series";
               Window_Style := "Direct Set Half Round";
               Width := Some (Py.dyadic 73 0);
               Height := None |} ] /\
  Server.parse_products_from_text
    ((example_desc ++ newline ++ example_frame) ++ newline ++ example_desc
     ++ newline ++ "Frame: Height = 36.5, White" ++ newline
     ++ "Total: 2")
  = (rest <- Server.parse_products_from_text "Total: 2" ;;
     Py.Ok ([example_record]
            ++ {| Manufacturer := "CWS";
                  Frame_Color := "White";
                  Series_ID := "7300 Series";
                  Window_Style := "Direct Set Half Round";
                  Width := None;
                  Height := Some (Py.dyadic 73 (-1)) |} :: rest)%list).
Proof.
  split.
  - refine (proj1 (proj1 (missing_number_yields_null
                     example_desc "  Frame: Width = 73, Bronze" []
                     (pending_of ["7300"; "Direct Set Half Round"])
                     "Frame: " " " "73" ", Bronze" (Py.dyadic 73 0)
                     _ _ _ _) _ _)); try (vm_compute; reflexivity).
    + split; [reflexivity|]. split; [reflexivity|]. split; [discriminate|].
      split; [reflexivity|]. split; [reflexivity|]. no_earlier_place.
    + intros (a1 & b1 & E).
      do 26 (destruct a1 as [|? a1]; [cbn in E; discriminate E|]).
      cbn in E. discriminate E.
  - refine (proj2 (proj2 (missing_number_yields_null
                     ((example_desc ++ newline ++ example_frame) ++ newline
                      ++ example_desc)
                     "Frame: Height = 36.5, White" [example_record]
                     (pending_of ["7300"; "Direct Set Half Round"])
                     "Frame: " " " "36.5" ", White" (Py.dyadic 73 (-1))
                     _ _ _ _) _ _) "Total: 2"); try (vm_compute; reflexivity).
    + split; [reflexivity|]. split; [reflexivity|]. split; [discriminate|].
      split; [reflexivity|]. split; [reflexivity|]. no_earlier_place.
    + intros (a1 & b1 & E).
      do 28 (destruct a1 as [|? a1]; [cbn in E; discriminate E|]).
      cbn in E. discriminate E.
Defined.
(** ** Paired lines whose record is lost *)

(** C3, at an input on which it fails: the first line matches the
    description pattern and the second, right after it, begins with
    [Frame:], so the two lines are paired and one line matches the
    description pattern; yet no record is emitted for the pair, because
    [float] raises on the text [73.5.] captured after [Width =] and the
    exception leaves the scan. *)
Theorem paired_lines_without_record :
  let text :=
    example_desc ++ newline ++ "Frame: Width = 73.5. Height = 36.5, Bronze" in
  let lines := normalized_lines text in
  paired (map classify lines) 0 1 /\
  count_descriptions lines = 1 /\
  Server.parse_products_from_text text = Py.Raise Py.ValueError.
Proof.
  cbv zeta. split; [|split]; [|vm_compute; reflexivity..].
  split; [lia|]. split; [vm_compute; reflexivity|].
  split; [vm_compute; reflexivity|]. intros k H. lia.
Qed.

(** C7, at an input on which it fails: the frame line is paired with the
    description before it and its last comma segment is white space only,
    yet no record with the empty colour is emitted: [float] raises on the
    text [1.2.3] captured after [Width =] and the exception leaves the
    scan. *)
Theorem blank_colour_without_record :
  let f := "Frame: Width = 1.2.3, " in
  let text := example_desc ++ newline ++ f in
  paired (map classify (normalized_lines text)) 0 1 /\
  blank (Py.last_item (Py.split comma f)) /\
  Server.parse_products_from_text text = Py.Raise Py.ValueError.
Proof.
  cbv zeta. split; [|split]; [|vm_compute; reflexivity..].
  split; [lia|]. split; [vm_compute; reflexivity|].
  split; [vm_compute; reflexivity|]. intros k H. lia.
Qed.

(** ** The colour of a record *)

(** When the scan returns, every pair of lines has its record, and the
    colour of the record is the last comma-separated segment of the frame
    line, trimmed; it is the same whether the segment is cut from the line
    as it stands in the text or from the stripped line.  The last segment
    is what follows the last comma, or the whole line when there is no
    comma.  A frame line met while a description is pending, with numbers
    that [float] reads or none, and whose last segment is empty or white
    space only, adds a record with the empty string as its colour. *)
Theorem colour_is_the_trimmed_last_segment :
  (forall (text : string) (products : list product),
      Server.parse_products_from_text text = Py.Ok products ->
      exists pairs : list (nat * nat),
        (forall j i,
            In (j, i) pairs <->
            paired (map classify (normalized_lines text)) j i) /\
        Forall2
          (fun ji r =>
             exists raw : string,
               nth_error (Py.split LF text) (snd ji) = Some raw /\
               Frame_Color r = Py.strip (Py.last_item (Py.split comma raw)) /\
               Frame_Color r =
                 Py.strip (Py.last_item (Py.split comma (Py.strip raw))))
          pairs products) /\
  (forall pre seg : string,
      no_comma seg ->
      Py.last_item (Py.split comma (pre ++ String comma seg)) = seg /\
      Py.last_item (Py.split comma seg) = seg) /\
  (forall (pre f : string) (products : list product) (p : pending_desc)
          (w h : option Py.float),
      final_state pre = Py.Ok (products, Some p) ->
      one_line f ->
      Py.startswith "Frame:" (Py.strip f) = true ->
      frame_number Re.width_pattern (Py.strip f) = Py.Ok w ->
      frame_number Re.height_pattern (Py.strip f) = Py.Ok h ->
      blank (Py.last_item (Py.split comma f)) ->
      let r := {| Manufacturer := "CWS";
                  Frame_Color := "";
                  Series_ID := pending_Series_ID p;
                  Window_Style := pending_Window_Style p;
                  Width := w;
                  Height := h |} in
      Server.parse_products_from_text (pre ++ newline ++ f)
      = Py.Ok (products ++ [r])%list /\
      forall post : string,
        Server.parse_products_from_text (pre ++ newline ++ f ++ newline ++ post)
        = (rest <- Server.parse_products_from_text post ;;
           Py.Ok (products ++ r :: rest)%list)).
Proof.
  split; [|split].
  - intros text products H.
    apply parse_ok_final_state in H as (pending & H). unfold final_state in H.
    apply scan_invariant_holds in H as ((pairs & P & _ & R) & _).
    cbn [fst] in R. exists pairs. split; [exact P|].
    eapply Forall2_impl; [|exact R].
    intros [j i] r (d & f & _ & Hf & Rec). cbn [snd] in *.
    unfold normalized_lines in Hf. rewrite nth_error_map in Hf.
    destruct (nth_error (Py.split LF text) i) as [raw|] eqn:E; [|discriminate].
    injection Hf as <-.
    destruct Rec as (m & _ & _ & _ & _ & C & _).
    exists raw. split; [reflexivity|].
    split; [|exact C]. now rewrite <- colour_of_raw_line.
  - intros pre seg H. split.
    + now rewrite last_segment_app, last_segment_whole.
    + now apply last_segment_whole.
  - intros pre f products p w h Hpre Hf F Hw Hh B r. subst r.
    eapply frame_line_appends_record; try eassumption.
    now rewrite (strip_blank _ B).
Qed.

Lemma colour_is_the_trimmed_last_segment_witness :
  Server.parse_products_from_text
    (example_desc ++ newline ++ "Frame: Width = 73, Height = 36.5,  ")
  = Py.Ok [ {| Manufacturer := "CWS";
               Frame_Color := "";
               Series_ID := "7300 Series";
               Window_Style := "Direct Set Half Round";
               Width := Some (Py.dyadic 73 0);
               Height := Some (Py.dyadic 73 (-1)) |} ] /\
  exists pairs : list (nat * nat),
    (forall j i,
        In (j, i) pairs <->
        paired (map classify
                  (normalized_lines
                     (example_desc ++ newline ++ "Frame: Width = 73, White , ")))
               j i) /\
    Forall2
      (fun ji r =>
         exists raw : string,
           nth_error
             (Py.split LF
                (example_desc ++ newline ++ "Frame: Width = 73, White , "))
             (snd ji) = Some raw /\
           Frame_Color r = Py.strip (Py.last_item (Py.split comma raw)) /\
           Frame_Color r =
             Py.strip (Py.last_item (Py.split comma (Py.strip raw))))
      pairs
      [ {| Manufacturer := "CWS";
           Frame_Color := "";
           Series_ID := "7300 Series";
           Window_Style := "Direct Set Half Round";
           Width := Some (Py.dyadic 73 0);
           Height := None |} ].
Proof.
  split.
  - refine (proj1 (proj2 (proj2 colour_is_the_trimmed_last_segment)
                     example_desc "Frame: Width = 73, Height = 36.5,  " []
                     (pending_of ["7300"; "Direct Set Half Round"])
                     (Some (Py.dyadic 73 0)) (Some (Py.dyadic 73 (-1)))
                     _ _ _ _ _ _));
      vm_compute; reflexivity.
  - refine (proj1 colour_is_the_trimmed_last_segment
              (example_desc ++ newline ++ "Frame: Width = 73, White , ")
              _ _).
    vm_compute. reflexivity.
Defined.

(** ** The dimension separator *)

Section Counts.

Lemma first_some_ext {A B : Type} (f g : A -> option B) (l : list A) :
  (forall x, f x = g x) -> Re.first_some f l = Re.first_some g l.
Proof.
  intros H. induction l as [|x l IH]; [reflexivity|].
  cbn. now rewrite H, IH.
Qed.

Lemma first_some_in {A B : Type} (f : A -> option B) (l : list A) (b : B) :
  Re.first_some f l = Some b -> exists x, In x l /\ f x = Some b.
Proof.
  induction l as [|x l IH]; cbn; [discriminate|].
  destruct (f x) as [y|] eqn:E.
  - intros [= <-]. exists x. split; [now left | exact E].
  - intros H. destruct (IH H) as (z & I & Z). exists z. split; [now right | exact Z].
Qed.

Lemma counts_range (a : Re.atom) (n c : nat) :
  In c (Re.counts a n) -> Re.lo a <= c <= n.
Proof.
  unfold Re.counts. intros H.
  assert (I : In c (seq (Re.lo a) (S n - Re.lo a)))
    by (destruct (Re.mode a); [now apply in_rev | exact H]).
  apply in_seq in I. lia.
Qed.

(** [match_counts] is the matcher: the groups of [Re.match_here] are
    those cut out by its counts. *)
Lemma match_here_counts (re : Re.pattern) :
  forall s : string,
    Re.match_here re s =
    match match_counts re s with
    | Some cs => Some (groups_of re cs s)
    | None => None
    end.
Proof.
  induction re as [|a re IH]; intros s; [reflexivity|].
  cbn [Re.match_here match_counts].
  generalize (Re.counts a (Re.avail a s)) as l.
  induction l as [|c l IHl]; [reflexivity|].
  cbn [Re.first_some]. rewrite IH.
  destruct (match_counts re (Re.drop c s)) as [cs|]; [reflexivity | exact IHl].
Qed.

Lemma avail_le_span (a : Re.atom) (s : string) :
  Re.avail a s <= Re.span (Re.cls a) s.
Proof. unfold Re.avail. destruct (Re.hi a); lia. Qed.

(** Every element takes at least its least number of characters, and
    all of them pass its test. *)
Lemma match_counts_bounds (re : Re.pattern) :
  forall (s : string) (cs : list nat),
    match_counts re s = Some cs ->
    Forall2 (fun a c => Re.lo a <= c) re cs.
Proof.
  induction re as [|a re IH]; intros s cs H.
  - injection H as <-. constructor.
  - cbn [match_counts] in H. apply first_some_in in H as (c & I & H).
    destruct (match_counts re (Re.drop c s)) as [cs'|] eqn:E; [|discriminate].
    injection H as <-. constructor; [|now apply (IH _ _ E)].
    apply counts_range in I. lia.
Qed.

Lemma drop_drop (n m : nat) (s : string) :
  Re.drop m (Re.drop n s) = Re.drop (n + m) s.
Proof.
  revert s. induction n as [|n IH]; intros s; [reflexivity|].
  destruct s as [|c r]; [now destruct m | apply IH].
Qed.

Lemma match_counts_chars (re : Re.pattern) :
  forall (s : string) (cs : list nat) (n : nat) (a : Re.atom) (c : nat),
    match_counts re s = Some cs ->
    nth_error re n = Some a -> nth_error cs n = Some c ->
    c <= Re.span (Re.cls a) (Re.drop (list_sum (firstn n cs)) s).
Proof.
  induction re as [|a0 re IH]; intros s cs n a c H Ha Hc;
    [destruct n; discriminate|].
  cbn [match_counts] in H. apply first_some_in in H as (c0 & I & H).
  destruct (match_counts re (Re.drop c0 s)) as [cs'|] eqn:E; [|discriminate].
  injection H as <-. destruct n as [|n].
  - cbn in Ha, Hc |- *. injection Ha as <-. injection Hc as <-.
    apply counts_range in I. pose proof (avail_le_span a0 s). lia.
  - cbn [nth_error] in Ha, Hc.
    change (list_sum (firstn (S n) (c0 :: cs')))
      with (c0 + list_sum (firstn n cs')).
    rewrite <- drop_drop. now apply (IH _ _ _ _ _ E).
Qed.

(** Two texts that differ in the case of letters only are matched with
    the same counts. *)
Lemma match_counts_same (re : Re.pattern) :
  Forall (fun a => fold_blind (Re.cls a)) re ->
  forall s1 s2, same_fold s1 s2 = true ->
                match_counts re s1 = match_counts re s2.
Proof.
  induction 1 as [|a re B _ IH]; intros s1 s2 H; [reflexivity|].
  cbn [match_counts].
  replace (Re.avail a s2) with (Re.avail a s1)
    by (unfold Re.avail; now rewrite (same_fold_span _ s1 s2 B H)).
  apply first_some_ext. intros c.
  now rewrite (IH _ _ (same_fold_drop c _ _ H)).
Qed.

Lemma take_app_within (c : nat) (a t : string) :
  c <= String.length a -> Re.take c (a ++ t) = Re.take c a.
Proof.
  revert a. induction c as [|c IH]; intros [|x a] H; cbn in *;
    try lia; try reflexivity; try (now destruct t).
  rewrite IH by lia. reflexivity.
Qed.

Lemma drop_app_within (c : nat) (a t : string) :
  c <= String.length a -> Re.drop c (a ++ t) = Re.drop c a ++ t.
Proof.
  revert a. induction c as [|c IH]; intros [|x a] H; cbn in *;
    try lia; try reflexivity; try (now destruct t).
  apply IH. lia.
Qed.

Lemma drop_app_past (c : nat) (a : string) (x : ascii) (t : string) :
  String.length a < c ->
  Re.drop c (a ++ String x t) = Re.drop (c - S (String.length a)) t.
Proof.
  revert c. induction a as [|y a IH]; intros [|c] H; cbn in *; try lia.
  - now rewrite Nat.sub_0_r.
  - apply IH. lia.
Qed.

Lemma length_drop (c : nat) (a : string) :
  String.length (Re.drop c a) = String.length a - c.
Proof.
  revert a. induction c as [|c IH]; intros [|x a]; cbn; try lia. apply IH.
Qed.

(** A character outside every group can be changed without changing the
    groups. *)
Lemma groups_of_change (re : Re.pattern) :
  forall (cs : list nat) (a : string) (c1 c2 : ascii) (b : string),
    uncaptured re cs (String.length a) ->
    groups_of re cs (a ++ String c1 b) = groups_of re cs (a ++ String c2 b).
Proof.
  induction re as [|a0 re IH]; intros [|c cs] a c1 c2 b U; try reflexivity.
  cbn [groups_of uncaptured] in *.
  destruct (Nat.ltb_spec (String.length a) c) as [L | L].
  - rewrite U, !drop_app_past by exact L. reflexivity.
  - rewrite !drop_app_within, !take_app_within by exact L.
    rewrite (IH cs (Re.drop c a) c1 c2 b)
      by (now rewrite length_drop).
    reflexivity.
Qed.

(** The place where an element that takes a character and is no group
    begins lies in no group. *)
Lemma uncaptured_at (n : nat) :
  forall (re : Re.pattern) (cs : list nat) (a : Re.atom),
    Forall2 (fun a c => Re.lo a <= c) re cs ->
    nth_error re n = Some a ->
    Re.captured a = false -> 1 <= Re.lo a ->
    uncaptured re cs (list_sum (firstn n cs)).
Proof.
  induction n as [|n IH]; intros re cs a F Ha C L;
    destruct F as [|a0 c re cs Hc F]; try discriminate.
  - injection Ha as ->. cbn [firstn list_sum fold_right uncaptured].
    destruct (Nat.ltb_spec 0 c); [exact C | lia].
  - cbn [nth_error] in Ha.
    change (list_sum (firstn (S n) (c :: cs)))
      with (c + list_sum (firstn n cs)).
    cbn [uncaptured].
    destruct (Nat.ltb_spec (c + list_sum (firstn n cs)) c); [lia|].
    replace (c + list_sum (firstn n cs) - c) with (list_sum (firstn n cs))
      by lia.
    now apply (IH re cs a).
Qed.

End Counts.
Section Separator.

Lemma lit_x_cases (c : ascii) :
  Re.lit_i "x" c = true -> c = "x"%char \/ c = "X"%char.
Proof. each_char c; vm_compute; intros H; auto; discriminate H. Qed.

Lemma Forall2_nth_error {A B : Type} (R : A -> B -> Prop) (l : list A)
    (l' : list B) (n : nat) (a : A) (b : B) :
  Forall2 R l l' ->
  nth_error l n = Some a -> nth_error l' n = Some b -> R a b.
Proof.
  intros F. revert n. induction F as [|x y l l' H _ IH]; intros [|n] Ha Hb;
    try discriminate.
  - injection Ha as <-. injection Hb as <-. exact H.
  - now apply (IH n).
Qed.

Lemma take_length_of_drop (k : nat) (s : string) (c : ascii) (v : string) :
  Re.drop k s = String c v -> String.length (Re.take k s) = k.
Proof.
  revert s. induction k as [|k IH]; intros [|x s] H; cbn in *;
    try discriminate; [reflexivity|]. now rewrite (IH s).
Qed.

(** The counts of a line whose separator is at place [k]: that place
    lies in no group and holds an [x] of either case. *)
Lemma separator_counts (line : string) (k : nat) :
  separator line = Some k ->
  exists cs,
    match_counts Re.desc_pattern line = Some cs /\
    uncaptured Re.desc_pattern cs k /\
    1 <= Re.span (Re.lit_i "x") (Re.drop k line).
Proof.
  unfold separator. intros H.
  destruct (match_counts Re.desc_pattern line) as [cs|] eqn:M; [|discriminate].
  assert (K : k = list_sum (firstn x_element cs))
    by (injection H as H; symmetry; exact H).
  clear H. subst k. exists cs. split; [reflexivity|].
  pose proof (match_counts_bounds _ _ _ M) as F.
  split.
  - now apply (uncaptured_at x_element _ _ (Re.one (Re.lit_i "x")) F).
  - destruct (nth_error cs x_element) as [c|] eqn:E.
    + pose proof (match_counts_chars _ _ _ x_element
                    (Re.one (Re.lit_i "x")) c M eq_refl E) as S.
      pose proof (Forall2_nth_error _ _ _ x_element _ _ F eq_refl E) as Hc.
      cbn in Hc. cbn [Re.cls Re.one] in S. lia.
    + exfalso. apply nth_error_None in E.
      apply Forall2_length in F. cbn in F. unfold x_element in E. lia.
Qed.

Lemma separator_place (line : string) (k : nat) :
  separator line = Some k ->
  exists u c v,
    line = u ++ String c v /\ String.length u = k /\
    (c = "x"%char \/ c = "X"%char).
Proof.
  intros H. destruct (separator_counts _ _ H) as (cs & _ & _ & S).
  destruct (drop_in_span (Re.lit_i "x") 0 (Re.drop k line))
    as (c & v & D & X); [lia|].
  cbn [Re.drop] in D.
  assert (D' : Re.drop k line = String c v) by (now destruct (Re.drop k line)).
  exists (Re.take k line), c, v. split; [|split].
  - now rewrite <- D', take_drop.
  - now apply (take_length_of_drop k line c v).
  - now apply lit_x_cases.
Qed.

(** With a capital [X] as the separator the match is the very same. *)
Lemma capital_separator_match (a b : string) :
  separator (a ++ "x" ++ b) = Some (String.length a) ->
  exists m,
    Re.re_match Re.desc_pattern (a ++ "x" ++ b) = Some m /\
    Re.re_match Re.desc_pattern (a ++ "X" ++ b) = Some m.
Proof.
  intros H. destruct (separator_counts _ _ H) as (cs & M & U & _).
  assert (F : same_fold (a ++ "X" ++ b) (a ++ "x" ++ b) = true).
  { apply same_fold_app; [apply same_fold_refl|].
    apply (same_fold_app "X" "x"); [reflexivity | apply same_fold_refl]. }
  exists (groups_of Re.desc_pattern cs (a ++ "x" ++ b)).
  unfold Re.re_match. rewrite !match_here_counts.
  rewrite (match_counts_same _ desc_pattern_blind _ _ F), M.
  split; [reflexivity|]. f_equal.
  now apply (groups_of_change Re.desc_pattern cs a "X" "x" b).
Qed.

Lemma lstrip_app_nonspace (a : string) (c : ascii) (b : string) :
  Py.isspace c = false ->
  Py.lstrip (a ++ String c b) = Py.lstrip a ++ String c b.
Proof.
  intros H. induction a as [|x a IH]; cbn; [now rewrite H|].
  destruct (Py.isspace x); [exact IH | reflexivity].
Qed.

Lemma strip_around (a : string) (c : ascii) (b : string) :
  Py.isspace c = false ->
  Py.strip (a ++ String c b) = Py.lstrip a ++ String c (Py.rstrip b).
Proof.
  intros H. unfold Py.strip. rewrite (lstrip_app_nonspace a c b H).
  rewrite rstrip_app; rewrite (rstrip_cons c b H); [reflexivity | discriminate].
Qed.

(** Two lines on which the body of the loop does the same can stand
    for one another in a text. *)
Lemma scan_same_line (l1 l2 : string) :
  one_line l1 -> one_line l2 ->
  (forall st, Server.loop_body st (Py.strip l1)
              = Server.loop_body st (Py.strip l2)) ->
  forall pre post : string,
    Server.parse_products_from_text (l1 ++ newline ++ post)
    = Server.parse_products_from_text (l2 ++ newline ++ post) /\
    Server.parse_products_from_text (pre ++ newline ++ l1 ++ newline ++ post)
    = Server.parse_products_from_text (pre ++ newline ++ l2 ++ newline ++ post).
Proof.
  intros H1 H2 B pre post. rewrite !parse_final_state. unfold final_state.
  rewrite !normalized_lines_app.
  rewrite (normalized_lines_one l1 H1), (normalized_lines_one l2 H2).
  rewrite !for_each_app. cbn [for_each]. rewrite B. split; [reflexivity|].
  destruct (for_each Server.loop_body ([], None) (normalized_lines pre));
    [|reflexivity].
  cbn [Py.bind app for_each]. now rewrite B.
Qed.

Lemma one_line_app (a b : string) :
  one_line a -> one_line b -> one_line (a ++ b).
Proof. unfold one_line. intros Ha Hb. now rewrite all_chars_app, Ha, Hb. Qed.

End Separator.

(** C10: the description pattern is blind to the case of letters in the
    whole line.  Two lines that differ in the case of letters only both
    match or both fail, and their groups agree up to case, the four digits
    exactly.  With the word [Series] written in any case after the four
    digits the match is the very same.  A matching line in which any [x]
    is made a capital [X] still matches, with the same digits and the same
    style up to case.  The dimension separator of a matching line is the
    character that the [x] of the pattern meets in the match, which the
    matcher that keeps the counts of the elements tells; it is an [x] of
    either case.  A line whose separator is written [X] matches with the very
    groups of the line with [x], and in any text the one line can stand
    for the other: the scan gives the same outcome, record by record.  The
    example description written with [series], or with a capital [X]
    between the dimensions, gives the record of the example. *)
Theorem description_match_ignores_case :
  (forall l1 l2 : string,
      same_fold l1 l2 = true ->
      same_match (Re.re_match Re.desc_pattern l1)
                 (Re.re_match Re.desc_pattern l2) /\
      forall m1 m2,
        Re.re_match Re.desc_pattern l1 = Some m1 ->
        Re.re_match Re.desc_pattern l2 = Some m2 ->
        Re.group 1 m1 = Re.group 1 m2) /\
  (forall d ws w rest : string,
      String.length d = 4 -> all_chars Py.isdecimal d = true ->
      ws <> "" -> blank ws ->
      same_fold w "Series" = true ->
      Re.re_match Re.desc_pattern (d ++ ws ++ w ++ rest) =
      Re.re_match Re.desc_pattern (d ++ ws ++ "Series" ++ rest)) /\
  (forall (a b : string) (m : list string),
      Re.re_match Re.desc_pattern (a ++ "x" ++ b) = Some m ->
      exists m',
        Re.re_match Re.desc_pattern (a ++ "X" ++ b) = Some m' /\
        Re.group 1 m' = Re.group 1 m /\
        same_fold (Re.group 2 m) (Re.group 2 m') = true) /\
  (forall line : string,
      Re.re_match Re.desc_pattern line =
      match match_counts Re.desc_pattern line with
      | Some cs => Some (groups_of Re.desc_pattern cs line)
      | None => None
      end /\
      (forall m, Re.re_match Re.desc_pattern line = Some m ->
                 exists k, separator line = Some k) /\
      (forall k, separator line = Some k ->
                 exists u c v,
                   line = u ++ String c v /\ String.length u = k /\
                   (c = "x"%char \/ c = "X"%char))) /\
  (forall a b : string,
      separator (a ++ "x" ++ b) = Some (String.length a) ->
      exists m,
        Re.re_match Re.desc_pattern (a ++ "x" ++ b) = Some m /\
        Re.re_match Re.desc_pattern (a ++ "X" ++ b) = Some m) /\
  (forall a b pre post : string,
      one_line a -> one_line b ->
      separator (Py.strip (a ++ "x" ++ b))
      = Some (String.length (Py.lstrip a)) ->
      Server.parse_products_from_text ((a ++ "X" ++ b) ++ newline ++ post)
      = Server.parse_products_from_text ((a ++ "x" ++ b) ++ newline ++ post) /\
      Server.parse_products_from_text
        (pre ++ newline ++ (a ++ "X" ++ b) ++ newline ++ post)
      = Server.parse_products_from_text
          (pre ++ newline ++ (a ++ "x" ++ b) ++ newline ++ post)) /\
  Server.parse_products_from_text
    ("7300 series Direct Set Half Round 73 x 36 1/2 - FLANGE"
     ++ newline ++ example_frame) = Py.Ok [example_record] /\
  Server.parse_products_from_text
    ("7300 Series Direct Set Half Round 73 X 36 1/2 - FLANGE"
     ++ newline ++ example_frame) = Py.Ok [example_record] /\
  Server.parse_products_from_text
    (example_desc ++ newline ++ example_frame) = Py.Ok [example_record].
Proof.
  assert (G : forall l1 l2 m1 m2,
             same_fold l1 l2 = true ->
             Re.re_match Re.desc_pattern l1 = Some m1 ->
             Re.re_match Re.desc_pattern l2 = Some m2 ->
             Re.group 1 m1 = Re.group 1 m2).
  { intros l1 l2 m1 m2 H M1 M2.
    destruct (desc_group_1 _ _ M1) as (G1 & _ & D1).
    destruct (desc_group_1 _ _ M2) as (G2 & _ & D2).
    apply same_fold_digits; [exact D1 | exact D2 |].
    rewrite G1, G2. now apply same_fold_take. }
  split; [|split; [|split; [|split; [|split; [|split;
    [|repeat split; vm_compute; reflexivity]]]]]].
  - intros l1 l2 H. split; [|intros m1 m2; now apply G].
    exact (match_here_same _ desc_pattern_blind l1 l2 H).
  - intros d ws w rest Ld Dd Nws Bws Hw.
    rewrite (desc_match_shape d ws w rest) by assumption.
    now rewrite (desc_match_shape d ws "Series" rest).
  - intros a b m M.
    assert (H : same_fold (a ++ "x" ++ b) (a ++ "X" ++ b) = true).
    { apply same_fold_app; [apply same_fold_refl|].
      apply (same_fold_app "x" "X"); [reflexivity | apply same_fold_refl]. }
    pose proof (match_here_same _ desc_pattern_blind _ _ H) as S.
    unfold Re.re_match in *. rewrite M in S.
    destruct (Re.match_here Re.desc_pattern (a ++ "X" ++ b)) as [m'|] eqn:M';
      [|contradiction].
    exists m'. split; [reflexivity|]. split.
    + symmetry. now apply (G _ _ _ _ H M M').
    + cbn in S. unfold Re.group. cbn [Nat.sub].
      destruct S as [|x y l l' _ S]; [reflexivity|].
      destruct S as [|x2 y2 l2 l2' E _]; [reflexivity | exact E].
  - intros line. split; [apply match_here_counts|]. split.
    + intros m M. unfold Re.re_match in M. rewrite match_here_counts in M.
      unfold separator.
      destruct (match_counts Re.desc_pattern line); [now eexists | discriminate].
    + apply separator_place.
  - apply capital_separator_match.
  - intros a b pre post Ha Hb S.
    assert (Nx : Py.isspace "x" = false) by reflexivity.
    assert (NX : Py.isspace "X" = false) by reflexivity.
    apply scan_same_line.
    + apply one_line_app; [exact Ha | now apply (one_line_app "X" b)].
    + apply one_line_app; [exact Ha | now apply (one_line_app "x" b)].
    + intros [ps pend].
      change (a ++ "X" ++ b) with (a ++ String "X" b).
      change (a ++ "x" ++ b) with (a ++ String "x" b) in *.
      rewrite (strip_around a "x" b Nx) in S.
      rewrite (strip_around a "X" b NX), (strip_around a "x" b Nx).
      destruct (capital_separator_match _ _ S) as (m & Mx & MX).
      cbn [append] in Mx, MX.
      now rewrite (body_desc_line _ _ _ _ Mx), (body_desc_line _ _ _ _ MX).
Qed.

Lemma description_match_ignores_case_witness :
  Re.re_match Re.desc_pattern
    ("7300" ++ " " ++ "sERIES" ++ " Direct Set Half Round 73 x 36 1/2 - FLANGE")
  = Re.re_match Re.desc_pattern
    ("7300" ++ " " ++ "Series" ++ " Direct Set Half Round 73 x 36 1/2 - FLANGE")
  /\
  Server.parse_products_from_text
    (("  7300 Series Fixed Sash 73 " ++ "X" ++ " 36 1/2 - FLANGE ")
     ++ newline ++ example_frame)
  = Server.parse_products_from_text
    (("  7300 Series Fixed Sash 73 " ++ "x" ++ " 36 1/2 - FLANGE ")
     ++ newline ++ example_frame).
Proof.
  split.
  - refine (proj1 (proj2 description_match_ignores_case)
              "7300" " " "sERIES" " Direct Set Half Round 73 x 36 1/2 - FLANGE"
              _ _ _ _ _); try reflexivity.
    discriminate.
  - refine (proj1 (proj1 (proj2 (proj2 (proj2 (proj2
              (proj2 description_match_ignores_case)))))
              "  7300 Series Fixed Sash 73 " " 36 1/2 - FLANGE " ""
              example_frame _ _ _));
      vm_compute; reflexivity.
Defined.
